(** * Media asset lifecycle and ownership enforcement

    A shallow embedding of the media routes ([routes_media.py]), their
    helpers ([media_helpers.py]) and the validation / preview utilities
    ([utils.py]).

    The document store, the blob store, the HTTP client, the JSON decoder,
    the response model and the imaging library are collaborators whose code
    is not part of these modules.  They are taken as an environment
    ([Env]): every theorem below holds for every behaviour of these
    collaborators.  Each call of a stateful collaborator is recorded,
    together with its outcome, in a trace; "no storage write occurs" thus
    reads "no [EvUploadFile] event is recorded". *)

From Stdlib Require Import ZArith Ascii String List Lia Bool Floats.
From stdpp Require Import gmap strings list fin_maps pretty.

Set Warnings "-register-all".

Local Open Scope Z_scope.
Local Open Scope string_scope.

(** ** Python values and strings *)

Module Py.

Abbreviation bytes := (list Byte.byte).

(** The values that live in asset documents and that [json.loads]
    produces. *)
Inductive Val : Type :=
| VNone
| VBool (b : bool)
| VInt (n : Z)
| VFloat (f : float)
| VStr (s : string)
| VList (items : list Val)
| VDict (items : list (string * Val)).

(** [isinstance(v, list)] *)
Definition is_list (v : Val) : bool :=
  match v with VList _ => true | _ => false end.

(** Truth value of a Python object ([if v:] / [not v]). *)
Definition truthy (v : Val) : bool :=
  match v with
  | VNone => false
  | VBool b => b
  | VInt n => negb (Z.eqb n 0)
  | VFloat f => negb (PrimFloat.eqb f 0%float)
  | VStr s => negb (String.eqb s "")
  | VList l => match l with [] => false | _ => true end
  | VDict l => match l with [] => false | _ => true end
  end.

(** [v != s] for a [str] [s]: only an equal string compares equal. *)
Definition ne_str (v : Val) (s : string) : bool :=
  match v with VStr t => negb (String.eqb t s) | _ => true end.

(** [str.lower()] on the ASCII range. *)
Definition lower_ascii (c : ascii) : ascii :=
  let n := nat_of_ascii c in
  if ((65 <=? n)%nat && (n <=? 90)%nat)%bool then ascii_of_nat (n + 32) else c.

Fixpoint lower (s : string) : string :=
  match s with
  | EmptyString => EmptyString
  | String c s' => String (lower_ascii c) (lower s')
  end.

(** [s.split("/")]: never empty. *)
Fixpoint split_slash (s : string) : list string :=
  match s with
  | EmptyString => [EmptyString]
  | String c s' =>
      let r := split_slash s' in
      if Ascii.eqb c "/"%char then EmptyString :: r
      else match r with
           | x :: xs => String c x :: xs
           | [] => [String c EmptyString]
           end
  end.

(** [s.split("/")[-1]] *)
Definition last_segment (s : string) : string :=
  List.last (split_slash s) EmptyString.

(** [s.replace(old, new)] for a non-empty [old]: scan left to right,
    replace every non-overlapping occurrence.  [skip] counts the
    characters of a matched occurrence that are still to be dropped. *)
Fixpoint replace_go (old new : string) (skip : nat) (s : string) : string :=
  match s with
  | EmptyString => EmptyString
  | String c s' =>
      match skip with
      | S k => replace_go old new k s'
      | O =>
          if String.prefix old s
          then new +:+ replace_go old new (String.length old - 1) s'
          else String c (replace_go old new 0 s')
      end
  end.

(** [s.replace("", new)]: [new] before every character and at the end. *)
Fixpoint interleave (new s : string) : string :=
  match s with
  | EmptyString => new
  | String c s' => new +:+ String c (interleave new s')
  end.

Definition replace (old new s : string) : string :=
  match old with
  | EmptyString => interleave new s
  | _ => replace_go old new 0 s
  end.

(** [old in s] *)
Fixpoint occurs (old s : string) : bool :=
  String.prefix old s ||
  match s with
  | EmptyString => false
  | String _ s' => occurs old s'
  end.

(** No occurrence of [old] in [pre +:+ rest] starts inside [pre]. *)
Fixpoint starts_after (old pre rest : string) : bool :=
  match pre with
  | EmptyString => true
  | String _ pre' =>
      negb (String.prefix old (pre +:+ rest)) && starts_after old pre' rest
  end.

(** The exceptions the modules raise or catch.  [JSONDecodeError] is a
    subclass of [ValueError]; all of them are subclasses of [Exception]. *)
Inductive Exn : Type :=
| HTTPException (status_code : Z) (detail : string)
| JSONDecodeError (msg : string)
| ValueError (msg : string)
| KeyError (key : string)
| AttributeError (msg : string)
| IndexError (msg : string)
| OtherException (msg : string).

Definition is_HTTPException (e : Exn) : bool :=
  match e with HTTPException _ _ => true | _ => false end.

Definition is_JSONDecodeError (e : Exn) : bool :=
  match e with JSONDecodeError _ => true | _ => false end.

(** [isinstance(e, ValueError)] *)
Definition is_ValueError (e : Exn) : bool :=
  match e with JSONDecodeError _ | ValueError _ => true | _ => false end.

(** [str(e)] *)
Definition str_exn (e : Exn) : string :=
  match e with
  | HTTPException c d => pretty c +:+ ": " +:+ d
  | JSONDecodeError m | ValueError m | AttributeError m
  | IndexError m | OtherException m => m
  | KeyError k => "'" +:+ k +:+ "'"
  end.

(** [f"{x}"] for an optional string. *)
Definition fmt_opt (o : option string) : string :=
  match o with Some s => s | None => "None" end.

End Py.
Import Py.

(** ** The request data and the collaborators *)

(** An asset document, a partial-update dict, a JSON payload: a Python
    [dict] with string keys. *)
Abbreviation Doc := (gmap string Val).

(** [doc[k]]: raises [KeyError] on a missing key. *)
Definition getitem (d : Doc) (k : string) : Exn + Val :=
  match d !! k with
  | Some v => inr v
  | None => inl (KeyError k)
  end.

(** [doc.get(k)]: [None] on a missing key. *)
Definition dict_get (d : Doc) (k : string) : Val :=
  match d !! k with
  | Some v => v
  | None => VNone
  end.

(** [Optional[str]] as a document value. *)
Definition of_opt (o : option string) : Val :=
  match o with Some s => VStr s | None => VNone end.

(** Truth value of an [Optional[str]]. *)
Definition truthy_str (o : option string) : bool :=
  match o with Some s => negb (String.eqb s "") | None => false end.

(** The binary stream behind an upload ([uploaded_file.file], or an
    [io.BytesIO]): its content and the read position. *)
Record Stream : Type := { data : bytes; pos : nat }.

Definition BytesIO (b : bytes) : Stream := {| data := b; pos := 0 |}.
Definition seek_end (f : Stream) : Stream := {| data := data f; pos := length (data f) |}.
Definition seek_start (f : Stream) : Stream := {| data := data f; pos := 0 |}.
Definition tell (f : Stream) : Z := Z.of_nat (pos f).
(** [read()]: what is left after the read position. *)
Definition read_all (f : Stream) : bytes * Stream := (drop (pos f) (data f), seek_end f).

(** FastAPI's [UploadFile]: declared name and content type are optional. *)
Record UploadFile : Type := {
  filename : option string;
  content_type : option string;
  file : Stream
}.

(** The request body of an update ([MediaUpdate]): an attribute is [None]
    when the field is omitted and also when it is sent as JSON [null]. *)
Record MediaUpdate : Type := {
  description : option string;
  tags : option (list string)
}.

Record MediaListResponse : Type := {
  items : list Doc;
  total : Z;
  page : Z;
  pageSize : Z
}.

(** [config.settings] *)
Record Settings : Type := {
  allowed_image_types : string;
  allowed_video_types : string;
  allowed_image_types_list : list string;
  allowed_video_types_list : list string;
  max_file_size_bytes : Z;
  logic_app_url : option string
}.

(** A decoded image of the imaging library. *)
Record Image : Type := { mode : string; image_size : Z * Z; raster : bytes }.

Inductive Level : Type := INFO | WARNING | ERROR.

(** One call of a stateful collaborator, with its arguments and its
    outcome ([inl e]: the call raised [e]). *)
Inductive Event : Type :=
| EvGetMediaById (asset_id user_id : string) (r : Exn + option Doc)
| EvCreateMedia (doc : Doc) (r : Exn + Doc)
| EvUpdateMedia (asset_id user_id : string) (updates : Doc) (r : Exn + Doc)
| EvDeleteMedia (asset_id user_id : string) (r : Exn + unit)
| EvSearchMedia (user_id query : string) (pg pg_size : Z) (r : Exn + list Doc * Z)
| EvGetUserMedia (user_id : string) (pg pg_size : Z) (media_type : option string)
    (r : Exn + list Doc * Z)
| EvUploadFile (stream : Stream) (user_id : string) (name ctype : option string)
    (r : Exn + string * string)
| EvDeleteFile (key : Val) (r : Exn + unit)
| EvHttpPost (url : string) (json : Doc) (r : Exn + Z)
| EvUuid4 (s : string)
| EvUtcNow (s : string)
| EvCreateTask
| EvLog (lvl : Level) (msg : string).

(** The history of a request, latest event first. *)
Abbreviation Trace := (list Event).

(** The collaborators.  The stateful ones see the history, so that a store
    can answer according to what was written before. *)
Record Env : Type := {
  settings : Settings;
  (* database.cosmos_db *)
  get_media_by_id : Trace -> string -> string -> Exn + option Doc;
  create_media : Trace -> Doc -> Exn + Doc;
  update_media : Trace -> string -> string -> Doc -> Exn + Doc;
  delete_media : Trace -> string -> string -> Exn + unit;
  search_media : Trace -> string -> string -> Z -> Z -> Exn + list Doc * Z;
  get_user_media : Trace -> string -> Z -> Z -> option string -> Exn + list Doc * Z;
  (* storage.blob_storage *)
  upload_file : Trace -> Stream -> string -> option string -> option string ->
                Exn + string * string;
  delete_file : Trace -> Val -> Exn + unit;
  (* httpx *)
  http_post : Trace -> string -> Doc -> Exn + Z;
  raise_for_status : Z -> Exn + unit;
  (* uuid, datetime *)
  uuid4 : Trace -> string;
  utcnow_isoformat : Trace -> string;
  (* json.loads, models.MediaResponse *)
  json_loads : string -> Exn + Val;
  MediaResponse : Doc -> Exn + Doc;
  (* PIL.Image *)
  Image_open : bytes -> Exn + Image;
  Image_new : string -> Z * Z -> Z * Z * Z -> Exn + Image;
  Image_convert : Image -> string -> Exn + Image;
  Image_split : Image -> Exn + list Image;
  Image_paste : Image -> Image -> option Image -> Exn + Image;
  Image_thumbnail : Image -> Z * Z -> Exn + Image;
  Image_save_jpeg : Image -> Z -> bool -> Exn + bytes;
  (* the "{:.2f} MB" / "{:.0f} MB" rendering of the 413 detail *)
  size_detail : Z -> Z -> string
}.

(** ** A monad: read the history, emit events, raise *)

(** A computation reads the history so far [tr] and yields the events it
    adds (latest first) and either a value or a raised exception. *)
Definition M (A : Type) : Type := Trace -> list Event * (Exn + A).

Definition ret {A} (a : A) : M A := fun _ => ([], inr a).
Definition raise {A} (e : Exn) : M A := fun _ => ([], inl e).
Definition bind {A B} (m : M A) (k : A -> M B) : M B :=
  fun tr =>
    match m tr with
    | (ev1, inr a) => let r := k a (ev1 ++ tr)%list in ((fst r ++ ev1)%list, snd r)
    | (ev1, inl e) => (ev1, inl e)
    end.
(** A pure computation that may raise. *)
Definition lift {A} (r : Exn + A) : M A := fun _ => ([], r).
(** [try: m  except Exception as e: h e] *)
Definition try_except {A} (m : M A) (h : Exn -> M A) : M A :=
  fun tr =>
    match m tr with
    | (ev1, inl e) => let r := h e (ev1 ++ tr)%list in ((fst r ++ ev1)%list, snd r)
    | (ev1, inr a) => (ev1, inr a)
    end.
(** Call a stateful collaborator and record the call. *)
Definition call {A} (ev : Exn + A -> Event) (f : Trace -> Exn + A) : M A :=
  fun tr => let r := f tr in ([ev r], r).
(** Read the clock or draw an identifier. *)
Definition ask (ev : string -> Event) (f : Trace -> string) : M string :=
  fun tr => let s := f tr in ([ev s], inr s).
Definition emit (e : Event) : M unit := fun _ => ([e], inr tt).
Definition log (lvl : Level) (msg : string) : M unit := emit (EvLog lvl msg).

Declare Scope m_scope.
Delimit Scope m_scope with M.
Notation "x <- m ;; k" := (bind m (fun x => k))
  (at level 100, m at next level, right associativity) : m_scope.
Notation "m ;;; k" := (bind m (fun _ => k))
  (at level 100, right associativity) : m_scope.
Local Open Scope m_scope.

(** The events a computation adds to the history [tr], and its outcome. *)
Definition emitted {A} (m : M A) (tr : Trace) : list Event := fst (m tr).
Definition result {A} (m : M A) (tr : Trace) : Exn + A := snd (m tr).

(** [mapM] over a list, left to right. *)
Fixpoint lift_all {A B} (f : A -> Exn + B) (l : list A) : Exn + list B :=
  match l with
  | [] => inr []
  | x :: xs =>
      match f x with
      | inl e => inl e
      | inr y => match lift_all f xs with
                 | inl e => inl e
                 | inr ys => inr (y :: ys)
                 end
      end
  end.

(** [{k1: v1, ...}] with distinct keys *)
Definition dict (l : list (string * Val)) : Doc := list_to_map l.

(** ** utils.py *)

Module Utils.
Section Utils.
Variable E : Env.

Definition determine_file_category (uploaded_file : UploadFile) : Exn + string :=
  match content_type uploaded_file with
  | None => inl (AttributeError "'NoneType' object has no attribute 'lower'")
  | Some ct =>
      let mime_type := lower ct in
      if bool_decide (mime_type ∈ allowed_image_types_list (settings E)) then
        inr "image"
      else if bool_decide (mime_type ∈ allowed_video_types_list (settings E)) then
        inr "video"
      else
        inl (HTTPException 400
               ("Content type '" +:+ mime_type
                +:+ "' is not permitted. Supported types: "
                +:+ allowed_image_types (settings E) +:+ ", "
                +:+ allowed_video_types (settings E)))
  end.

(** Returns the measured size and the upload with its stream rewound. *)
Definition verify_file_constraints (uploaded_file : UploadFile)
    (size_limit : option Z) : Exn + Z * UploadFile :=
  let size_limit :=
    match size_limit with
    | None => max_file_size_bytes (settings E)
    | Some l => l
    end in
  let at_end := seek_end (file uploaded_file) in
  let measured_size := tell at_end in
  let rewound := seek_start at_end in
  if Z.gtb measured_size size_limit then
    inl (HTTPException 413 (size_detail E measured_size size_limit))
  else
    inr (measured_size,
         {| filename := filename uploaded_file;
            content_type := content_type uploaded_file;
            file := rewound |}).

Definition transparency_mode (m : string) : bool :=
  String.eqb m "RGBA" || String.eqb m "LA" || String.eqb m "P".

(** [bands[-1]] *)
Definition last_band (bands : list Image) : Exn + Image :=
  match List.rev bands with
  | b :: _ => inr b
  | [] => inl (IndexError "tuple index out of range")
  end.

Definition create_preview_image (visual_data : bytes) (dimension_limit : Z * Z)
    : M (option bytes) :=
  try_except
    (source_image <- lift (Image_open E visual_data);;
     source_image <-
       (if transparency_mode (mode source_image) then
          white_canvas <- lift (Image_new E "RGB" (image_size source_image) (255, 255, 255));;
          source_image <-
            (if String.eqb (mode source_image) "P"
             then lift (Image_convert E source_image "RGBA")
             else ret source_image);;
          mask <-
            (if String.eqb (mode source_image) "RGBA" then
               bands <- lift (Image_split E source_image);;
               band <- lift (last_band bands);;
               ret (Some band)
             else ret None);;
          lift (Image_paste E white_canvas source_image mask)
        else ret source_image);;
     source_image <- lift (Image_thumbnail E source_image dimension_limit);;
     byte_buffer <- lift (Image_save_jpeg E source_image 85 true);;
     ret (Some byte_buffer))
    (fun preview_error =>
       log ERROR ("Preview generation failed: " +:+ str_exn preview_error);;;
       ret None).

Definition validate_file_type := determine_file_category.
Definition validate_file_size := verify_file_constraints.
Definition generate_thumbnail (visual_data : bytes) : M (option bytes) :=
  create_preview_image visual_data (300, 300).

End Utils.
End Utils.

(** ** media_helpers.py *)

Module MediaHelpers.
Section MediaHelpers.
Variable E : Env.

(** [not asset_document]: [None] or an empty dict. *)
Definition absent (asset_document : option Doc) : bool :=
  match asset_document with
  | None => true
  | Some d => Nat.eqb (size d) 0
  end.

Definition retrieve_and_confirm_asset_ownership
    (asset_identifier account_identifier : string) : M Doc :=
  asset_document <-
    call (EvGetMediaById asset_identifier account_identifier)
         (fun tr => get_media_by_id E tr asset_identifier account_identifier);;
  match asset_document with
  | Some d =>
      if absent asset_document then
        raise (HTTPException 404 "Asset resource could not be located")
      else
        owner <- lift (getitem d "userId");;
        if ne_str owner account_identifier then
          raise (HTTPException 403
                   "Authorization failed: insufficient rights to access this asset")
        else ret d
  | None => raise (HTTPException 404 "Asset resource could not be located")
  end.

Definition confirm_asset_presence
    (asset_identifier account_identifier : string) : M Doc :=
  asset_document <-
    call (EvGetMediaById asset_identifier account_identifier)
         (fun tr => get_media_by_id E tr asset_identifier account_identifier);;
  match asset_document with
  | Some d =>
      if absent asset_document then
        raise (HTTPException 404 "Specified asset resource is not available")
      else ret d
  | None => raise (HTTPException 404 "Specified asset resource is not available")
  end.

(** [v.split("/")[-1]]: only a [str] has [split]. *)
Definition split_last (v : Val) : Exn + string :=
  match v with
  | VStr s => inr (last_segment s)
  | _ => inl (AttributeError "object has no attribute 'split'")
  end.

(** [v.replace(old, new)]: only a [str] has this [replace]. *)
Definition replace_in (v : Val) (old new : string) : Exn + string :=
  match v with
  | VStr s => inr (replace old new s)
  | _ => inl (AttributeError "object has no attribute 'replace'")
  end.

Definition parse_preview_storage_identifier (asset_document : Doc)
    : M (option string) :=
  if negb (truthy (dict_get asset_document "thumbnailUrl")) then ret None
  else
    try_except
      (original <- lift (getitem asset_document "originalFileName");;
       source_filename <- lift (split_last original);;
       primary <- lift (getitem asset_document "fileName");;
       preview_storage_id <-
         lift (replace_in primary source_filename ("thumb_" +:+ source_filename));;
       ret (Some preview_storage_id))
      (fun parse_error =>
         log WARNING ("Preview identifier extraction failed: " +:+ str_exn parse_error);;;
         ret None).

End MediaHelpers.
End MediaHelpers.

(** ** routes_media.py *)

Module RoutesMedia.
Section RoutesMedia.
Variable E : Env.

Definition notification_payload : Doc :=
  dict [("type", VStr ""); ("value", VStr ""); ("filename", VStr "")].

Definition notify_logic_app : M unit :=
  match logic_app_url (settings E) with
  | Some url =>
      if String.eqb url "" then
        log WARNING "LOGIC_APP_URL is not configured, skipping notification"
      else
        try_except
          (let payload := notification_payload in
           response <- call (EvHttpPost url payload)
                            (fun tr => http_post E tr url payload);;
           lift (raise_for_status E response);;;
           log INFO "Successfully notified Logic App")
          (fun e => log ERROR ("Failed to notify Logic App: " +:+ str_exn e))
  | None => log WARNING "LOGIC_APP_URL is not configured, skipping notification"
  end.

(** [asyncio.create_task(notify_logic_app())]: the notification runs
    detached; the handler only schedules it. *)
Definition create_task_notify : M unit := emit EvCreateTask.

(** The block "Process label data if present" of [upload_new_asset]
    (lines 76-86).  [except json.JSONDecodeError] catches that class only. *)
Definition process_label_data (label_data : option string) : M Val :=
  match label_data with
  | Some text =>
      if String.eqb text "" then ret VNone
      else
        try_except
          (label_list <- lift (json_loads E text);;
           if negb (is_list label_list) then
             raise (ValueError "Labels must be provided as an array")
           else ret label_list)
          (fun e =>
             if is_JSONDecodeError e then
               raise (HTTPException 400
                        "Label data format invalid. Expected JSON array.")
             else raise e)
  | None => ret VNone
  end.

(** The block "Create preview image for visual assets" of
    [upload_new_asset] (lines 100-116): the value of [preview_image_url]. *)
Definition create_preview_for (uploaded_file : UploadFile)
    (account_identifier asset_type : string) (binary_content : bytes) : M Val :=
  if String.eqb asset_type "image" then
    preview_binary <- Utils.generate_thumbnail E binary_content;;
    match preview_binary with
    | Some (b :: bs) =>   (* [if preview_binary:] non-empty bytes *)
        let preview_stream := BytesIO (b :: bs) in
        let preview_name := Some ("thumb_" +:+ fmt_opt (filename uploaded_file)) in
        try_except
          (previewed <-
             call (EvUploadFile preview_stream account_identifier
                     preview_name (Some "image/jpeg"))
                  (fun tr => upload_file E tr preview_stream account_identifier
                               preview_name (Some "image/jpeg"));;
           ret (VStr (snd previewed)))
          (fun preview_error =>
             log WARNING ("Preview generation failed: " +:+ str_exn preview_error);;;
             ret VNone)
    | _ => ret VNone
    end
  else ret VNone.

(** The block "Construct asset metadata record" of [upload_new_asset]
    (lines 121-135): the dict literal. *)
Definition construct_asset_record (asset_identifier account_identifier
    storage_blob_id : string) (uploaded_file : UploadFile) (asset_type : string)
    (byte_size : Z) (storage_url : string) (preview_image_url : Val)
    (content_description : option string) (label_list : Val)
    (timestamp_now : string) : Doc :=
  dict [
    ("id", VStr asset_identifier);
    ("userId", VStr account_identifier);
    ("fileName", VStr storage_blob_id);
    ("originalFileName", of_opt (filename uploaded_file));
    ("mediaType", VStr asset_type);
    ("fileSize", VInt byte_size);
    ("mimeType", of_opt (content_type uploaded_file));
    ("blobUrl", VStr storage_url);
    ("thumbnailUrl", preview_image_url);
    ("description", of_opt content_description);
    ("tags", label_list);
    ("uploadedAt", VStr timestamp_now);
    ("updatedAt", VStr timestamp_now)
  ].

Definition upload_new_asset (file_ : UploadFile)
    (description_ tags_ : option string) (account_identifier : string) : M Doc :=
  try_except
    (let uploaded_file := file_ in
     let content_description := description_ in
     let label_data := tags_ in
     asset_type <- lift (Utils.validate_file_type E uploaded_file);;
     sized <- lift (Utils.validate_file_size E uploaded_file None);;
     let byte_size := fst sized in
     let uploaded_file := snd sized in
     label_list <- process_label_data label_data;;
     let binary_content := fst (read_all (file uploaded_file)) in
     let stream := seek_start (snd (read_all (file uploaded_file))) in
     stored <-
       call (EvUploadFile stream account_identifier
               (filename uploaded_file) (content_type uploaded_file))
            (fun tr => upload_file E tr stream account_identifier
                         (filename uploaded_file) (content_type uploaded_file));;
     let storage_blob_id := fst stored in
     let storage_url := snd stored in
     preview_image_url <-
       create_preview_for uploaded_file account_identifier asset_type binary_content;;
     asset_identifier <- ask EvUuid4 (uuid4 E);;
     timestamp_now <- ask EvUtcNow (utcnow_isoformat E);;
     let asset_record :=
       construct_asset_record asset_identifier account_identifier storage_blob_id
         uploaded_file asset_type byte_size storage_url preview_image_url
         content_description label_list timestamp_now in
     persisted_asset <- call (EvCreateMedia asset_record)
                             (fun tr => create_media E tr asset_record);;
     create_task_notify;;;
     lift (MediaResponse E persisted_asset))
    (fun system_error =>
       if is_HTTPException system_error then raise system_error
       else
         log ERROR ("Asset upload failed: " +:+ str_exn system_error);;;
         raise (HTTPException 500
                  ("Upload operation failed: " +:+ str_exn system_error))).

Definition find_assets (query : string) (page_ pageSize_ : Z)
    (account_identifier : string) : M MediaListResponse :=
  try_except
    (let search_query := query in
     let page_number := page_ in
     let entries_per_page := pageSize_ in
     found <-
       call (EvSearchMedia account_identifier search_query page_number entries_per_page)
            (fun tr => search_media E tr account_identifier search_query
                         page_number entries_per_page);;
     let result_items := fst found in
     let result_count := snd found in
     asset_collection <- lift (lift_all (MediaResponse E) result_items);;
     create_task_notify;;;
     ret {| items := asset_collection; total := result_count;
            page := page_number; pageSize := entries_per_page |})
    (fun search_error =>
       log ERROR ("Asset search failed: " +:+ str_exn search_error);;;
       raise (HTTPException 500 "Search operation failed")).

Definition retrieve_asset_collection (page_ pageSize_ : Z)
    (mediaType : option string) (account_identifier : string) : M MediaListResponse :=
  try_except
    (let page_number := page_ in
     let entries_per_page := pageSize_ in
     let category_filter := mediaType in
     found <-
       call (EvGetUserMedia account_identifier page_number entries_per_page category_filter)
            (fun tr => get_user_media E tr account_identifier page_number
                         entries_per_page category_filter);;
     let result_items := fst found in
     let result_count := snd found in
     asset_collection <- lift (lift_all (MediaResponse E) result_items);;
     create_task_notify;;;
     ret {| items := asset_collection; total := result_count;
            page := page_number; pageSize := entries_per_page |})
    (fun retrieval_error =>
       log ERROR ("Asset collection retrieval failed: " +:+ str_exn retrieval_error);;;
       raise (HTTPException 500 "Failed to retrieve asset collection")).

Definition retrieve_single_asset (media_id account_identifier : string) : M Doc :=
  try_except
    (let asset_identifier := media_id in
     asset_record <-
       MediaHelpers.retrieve_and_confirm_asset_ownership E
         asset_identifier account_identifier;;
     create_task_notify;;;
     lift (MediaResponse E asset_record))
    (fun retrieval_error =>
       if is_HTTPException retrieval_error then raise retrieval_error
       else
         log ERROR ("Single asset retrieval failed: " +:+ str_exn retrieval_error);;;
         raise (HTTPException 500 "Failed to retrieve asset details")).

(** The partial-update dict handed to the store. *)
Definition field_updates (now : string) (modification_data : MediaUpdate) : Doc :=
  let updates : Doc := dict [("updatedAt", VStr now)] in
  let updates :=
    match description modification_data with
    | Some d => <["description" := VStr d]> updates
    | None => updates
    end in
  match tags modification_data with
  | Some t => <["tags" := VList (VStr <$> t)]> updates
  | None => updates
  end.

Definition modify_asset_metadata (media_id : string)
    (modification_data : MediaUpdate) (account_identifier : string) : M Doc :=
  try_except
    (let asset_identifier := media_id in
     asset_record <-
       MediaHelpers.retrieve_and_confirm_asset_ownership E
         asset_identifier account_identifier;;
     now <- ask EvUtcNow (utcnow_isoformat E);;
     let updates := field_updates now modification_data in
     modified_asset <-
       call (EvUpdateMedia asset_identifier account_identifier updates)
            (fun tr => update_media E tr asset_identifier account_identifier updates);;
     create_task_notify;;;
     lift (MediaResponse E modified_asset))
    (fun e =>
       if is_HTTPException e then raise e
       else if is_ValueError e then raise (HTTPException 404 (str_exn e))
       else
         log ERROR ("Asset modification failed: " +:+ str_exn e);;;
         raise (HTTPException 500 "Failed to update asset metadata")).

Definition remove_asset (media_id account_identifier : string) : M unit :=
  try_except
    (let asset_identifier := media_id in
     asset_record <-
       MediaHelpers.retrieve_and_confirm_asset_ownership E
         asset_identifier account_identifier;;
     primary_key <- lift (getitem asset_record "fileName");;
     call (EvDeleteFile primary_key) (fun tr => delete_file E tr primary_key);;;
     preview_blob_identifier <-
       MediaHelpers.parse_preview_storage_identifier asset_record;;
     (if truthy_str preview_blob_identifier then
        let preview_key := of_opt preview_blob_identifier in
        try_except
          (call (EvDeleteFile preview_key) (fun tr => delete_file E tr preview_key))
          (fun preview_delete_error =>
             log WARNING ("Preview deletion failed: " +:+ str_exn preview_delete_error))
      else ret tt);;;
     call (EvDeleteMedia asset_identifier account_identifier)
          (fun tr => delete_media E tr asset_identifier account_identifier);;;
     create_task_notify;;;
     ret tt)
    (fun deletion_error =>
       if is_HTTPException deletion_error then raise deletion_error
       else
         log ERROR ("Asset deletion failed: " +:+ str_exn deletion_error);;;
         raise (HTTPException 500 "Failed to delete asset")).

End RoutesMedia.
End RoutesMedia.

(** ** Reading traces *)

Definition is_upload (e : Event) : bool :=
  match e with EvUploadFile _ _ _ _ _ => true | _ => false end.
Definition is_create_media (e : Event) : bool :=
  match e with EvCreateMedia _ _ => true | _ => false end.
Definition is_update_media (e : Event) : bool :=
  match e with EvUpdateMedia _ _ _ _ => true | _ => false end.
Definition is_delete_media (e : Event) : bool :=
  match e with EvDeleteMedia _ _ _ => true | _ => false end.
Definition is_warning (e : Event) : bool :=
  match e with EvLog WARNING _ => true | _ => false end.

Definition is_error_log (e : Event) : bool :=
  match e with EvLog ERROR _ => true | _ => false end.

(** No event of the kind [p] among [evs]. *)
Definition none_of (p : Event -> bool) (evs : list Event) : bool :=
  forallb (fun e => negb (p e)) evs.

(** The document is stored under the owner [who]. *)
Definition owned_by (doc : Doc) (who : string) : Prop :=
  doc !! "userId" = Some (VStr who).

(** The stream the primary blob is written from: the whole upload, read
    position at the start. *)
Definition primary_stream (f : UploadFile) : Stream := BytesIO (data (file f)).


Definition forbidden : Exn :=
  HTTPException 403 "Authorization failed: insufficient rights to access this asset".

(** The upload after the size check: the same upload, read position at
    the start. *)
Definition rewound (f : UploadFile) : UploadFile :=
  {| filename := filename f; content_type := content_type f;
     file := seek_start (seek_end (file f)) |}.

(** The measured length of the upload. *)
Definition stream_length (f : UploadFile) : Z := Z.of_nat (length (data (file f))).

(** What the [except] clauses of [upload_new_asset] make of an exception
    [err] raised in its body: the log entries and the exception that
    leaves the route. *)
Definition upload_failure_log (err : Exn) : list Event :=
  if is_HTTPException err then []
  else [EvLog ERROR ("Asset upload failed: " +:+ str_exn err)].
Definition upload_failure (err : Exn) : Exn :=
  if is_HTTPException err then err
  else HTTPException 500 ("Upload operation failed: " +:+ str_exn err).


(** Modelled from the spec: the metadata store's [updateAsset(id, owner,
    partialFields) -> record] (its code, [database.update_media], is not
    part of these modules).  The partial fields are laid over the stored
    record; every other field of the record stays as it is. *)
Definition merge_fields (partial_fields stored : Doc) : Doc := partial_fields ∪ stored.





Definition not_found : Exn :=
  HTTPException 404 "Asset resource could not be located".

(** The environment [E] with another webhook: its URL setting, the HTTP
    client behind it and the status check. *)
Definition with_webhook (E : Env) (url : option string)
    (post : Trace -> string -> Doc -> Exn + Z) (check : Z -> Exn + unit) : Env := {|
  settings := {|
    allowed_image_types := allowed_image_types (settings E);
    allowed_video_types := allowed_video_types (settings E);
    allowed_image_types_list := allowed_image_types_list (settings E);
    allowed_video_types_list := allowed_video_types_list (settings E);
    max_file_size_bytes := max_file_size_bytes (settings E);
    logic_app_url := url
  |};
  get_media_by_id := get_media_by_id E;
  create_media := create_media E;
  update_media := update_media E;
  delete_media := delete_media E;
  search_media := search_media E;
  get_user_media := get_user_media E;
  upload_file := upload_file E;
  delete_file := delete_file E;
  http_post := post;
  raise_for_status := check;
  uuid4 := uuid4 E;
  utcnow_isoformat := utcnow_isoformat E;
  json_loads := json_loads E;
  MediaResponse := MediaResponse E;
  Image_open := Image_open E;
  Image_new := Image_new E;
  Image_convert := Image_convert E;
  Image_split := Image_split E;
  Image_paste := Image_paste E;
  Image_thumbnail := Image_thumbnail E;
  Image_save_jpeg := Image_save_jpeg E;
  size_detail := size_detail E
|}.

Import Utils MediaHelpers RoutesMedia.

(** ** A small concrete world

    An in-memory stand-in for the collaborators, with switches for the
    failures the routes have to cope with.  It is used to run the routes
    on concrete requests. *)

Module Demo.

Definition demo_settings : Settings := {|
  allowed_image_types := "image/jpeg,image/png";
  allowed_video_types := "video/mp4";
  allowed_image_types_list := ["image/jpeg"; "image/png"];
  allowed_video_types_list := ["video/mp4"];
  max_file_size_bytes := 4;
  logic_app_url := Some "https://hooks.example/media"
|}.

Record Faults : Type := {
  broken_names : list string;   (* uploads under these names raise *)
  broken_keys : list string;    (* deletes of these blob keys raise *)
  undecodable : bool            (* the image decoder rejects every input *)
}.

Definition no_faults : Faults :=
  {| broken_names := []; broken_keys := []; undecodable := false |}.

(** The blob store cannot delete the primary blob / the preview blob of
    [cat] (say, because it is already gone). *)
Definition primary_lost : Faults :=
  {| broken_names := []; broken_keys := ["alice/cat.png"]; undecodable := false |}.
Definition preview_lost : Faults :=
  {| broken_names := []; broken_keys := ["alice/thumb_cat.png"]; undecodable := false |}.

Definition has_id (aid : string) (d : Doc) : bool :=
  match d !! "id" with
  | Some (VStr i) => String.eqb i aid
  | _ => false
  end.

Definition has_owner (uid : string) (d : Doc) : bool :=
  match d !! "userId" with
  | Some (VStr u) => String.eqb u uid
  | _ => false
  end.

(** The JSON texts the examples use, decoded as [json.loads] decodes them. *)
Definition demo_json_loads (text : string) : Exn + Val :=
  if String.eqb text "[]" then inr (VList [])
  else if String.eqb text "[1, 2]" then inr (VList [VInt 1; VInt 2])
  else if String.eqb text "1" then inr (VInt 1)
  else if String.eqb text "null" then inr VNone
  else if String.eqb text "true" then inr (VBool true)
  else if String.eqb text "{}" then inr (VDict [])
  else inl (JSONDecodeError "Expecting value: line 1 column 1 (char 0)").

Definition world (db : list Doc) (flt : Faults) : Env := {|
  settings := demo_settings;
  get_media_by_id := fun _ aid _ => inr (List.find (has_id aid) db);
  create_media := fun _ d => inr d;
  update_media := fun _ aid _ upd =>
    match List.find (has_id aid) db with
    | Some d => inr (upd ∪ d)
    | None => inl (ValueError "Media not found")
    end;
  delete_media := fun _ _ _ => inr tt;
  search_media := fun _ uid _ _ _ =>
    let l := List.filter (has_owner uid) db in inr (l, Z.of_nat (length l));
  get_user_media := fun _ uid _ _ _ =>
    let l := List.filter (has_owner uid) db in inr (l, Z.of_nat (length l));
  upload_file := fun _ _ uid name _ =>
    if bool_decide (fmt_opt name ∈ broken_names flt) then
      inl (OtherException "blob store unavailable")
    else
      inr (uid +:+ "/" +:+ fmt_opt name,
           "https://blobs.example/" +:+ uid +:+ "/" +:+ fmt_opt name);
  delete_file := fun _ key =>
    match key with
    | VStr k =>
        if bool_decide (k ∈ broken_keys flt) then inl (OtherException "BlobNotFound")
        else inr tt
    | _ => inl (OtherException "blob key must be a string")
    end;
  http_post := fun _ _ _ => inr 202;
  raise_for_status := fun code =>
    if Z.leb 400 code then inl (OtherException "HTTPStatusError") else inr tt;
  uuid4 := fun tr => "asset-" +:+ pretty (length tr);
  utcnow_isoformat := fun tr => "T+" +:+ pretty (length tr);
  json_loads := demo_json_loads;
  MediaResponse := fun d => inr d;
  Image_open := fun b =>
    match b with
    | [] => inl (OtherException "cannot identify image file")
    | _ =>
        if undecodable flt then inl (OtherException "cannot identify image file")
        else inr {| mode := "RGB"; image_size := (1, 1); raster := b |}
    end;
  Image_new := fun m sz _ => inr {| mode := m; image_size := sz; raster := [] |};
  Image_convert := fun im m =>
    inr {| mode := m; image_size := image_size im; raster := raster im |};
  Image_split := fun im => inr [im];
  Image_paste := fun canvas src _ =>
    inr {| mode := mode canvas; image_size := image_size canvas; raster := raster src |};
  Image_thumbnail := fun im _ => inr im;
  Image_save_jpeg := fun im _ _ => inr (raster im);
  size_detail := fun measured limit =>
    "File size (" +:+ pretty measured +:+ " B) surpasses maximum limit ("
    +:+ pretty limit +:+ " B)"
|}.

(** An image asset of [alice], stored with a preview. *)
Definition cat : Doc := dict [
  ("id", VStr "m1");
  ("userId", VStr "alice");
  ("fileName", VStr "alice/cat.png");
  ("originalFileName", VStr "cat.png");
  ("mediaType", VStr "image");
  ("fileSize", VInt 3);
  ("mimeType", VStr "image/png");
  ("blobUrl", VStr "https://blobs.example/alice/cat.png");
  ("thumbnailUrl", VStr "https://blobs.example/alice/thumb_cat.png");
  ("description", VStr "a cat");
  ("tags", VList [VStr "pets"]);
  ("uploadedAt", VStr "T+0");
  ("updatedAt", VStr "T+0")
].

(** The same asset under a storage key that does not contain the original
    file name. *)
Definition renamed_cat : Doc := <["fileName" := VStr "alice/0042.bin"]> cat.

Definition png (content : bytes) : UploadFile :=
  {| filename := Some "cat.png"; content_type := Some "image/png";
     file := BytesIO content |}.

Definition mp4 (content : bytes) : UploadFile :=
  {| filename := Some "clip.mp4"; content_type := Some "video/mp4";
     file := BytesIO content |}.

Definition three_bytes : bytes := [Byte.x01; Byte.x02; Byte.x03].

(** A world whose store holds [cat] and in which nothing fails. *)
Definition library : Env := world [cat] no_faults.

Definition retitle : MediaUpdate := {| description := Some "tabby"; tags := None |}.

(** An update whose body is [{"description": null, "tags": []}]. *)
Definition null_and_empty : MediaUpdate := {| description := None; tags := Some [] |}.

(** An update whose body is [{"description": ""}]. *)
Definition empty_description : MediaUpdate := {| description := Some ""; tags := None |}.

(** Worlds in which the blob store refuses the primary blob of
    [cat.png], refuses its preview blob, and in which no image decodes. *)
Definition primary_refused : Env :=
  world [] {| broken_names := ["cat.png"]; broken_keys := []; undecodable := false |}.
Definition no_decoder : Env :=
  world [] {| broken_names := []; broken_keys := []; undecodable := true |}.

(** The record that uploading [png three_bytes] as [alice] creates in
    [library], and the one it creates in [preview_refused]. *)
Definition new_cat : Doc :=
  construct_asset_record "asset-2" "alice" "alice/cat.png" (png three_bytes)
    "image" 3 "https://blobs.example/alice/cat.png"
    (VStr "https://blobs.example/alice/thumb_cat.png") None VNone "T+3".
Definition new_cat_without_preview : Doc :=
  construct_asset_record "asset-3" "alice" "alice/cat.png" (png three_bytes)
    "image" 3 "https://blobs.example/alice/cat.png" VNone None VNone "T+4".

(** An upload of a type outside both allow-lists, and one that is too
    long for [demo_settings]. *)
Definition pdf (content : bytes) : UploadFile :=
  {| filename := Some "notes.pdf"; content_type := Some "application/pdf";
     file := BytesIO content |}.
Definition five_bytes : bytes := [Byte.x01; Byte.x02; Byte.x03; Byte.x04; Byte.x05].

End Demo.

(** ** Reading traces, continued *)

Definition is_create_task (e : Event) : bool :=
  match e with EvCreateTask => true | _ => false end.

Definition is_delete_file (e : Event) : bool :=
  match e with EvDeleteFile _ _ => true | _ => false end.
Definition is_lookup (e : Event) : bool :=
  match e with EvGetMediaById _ _ _ => true | _ => false end.

(** The number of blob writes among [evs]. *)
Definition uploads (evs : list Event) : nat := length (List.filter is_upload evs).

(** What the [except] clauses of [remove_asset] make of an exception
    [err] raised in its body: the log entries and the exception that
    leaves the route. *)
Definition delete_failure_log (err : Exn) : list Event :=
  if is_HTTPException err then []
  else [EvLog ERROR ("Asset deletion failed: " +:+ str_exn err)].
Definition delete_failure (err : Exn) : Exn :=
  if is_HTTPException err then err
  else HTTPException 500 "Failed to delete asset".

(** The same for [modify_asset_metadata], whose second clause turns a
    [ValueError] into a 404 that carries its message. *)
Definition update_failure_log (err : Exn) : list Event :=
  if is_HTTPException err then []
  else if is_ValueError err then []
  else [EvLog ERROR ("Asset modification failed: " +:+ str_exn err)].
Definition update_failure (err : Exn) : Exn :=
  if is_HTTPException err then err
  else if is_ValueError err then HTTPException 404 (str_exn err)
  else HTTPException 500 "Failed to update asset metadata".

(** The events of the preview step of a delete, for the derived key [o]
    and the blob store's answer [r]. *)
Definition preview_delete_events (o : option string) (r : Exn + unit) : list Event :=
  if truthy_str o then
    match r with
    | inl e => [EvLog WARNING ("Preview deletion failed: " +:+ str_exn e);
                EvDeleteFile (of_opt o) (inl e)]
    | inr _ => [EvDeleteFile (of_opt o) r]
    end
  else [].

(** The environment [E] with another metadata store behind the lookup,
    the update, the delete, the search and the create, and another
    response model. *)
Definition with_store (E : Env)
    (get : Trace -> string -> string -> Exn + option Doc)
    (update : Trace -> string -> string -> Doc -> Exn + Doc)
    (remove : Trace -> string -> string -> Exn + unit)
    (search : Trace -> string -> string -> Z -> Z -> Exn + list Doc * Z)
    (create : Trace -> Doc -> Exn + Doc)
    (respond : Doc -> Exn + Doc) : Env := {|
  settings := settings E;
  get_media_by_id := get;
  create_media := create;
  update_media := update;
  delete_media := remove;
  search_media := search;
  get_user_media := get_user_media E;
  upload_file := upload_file E;
  delete_file := delete_file E;
  http_post := http_post E;
  raise_for_status := raise_for_status E;
  uuid4 := uuid4 E;
  utcnow_isoformat := utcnow_isoformat E;
  json_loads := json_loads E;
  MediaResponse := respond;
  Image_open := Image_open E;
  Image_new := Image_new E;
  Image_convert := Image_convert E;
  Image_split := Image_split E;
  Image_paste := Image_paste E;
  Image_thumbnail := Image_thumbnail E;
  Image_save_jpeg := Image_save_jpeg E;
  size_detail := size_detail E
|}.

(** Concrete worlds with a failing store, and further records. *)
Module Cases.

(** The search answers with a 404 of its own. *)
Definition search_gone : Env :=
  with_store Demo.library (get_media_by_id Demo.library) (update_media Demo.library)
    (delete_media Demo.library)
    (fun _ _ _ _ _ => inl (HTTPException 404 "index gone"))
    (create_media Demo.library) (MediaResponse Demo.library).

(** The lookup answers with a 503 of its own. *)
Definition lookup_unavailable : Env :=
  with_store Demo.library (fun _ _ _ => inl (HTTPException 503 "store unavailable"))
    (update_media Demo.library) (delete_media Demo.library)
    (search_media Demo.library)
    (create_media Demo.library) (MediaResponse Demo.library).

(** The record has disappeared when the update arrives. *)
Definition record_vanished : Env :=
  with_store Demo.library (get_media_by_id Demo.library)
    (fun _ _ _ _ => inl (ValueError "Media not found"))
    (delete_media Demo.library) (search_media Demo.library) (create_media Demo.library)
    (MediaResponse Demo.library).

(** The store refuses every new record. *)
Definition create_refused : Env :=
  with_store Demo.library (get_media_by_id Demo.library) (update_media Demo.library)
    (delete_media Demo.library) (search_media Demo.library)
    (fun _ _ => inl (OtherException "store unavailable"))
    (MediaResponse Demo.library).

(** The response model rejects every record. *)
Definition response_rejected : Env :=
  with_store Demo.library (get_media_by_id Demo.library) (update_media Demo.library)
    (delete_media Demo.library) (search_media Demo.library)
    (create_media Demo.library)
    (fun _ => inl (OtherException "validation error for MediaResponse")).

(** The store refuses to delete a record. *)
Definition delete_refused : Env :=
  with_store Demo.library (get_media_by_id Demo.library) (update_media Demo.library)
    (fun _ _ _ => inl (OtherException "store unavailable"))
    (search_media Demo.library) (create_media Demo.library)
    (MediaResponse Demo.library).

(** The record of [cat] without its storage key, and without a preview. *)
Definition keyless_cat : Doc := delete "fileName" Demo.cat.
Definition plain_cat : Doc := <["thumbnailUrl" := VNone]> Demo.cat.

(** The record that uploading [png three_bytes] with the label data
    [[1, 2]] as [alice] creates in [library]. *)
Definition labelled_cat : Doc :=
  construct_asset_record "asset-2" "alice" "alice/cat.png"
    (Demo.png Demo.three_bytes) "image" 3 "https://blobs.example/alice/cat.png"
    (VStr "https://blobs.example/alice/thumb_cat.png") None
    (VList [VInt 1; VInt 2]) "T+3".

(** An upload that declares no content type, and one without a file
    name. *)
Definition untyped : UploadFile :=
  {| filename := Some "cat.png"; content_type := None;
     file := BytesIO Demo.three_bytes |}.
Definition nameless : UploadFile :=
  {| filename := None; content_type := Some "image/png";
     file := BytesIO Demo.three_bytes |}.

(** The record that uploading [nameless] as [alice] creates in
    [library]. *)
Definition nameless_record : Doc :=
  construct_asset_record "asset-2" "alice" "alice/None" nameless "image" 3
    "https://blobs.example/alice/None"
    (VStr "https://blobs.example/alice/thumb_None") None VNone "T+3".



End Cases.

(** * Properties *)

Ltac unfold_m :=
  unfold result, emitted, create_task_notify, log, bind, try_except, call, ask,
    lift, ret, raise, emit in *.

(** ** Running a computation step by step *)

Section Running.
Context {A B : Type}.

Lemma run_bind (m : M A) (k : A -> M B) tr ev1 a ev2 r :
  m tr = (ev1, inr a) -> k a (ev1 ++ tr)%list = (ev2, r) ->
  bind m k tr = ((ev2 ++ ev1)%list, r).
Proof. intros H1 H2. unfold bind. rewrite H1, H2. reflexivity. Qed.

Lemma run_bind_raise (m : M A) (k : A -> M B) tr ev1 e :
  m tr = (ev1, inl e) -> bind m k tr = (ev1, inl e).
Proof. intros H1. unfold bind. rewrite H1. reflexivity. Qed.

Lemma run_try (m : M A) (h : Exn -> M A) tr ev1 a :
  m tr = (ev1, inr a) -> try_except m h tr = (ev1, inr a).
Proof. intros H1. unfold try_except. rewrite H1. reflexivity. Qed.

Lemma run_try_raise (m : M A) (h : Exn -> M A) tr ev1 e ev2 r :
  m tr = (ev1, inl e) -> h e (ev1 ++ tr)%list = (ev2, r) ->
  try_except m h tr = ((ev2 ++ ev1)%list, r).
Proof. intros H1 H2. unfold try_except. rewrite H1, H2. reflexivity. Qed.

Lemma run_call (ev : Exn + A -> Event) (f : Trace -> Exn + A) tr r :
  f tr = r -> call ev f tr = ([ev r], r).
Proof. intros <-. reflexivity. Qed.

End Running.

Lemma surjective_run {A} (m : M A) tr : m tr = (emitted m tr, result m tr).
Proof. unfold emitted, result. destruct (m tr); reflexivity. Qed.

(** Symbolic execution of a computation whose branch at every step is
    decided by an equation in the context: the goal [m tr = (?evs, ?r)]
    is solved and the two unknowns are filled in. *)
Ltac tidy_events := rewrite <- ?app_assoc, ?app_nil_r; cbn [app].

Ltac use_equations :=
  repeat match goal with
         | H : ?x = _ |- context [?x] => rewrite H
         end.

Ltac run :=
  cbv beta iota zeta; rewrite <- ?app_assoc; cbn [app fst snd];
  try (progress use_equations); cbv beta iota zeta;
  lazymatch goal with
  | |- bind ?m ?k ?tr = _ =>
      let H := fresh "Hstep" in
      eassert (H : m tr = (_, _)) by run;
      lazymatch type of H with
      | _ = (_, inr _) => eapply run_bind; [exact H | clear H; run]
      | _ = (_, inl _) => eapply run_bind_raise; exact H
      end
  | |- try_except ?m ?h ?tr = _ =>
      let H := fresh "Hstep" in
      eassert (H : m tr = (_, _)) by run;
      lazymatch type of H with
      | _ = (_, inr _) => eapply run_try; exact H
      | _ = (_, inl _) => eapply run_try_raise; [exact H | clear H; run]
      end
  | |- call ?ev ?f ?tr = _ =>
      apply run_call; cbv beta; first [eassumption | reflexivity]
  | |- lift _ _ = _ => unfold lift, getitem; use_equations; reflexivity
  | |- ret _ _ = _ => reflexivity
  | |- raise _ _ = _ => reflexivity
  | |- log _ _ _ = _ => reflexivity
  | |- emit _ _ = _ => reflexivity
  | |- ask _ _ _ = _ => reflexivity
  | |- create_task_notify _ = _ => reflexivity
  | |- (if ?c then _ else _) _ = _ =>
      lazymatch type of c with
      | bool =>
          first [ eassumption
                | replace c with true by (cbn; use_equations; reflexivity); run
                | replace c with false by (cbn; use_equations; reflexivity); run ]
      | _ => first [eassumption | reflexivity]
      end
  | |- _ => first [eassumption | reflexivity]
  end.

(** Execute the route run [prog], put the outcome in place of the run and
    compare. *)
Ltac exec prog :=
  let H := fresh "Hrun" in
  eassert (H : prog = (_, _))
    by (try unfold upload_new_asset; try unfold find_assets;
        try unfold retrieve_asset_collection; try unfold retrieve_single_asset;
        try unfold modify_asset_metadata; try unfold remove_asset;
        try unfold notify_logic_app; run);
  unfold emitted, result; rewrite H; clear H;
  cbn [fst snd]; tidy_events; try reflexivity.

(** Execute the left-hand side of the goal and compare. *)
Ltac run_to :=
  match goal with
  | |- ?p = _ =>
      let H := fresh "Hrun" in
      eassert (H : p = (_, _)) by run; rewrite H; clear H
  end;
  tidy_events; try reflexivity.

Section Strings.

Lemma replace_go_absent old new s :
  occurs old s = false -> replace_go old new 0 s = s.
Proof.
  induction s as [|c s IH]; intros H; [reflexivity|].
  cbn [occurs] in H. apply orb_false_elim in H as [Hp Ho].
  cbn [replace_go]. rewrite Hp. f_equal. auto.
Qed.

Lemma replace_absent old new s :
  occurs old s = false -> replace old new s = s.
Proof.
  destruct old as [|a old]; intros H.
  - destruct s; discriminate H.
  - apply replace_go_absent, H.
Qed.

Example split_slash_path : split_slash "a/b/c.png" = ["a"; "b"; "c.png"].
Proof. reflexivity. Qed.
Example last_segment_trailing_slash : last_segment "dir/" = "".
Proof. reflexivity. Qed.
Example last_segment_plain : last_segment "cat.png" = "cat.png".
Proof. reflexivity. Qed.
Example replace_all_occurrences : replace "ab" "X" "abcabab" = "XcXX".
Proof. reflexivity. Qed.
Example replace_non_overlapping : replace "aa" "X" "aaa" = "Xa".
Proof. reflexivity. Qed.
Example replace_empty_pattern : replace "" "X" "abc" = "XaXbXcX".
Proof. reflexivity. Qed.
Example lower_mixed_case : lower "Image/PNG" = "image/png".
Proof. reflexivity. Qed.

Lemma prefix_append old s : String.prefix old (old +:+ s) = true.
Proof.
  induction old as [|a old IH]; [destruct s; reflexivity|].
  change (String a old +:+ s) with (String a (old +:+ s)).
  cbn [String.prefix]. destruct (ascii_dec a a); [exact IH | contradiction].
Qed.

(** Dropping the rest of a matched occurrence. *)
Lemma replace_go_skip old new t s :
  replace_go old new (String.length t) (t +:+ s) = replace_go old new 0 s.
Proof.
  induction t as [|c t IH]; [destruct s; reflexivity|]. exact IH.
Qed.

Lemma replace_at_head a old new s :
  replace (String a old) new (String a old +:+ s) = new +:+ replace (String a old) new s.
Proof.
  unfold replace.
  pose proof (prefix_append (String a old) s) as Hp.
  change (String a old +:+ s) with (String a (old +:+ s)) in *.
  unfold replace_go at 1; fold replace_go.
  rewrite Hp. f_equal.
  replace (String.length (String a old) - 1)%nat with (String.length old)
    by (cbn; lia).
  apply replace_go_skip.
Qed.

(** The first occurrence is replaced where it stands. *)
Lemma replace_first a old new pre s :
  starts_after (String a old) pre (String a old +:+ s) = true ->
  replace (String a old) new (pre +:+ String a old +:+ s)
  = pre +:+ new +:+ replace (String a old) new s.
Proof.
  induction pre as [|c pre IH]; intros H.
  - apply replace_at_head.
  - cbn [starts_after] in H. apply andb_prop in H as [Hno Hrest].
    apply negb_true_iff in Hno.
    unfold replace in *.
    change (String c pre +:+ String a old +:+ s)
      with (String c (pre +:+ String a old +:+ s)) in *.
    change (String c pre +:+ new +:+ replace_go (String a old) new 0 s)
      with (String c (pre +:+ new +:+ replace_go (String a old) new 0 s)).
    unfold replace_go at 1; fold replace_go.
    rewrite Hno. f_equal. apply IH, Hrest.
Qed.

End Strings.

Section Guard.
Variable E : Env.

Lemma present_of_lookup (d : Doc) k v : d !! k = Some v -> absent (Some d) = false.
Proof.
  intros H. unfold absent. apply Nat.eqb_neq. intros Hs.
  apply map_size_empty_iff in Hs. subst d. rewrite lookup_empty in H. discriminate.
Qed.

Lemma guard_run aid caller tr doc :
  get_media_by_id E tr aid caller = inr (Some doc) ->
  retrieve_and_confirm_asset_ownership E aid caller tr =
    ([EvGetMediaById aid caller (inr (Some doc))],
     if absent (Some doc) then
       inl (HTTPException 404 "Asset resource could not be located")
     else match getitem doc "userId" with
          | inl e => inl e
          | inr owner =>
              if ne_str owner caller then
                inl (HTTPException 403
                  "Authorization failed: insufficient rights to access this asset")
              else inr doc
          end).
Proof.
  intros H. unfold retrieve_and_confirm_asset_ownership. unfold_m. rewrite H.
  destruct (absent (Some doc)); [reflexivity|].
  destruct (getitem doc "userId") as [e|o]; [reflexivity|].
  cbn. destruct (ne_str o caller); reflexivity.
Qed.

End Guard.

(** ** Preview-key derivation at delete time *)

Section PreviewKey.

Lemma parse_preview_run (doc : Doc) (tr : Trace) :
  exists evs o, parse_preview_storage_identifier doc tr = (evs, inr o)
    /\ Forall (fun e => is_warning e = true) evs.
Proof.
  unfold parse_preview_storage_identifier.
  destruct (negb (truthy (dict_get doc "thumbnailUrl"))).
  { exists [], None. split; [reflexivity | constructor]. }
  unfold_m.
  destruct (getitem doc "originalFileName") as [e|o]; cbn;
    [eexists _, None; split; [reflexivity | repeat constructor] |].
  destruct (split_last o) as [e|seg]; cbn;
    [eexists _, None; split; [reflexivity | repeat constructor] |].
  destruct (getitem doc "fileName") as [e|k]; cbn;
    [eexists _, None; split; [reflexivity | repeat constructor] |].
  destruct (replace_in k seg ("thumb_" +:+ seg)) as [e|p]; cbn;
    [eexists _, None; split; [reflexivity | repeat constructor] |].
  eexists _, (Some p). split; [reflexivity | constructor].
Qed.

(** The derivation does not look at the history. *)
Lemma parse_preview_history_free (doc : Doc) (tr tr' : Trace) :
  parse_preview_storage_identifier doc tr = parse_preview_storage_identifier doc tr'.
Proof.
  unfold parse_preview_storage_identifier.
  destruct (negb (truthy (dict_get doc "thumbnailUrl"))); [reflexivity|].
  unfold_m.
  destruct (getitem doc "originalFileName") as [e|o]; cbn; [reflexivity|].
  destruct (split_last o) as [e|seg]; cbn; [reflexivity|].
  destruct (getitem doc "fileName") as [e|k]; cbn; [reflexivity|].
  destruct (replace_in k seg ("thumb_" +:+ seg)) as [e|p]; reflexivity.
Qed.

(** A derived key comes without a log entry. *)
Lemma parse_preview_some (doc : Doc) (tr : Trace) pk :
  result (parse_preview_storage_identifier doc) tr = inr (Some pk) ->
  parse_preview_storage_identifier doc tr = ([], inr (Some pk)).
Proof.
  unfold result, parse_preview_storage_identifier.
  destruct (negb (truthy (dict_get doc "thumbnailUrl"))); [discriminate|].
  unfold_m.
  destruct (getitem doc "originalFileName") as [e|o]; cbn; [discriminate|].
  destruct (split_last o) as [e|seg]; cbn; [discriminate|].
  destruct (getitem doc "fileName") as [e|k]; cbn; [discriminate|].
  destruct (replace_in k seg ("thumb_" +:+ seg)) as [e|p]; cbn; [discriminate|].
  intros [= <-]. reflexivity.
Qed.

(** C6 (amended).  The delete-time preview-key derivation never raises.
    It yields no preview when the stored preview URL is missing or empty,
    when the original file name is missing or null, and when the primary
    storage key is missing.  Otherwise it takes the last path segment of
    the original file name and replaces every occurrence of it in the
    primary storage key by the same segment prefixed with [thumb_]; when
    the segment does not occur in the primary key the result is the
    primary key itself, unchanged (not "no preview"); the first
    occurrence is replaced where it stands. *)
Theorem parse_preview_storage_identifier_derivation (doc : Doc) (tr : Trace) :
  let run := result (parse_preview_storage_identifier doc) tr in
  (exists o, run = inr o) /\
  (truthy (dict_get doc "thumbnailUrl") = false -> run = inr None) /\
  (doc !! "originalFileName" = None \/ doc !! "originalFileName" = Some VNone ->
   run = inr None) /\
  (doc !! "fileName" = None -> run = inr None) /\
  (forall name key,
     truthy (dict_get doc "thumbnailUrl") = true ->
     doc !! "originalFileName" = Some (VStr name) ->
     doc !! "fileName" = Some (VStr key) ->
     run = inr (Some (replace (last_segment name)
                              ("thumb_" +:+ last_segment name) key))
     /\ (occurs (last_segment name) key = false -> run = inr (Some key))
     /\ (forall pre post,
           key = pre +:+ last_segment name +:+ post ->
           last_segment name <> "" ->
           starts_after (last_segment name) pre (last_segment name +:+ post) = true ->
           run = inr (Some (pre +:+ ("thumb_" +:+ last_segment name)
                            +:+ replace (last_segment name)
                                  ("thumb_" +:+ last_segment name) post)))).
Proof.
  cbn zeta. split; [|split; [|split; [|split]]].
  - destruct (parse_preview_run doc tr) as (evs & o & Heq & _).
    exists o. unfold result. rewrite Heq. reflexivity.
  - intros Hth. unfold result, parse_preview_storage_identifier.
    rewrite Hth. reflexivity.
  - intros Habs. unfold result, parse_preview_storage_identifier.
    destruct (negb (truthy (dict_get doc "thumbnailUrl"))); [reflexivity|].
    unfold_m. unfold getitem. destruct Habs as [-> | ->]; reflexivity.
  - intros Habs. unfold result, parse_preview_storage_identifier.
    destruct (negb (truthy (dict_get doc "thumbnailUrl"))); [reflexivity|].
    unfold_m. destruct (getitem doc "originalFileName") as [e|o]; cbn; [reflexivity|].
    destruct (split_last o) as [e|seg]; cbn; [reflexivity|].
    unfold getitem. rewrite Habs. reflexivity.
  - intros name key Hth Hname Hkey.
    assert (Hrun : result (parse_preview_storage_identifier doc) tr =
                   inr (Some (replace (last_segment name)
                                ("thumb_" +:+ last_segment name) key))).
    { unfold result, parse_preview_storage_identifier. rewrite Hth.
      unfold_m. unfold getitem. rewrite Hname, Hkey. reflexivity. }
    split; [exact Hrun|]. split.
    + intros Hno. rewrite Hrun, (replace_absent _ _ _ Hno). reflexivity.
    + intros pre post -> Hne Hfirst. rewrite Hrun.
      destruct (last_segment name) as [|a seg]; [contradiction|].
      rewrite (replace_first _ _ _ _ _ Hfirst). reflexivity.
Qed.

(** The derivation on the stored asset [Demo.cat] and on
    [Demo.renamed_cat]. *)
Lemma parse_preview_storage_identifier_derivation_witness :
  result (parse_preview_storage_identifier Demo.cat) [] =
    inr (Some "alice/thumb_cat.png")
  /\ result (parse_preview_storage_identifier Demo.renamed_cat) [] =
    inr (Some "alice/0042.bin")
  /\ result (parse_preview_storage_identifier (delete "thumbnailUrl" Demo.cat)) [] =
    inr None
  /\ result (parse_preview_storage_identifier (delete "originalFileName" Demo.cat)) [] =
    inr None
  /\ result (parse_preview_storage_identifier (delete "fileName" Demo.cat)) [] =
    inr None.
Proof.
  pose proof (parse_preview_storage_identifier_derivation Demo.cat [])
    as (_ & _ & _ & _ & Hcat).
  pose proof (parse_preview_storage_identifier_derivation Demo.renamed_cat [])
    as (_ & _ & _ & _ & Hren).
  pose proof (parse_preview_storage_identifier_derivation
                (delete "thumbnailUrl" Demo.cat) []) as (_ & Hurl & _).
  pose proof (parse_preview_storage_identifier_derivation
                (delete "originalFileName" Demo.cat) []) as (_ & _ & Hname & _).
  pose proof (parse_preview_storage_identifier_derivation
                (delete "fileName" Demo.cat) []) as (_ & _ & _ & Hkey & _).
  split; [|split; [|split; [|split]]].
  - destruct (Hcat "cat.png" "alice/cat.png" eq_refl eq_refl eq_refl)
      as (_ & _ & Hfirst).
    apply (Hfirst "alice/" ""); [reflexivity | discriminate | reflexivity].
  - destruct (Hren "cat.png" "alice/0042.bin" eq_refl eq_refl eq_refl)
      as (_ & Habsent & _).
    apply Habsent. reflexivity.
  - apply Hurl; reflexivity.
  - apply Hname; left; reflexivity.
  - apply Hkey; reflexivity.
Defined.

(** C6 as stated fails: for an asset whose primary storage key does not
    contain the original file name, the derivation does not answer "no
    preview"; it answers the primary key. *)
Lemma parse_preview_storage_identifier_not_found_counterexample :
  Demo.renamed_cat !! "originalFileName" = Some (VStr "cat.png")
  /\ Demo.renamed_cat !! "fileName" = Some (VStr "alice/0042.bin")
  /\ occurs (last_segment "cat.png") "alice/0042.bin" = false
  /\ result (parse_preview_storage_identifier Demo.renamed_cat) [] =
       inr (Some "alice/0042.bin")
  /\ result (parse_preview_storage_identifier Demo.renamed_cat) [] <> inr None.
Proof.
  repeat split; try reflexivity. vm_compute. discriminate.
Qed.

End PreviewKey.

(** ** The ownership guard *)

Section Ownership.
Variable E : Env.


Lemma guard_own aid caller doc tr :
  get_media_by_id E tr aid caller = inr (Some doc) ->
  owned_by doc caller ->
  retrieve_and_confirm_asset_ownership E aid caller tr =
    ([EvGetMediaById aid caller (inr (Some doc))], inr doc).
Proof.
  intros Hget Hown. rewrite (guard_run E _ _ _ _ Hget).
  rewrite (present_of_lookup _ _ _ Hown). unfold getitem. rewrite Hown. cbn.
  rewrite String.eqb_refl. reflexivity.
Qed.

(** The preview step of a delete never raises and only deletes blobs or
    logs. *)
Lemma preview_delete_run (o : option string) (tr : Trace) :
  exists evs,
    (if truthy_str o then
       try_except
         (call (EvDeleteFile (of_opt o)) (fun t => delete_file E t (of_opt o)))
         (fun err => log WARNING ("Preview deletion failed: " +:+ str_exn err))
     else ret tt) tr = (evs, inr tt)
    /\ none_of is_delete_media evs = true.
Proof.
  destruct (truthy_str o); [|exists []; split; reflexivity].
  unfold_m. destruct (delete_file E tr (of_opt o)) as [e|[]]; cbn;
    eexists; split; reflexivity.
Qed.





End Ownership.



(** ** Cascading delete *)

Section Delete.
Variable E : Env.

(** C3.  For a delete of an owned asset: when deleting the primary blob
    fails, the delete fails and the metadata record is not removed (the
    store is not asked to delete it); when deleting the preview blob fails
    (for whatever reason, the blob being absent included), the failure is
    logged as a warning and swallowed, the store is still asked to delete
    the metadata record, and the delete succeeds when the store does. *)
Theorem remove_asset_primary_fatal_preview_best_effort
    (aid caller : string) (doc : Doc) (key : Val) (tr : Trace) :
  get_media_by_id E tr aid caller = inr (Some doc) ->
  owned_by doc caller ->
  doc !! "fileName" = Some key ->
  let looked_up := EvGetMediaById aid caller (inr (Some doc)) :: tr in
  (forall e, delete_file E looked_up key = inl e ->
     (exists err, result (remove_asset E aid caller) tr = inl err)
     /\ none_of is_delete_media (emitted (remove_asset E aid caller) tr) = true)
  /\
  (forall pk e,
     delete_file E looked_up key = inr tt ->
     let primary_gone := EvDeleteFile key (inr tt) :: looked_up in
     result (parse_preview_storage_identifier doc) primary_gone = inr (Some pk) ->
     pk <> "" ->
     delete_file E primary_gone (VStr pk) = inl e ->
     let swallowed :=
       [EvLog WARNING ("Preview deletion failed: " +:+ str_exn e);
        EvDeleteFile (VStr pk) (inl e);
        EvDeleteFile key (inr tt);
        EvGetMediaById aid caller (inr (Some doc))] in
     let removal := delete_media E (swallowed ++ tr)%list aid caller in
     (exists later,
        emitted (remove_asset E aid caller) tr =
          (later ++ EvDeleteMedia aid caller removal :: swallowed)%list)
     /\ (removal = inr tt ->
         remove_asset E aid caller tr =
           (EvCreateTask :: EvDeleteMedia aid caller (inr tt) :: swallowed, inr tt))).
Proof.
  intros Hget Hown Hkey looked_up.
  pose proof (guard_own E _ _ _ _ Hget Hown) as Hg.
  split.
  - intros e He. subst looked_up.
    assert (Hhttp : exists b, is_HTTPException e = b) by eauto.
    destruct Hhttp as [[] Hhttp].
    + assert (Hrun : exists evs r, remove_asset E aid caller tr = (evs, r)
                /\ evs = [EvDeleteFile key (inl e);
                          EvGetMediaById aid caller (inr (Some doc))]
                /\ r = inl e).
      { eexists _, _. split; [unfold remove_asset; run|]. split; reflexivity. }
      destruct Hrun as (evs & r & Hrun & -> & ->).
      unfold result, emitted. rewrite Hrun. split; [eauto | reflexivity].
    + assert (Hrun : exists evs r, remove_asset E aid caller tr = (evs, r)
                /\ evs = [EvLog ERROR ("Asset deletion failed: " +:+ str_exn e);
                          EvDeleteFile key (inl e);
                          EvGetMediaById aid caller (inr (Some doc))]
                /\ r = inl (HTTPException 500 "Failed to delete asset")).
      { eexists _, _. split; [unfold remove_asset; run|]. split; reflexivity. }
      destruct Hrun as (evs & r & Hrun & -> & ->).
      unfold result, emitted. rewrite Hrun. split; [eauto | reflexivity].
  - intros pk e Hprim primary_gone Hpk Hne Hprev swallowed removal.
    apply parse_preview_some in Hpk. subst looked_up primary_gone.
    assert (Htruthy : truthy_str (Some pk) = true).
    { cbn. destruct (String.eqb_spec pk ""); [contradiction | reflexivity]. }
    destruct removal as [e'|[]] eqn:Hrem; subst removal.
    + assert (Hhttp : exists b, is_HTTPException e' = b) by eauto.
      destruct Hhttp as [[] Hhttp].
      * assert (Hrun : exists evs r, remove_asset E aid caller tr = (evs, r)
                  /\ evs = EvDeleteMedia aid caller (inl e') :: swallowed).
        { eexists _, _. split; [unfold remove_asset; run | reflexivity]. }
        destruct Hrun as (evs & r & Hrun & ->).
        unfold emitted. rewrite Hrun. split; [exists []; reflexivity | discriminate].
      * assert (Hrun : exists evs r, remove_asset E aid caller tr = (evs, r)
                  /\ evs = EvLog ERROR ("Asset deletion failed: " +:+ str_exn e')
                           :: EvDeleteMedia aid caller (inl e') :: swallowed).
        { eexists _, _. split; [unfold remove_asset; run | reflexivity]. }
        destruct Hrun as (evs & r & Hrun & ->).
        unfold emitted. rewrite Hrun. split; [eexists [_]; reflexivity | discriminate].
    + assert (Hrun : remove_asset E aid caller tr =
                (EvCreateTask :: EvDeleteMedia aid caller (inr tt) :: swallowed, inr tt)).
      { unfold remove_asset.
        match goal with |- ?p = _ =>
          let H := fresh in eassert (H : p = (_, _)) by run; exact H end. }
      unfold emitted. rewrite Hrun.
      split; [exists [EvCreateTask]; reflexivity | intros _; reflexivity].
Qed.

End Delete.

(** Deleting [Demo.cat] when its primary blob cannot be deleted, and when
    its preview blob cannot be deleted. *)
Lemma remove_asset_primary_fatal_preview_best_effort_witness :
  ((exists err,
      result (remove_asset (Demo.world [Demo.cat] Demo.primary_lost) "m1" "alice") []
      = inl err)
   /\ none_of is_delete_media
        (emitted (remove_asset (Demo.world [Demo.cat] Demo.primary_lost) "m1" "alice") [])
      = true)
  /\
  remove_asset (Demo.world [Demo.cat] Demo.preview_lost) "m1" "alice" [] =
    ([EvCreateTask;
      EvDeleteMedia "m1" "alice" (inr tt);
      EvLog WARNING "Preview deletion failed: BlobNotFound";
      EvDeleteFile (VStr "alice/thumb_cat.png") (inl (OtherException "BlobNotFound"));
      EvDeleteFile (VStr "alice/cat.png") (inr tt);
      EvGetMediaById "m1" "alice" (inr (Some Demo.cat))], inr tt).
Proof.
  split.
  - apply (remove_asset_primary_fatal_preview_best_effort
             (Demo.world [Demo.cat] Demo.primary_lost)
             "m1" "alice" Demo.cat (VStr "alice/cat.png") []
             eq_refl eq_refl eq_refl) with (e := OtherException "BlobNotFound").
    reflexivity.
  - apply (remove_asset_primary_fatal_preview_best_effort
             (Demo.world [Demo.cat] Demo.preview_lost)
             "m1" "alice" Demo.cat (VStr "alice/cat.png") []
             eq_refl eq_refl eq_refl)
      with (pk := "alice/thumb_cat.png") (e := OtherException "BlobNotFound").
    + reflexivity.
    + reflexivity.
    + discriminate.
    + reflexivity.
    + reflexivity.
Defined.

(** ** The preview deriver *)

Section Preview.
Variable E : Env.

(** The preview deriver never raises; a result is what the JPEG encoder
    returned for some image, after the decoder accepted the input, and it
    comes without a log entry; no result comes with one error log entry. *)
Lemma create_preview_image_run (visual_data : bytes) (box : Z * Z) (tr : Trace) :
  (exists msg, create_preview_image E visual_data box tr = ([EvLog ERROR msg], inr None))
  \/ (exists src im buf,
        Image_open E visual_data = inr src
        /\ Image_save_jpeg E im 85 true = inr buf
        /\ create_preview_image E visual_data box tr = ([], inr (Some buf))).
Proof.
  unfold create_preview_image. unfold_m.
  destruct (Image_open E visual_data) as [e|src]; cbn; [left; eauto|].
  destruct (transparency_mode (mode src)); cbn.
  - destruct (Image_new E "RGB" (image_size src) (255, 255, 255)) as [e|canvas];
      cbn; [left; eauto|].
    destruct (String.eqb (mode src) "P"); cbn.
    + destruct (Image_convert E src "RGBA") as [e|conv]; cbn; [left; eauto|].
      destruct (String.eqb (mode conv) "RGBA"); cbn.
      * destruct (Image_split E conv) as [e|bands]; cbn; [left; eauto|].
        destruct (last_band bands) as [e|band]; cbn; [left; eauto|].
        destruct (Image_paste E canvas conv (Some band)) as [e|pasted]; cbn;
          [left; eauto|].
        destruct (Image_thumbnail E pasted box) as [e|small]; cbn; [left; eauto|].
        destruct (Image_save_jpeg E small 85 true) as [e|buf] eqn:Hs; cbn;
          [left; eauto|]. right. eauto 6.
      * destruct (Image_paste E canvas conv None) as [e|pasted]; cbn;
          [left; eauto|].
        destruct (Image_thumbnail E pasted box) as [e|small]; cbn; [left; eauto|].
        destruct (Image_save_jpeg E small 85 true) as [e|buf] eqn:Hs; cbn;
          [left; eauto|]. right. eauto 6.
    + destruct (String.eqb (mode src) "RGBA"); cbn.
      * destruct (Image_split E src) as [e|bands]; cbn; [left; eauto|].
        destruct (last_band bands) as [e|band]; cbn; [left; eauto|].
        destruct (Image_paste E canvas src (Some band)) as [e|pasted]; cbn;
          [left; eauto|].
        destruct (Image_thumbnail E pasted box) as [e|small]; cbn; [left; eauto|].
        destruct (Image_save_jpeg E small 85 true) as [e|buf] eqn:Hs; cbn;
          [left; eauto|]. right. eauto 6.
      * destruct (Image_paste E canvas src None) as [e|pasted]; cbn;
          [left; eauto|].
        destruct (Image_thumbnail E pasted box) as [e|small]; cbn; [left; eauto|].
        destruct (Image_save_jpeg E small 85 true) as [e|buf] eqn:Hs; cbn;
          [left; eauto|]. right. eauto 6.
  - destruct (Image_thumbnail E src box) as [e|small]; cbn; [left; eauto|].
    destruct (Image_save_jpeg E small 85 true) as [e|buf] eqn:Hs; cbn;
      [left; eauto|]. right. eauto 6.
Qed.


(** The preview block of a create: it never raises; it writes at most the
    preview blob; its value is a URL only for an image whose preview was
    derived and stored. *)
Lemma create_preview_for_run (f : UploadFile) (acct ty : string) (content : bytes)
    (tr : Trace) :
  exists evs v,
    create_preview_for E f acct ty content tr = (evs, inr v)
    /\ none_of is_create_media evs = true
    /\ (v = VNone
        \/ exists thumb pkey purl,
             ty = "image"
             /\ generate_thumbnail E content tr = ([], inr (Some thumb))
             /\ thumb <> []
             /\ upload_file E tr (BytesIO thumb) acct
                  (Some ("thumb_" +:+ fmt_opt (filename f))) (Some "image/jpeg")
                = inr (pkey, purl)
             /\ evs = [EvUploadFile (BytesIO thumb) acct
                         (Some ("thumb_" +:+ fmt_opt (filename f)))
                         (Some "image/jpeg") (inr (pkey, purl))]
             /\ v = VStr purl).
Proof.
  unfold create_preview_for.
  destruct (String.eqb_spec ty "image") as [->|Hty];
    [|exists [], VNone; repeat split; auto].
  unfold generate_thumbnail.
  destruct (create_preview_image_run content (300, 300) tr)
    as [(msg & Hrun) | (src & im & buf & _ & _ & Hrun)].
  - eexists _, VNone. split; [run|]. split; [reflexivity | auto].
  - destruct buf as [|b bs].
    + eexists _, VNone. split; [run|]. split; [reflexivity | auto].
    + destruct (upload_file E tr (BytesIO (b :: bs)) acct
                  (Some ("thumb_" +:+ fmt_opt (filename f))) (Some "image/jpeg"))
        as [e|[pkey purl]] eqn:Hup.
      * eexists _, VNone. split; [run|]. split; [reflexivity | auto].
      * eexists _, (VStr purl). split; [run|]. split; [reflexivity|].
        right. exists (b :: bs), pkey, purl. repeat split; auto; discriminate.
Qed.

End Preview.

(** ** Validation *)

Section Validation.
Variable E : Env.

Lemma verify_file_constraints_inv (f : UploadFile) sized :
  verify_file_constraints E f None = inr sized ->
  sized = (stream_length f, rewound f)
  /\ (stream_length f <= max_file_size_bytes (settings E))%Z.
Proof.
  unfold verify_file_constraints, stream_length, rewound, tell. cbn.
  destruct (Z.gtb_spec (Z.of_nat (length (data (file f))))
              (max_file_size_bytes (settings E))); [discriminate|].
  intros [= <-]. split; [reflexivity | lia].
Qed.

Lemma verify_file_constraints_too_large (f : UploadFile) :
  (stream_length f > max_file_size_bytes (settings E))%Z ->
  verify_file_constraints E f None =
    inl (HTTPException 413
           (size_detail E (stream_length f) (max_file_size_bytes (settings E)))).
Proof.
  intros H. unfold verify_file_constraints, stream_length, tell in *. cbn.
  destruct (Z.gtb_spec (Z.of_nat (length (data (file f))))
              (max_file_size_bytes (settings E))); [reflexivity | lia].
Qed.

Lemma verify_file_constraints_fits (f : UploadFile) :
  (stream_length f <= max_file_size_bytes (settings E))%Z ->
  verify_file_constraints E f None = inr (stream_length f, rewound f).
Proof.
  intros H. unfold verify_file_constraints, stream_length, rewound, tell in *. cbn.
  destruct (Z.gtb_spec (Z.of_nat (length (data (file f))))
              (max_file_size_bytes (settings E))); [lia | reflexivity].
Qed.

Lemma determine_file_category_rejects (f : UploadFile) ct :
  content_type f = Some ct ->
  lower ct ∉ allowed_image_types_list (settings E) ->
  lower ct ∉ allowed_video_types_list (settings E) ->
  determine_file_category E f =
    inl (HTTPException 400
           ("Content type '" +:+ lower ct
            +:+ "' is not permitted. Supported types: "
            +:+ allowed_image_types (settings E) +:+ ", "
            +:+ allowed_video_types (settings E))).
Proof.
  intros Hct Hi Hv. unfold determine_file_category. rewrite Hct.
  rewrite !bool_decide_eq_false_2 by assumption. reflexivity.
Qed.

(** The label block emits nothing. *)
Lemma process_label_data_silent (label_data : option string) tr :
  process_label_data E label_data tr = ([], result (process_label_data E label_data) tr).
Proof.
  unfold result, process_label_data.
  destruct label_data as [text|]; [|reflexivity].
  destruct (String.eqb text ""); [reflexivity|].
  unfold_m. destruct (json_loads E text) as [e|v]; cbn.
  - destruct (is_JSONDecodeError e); reflexivity.
  - destruct (negb (is_list v)); reflexivity.
Qed.

End Validation.

(** ** Create *)

Section Create.
Variable E : Env.

(** An exception raised in the body of [upload_new_asset] leaves the route
    as [upload_failure] says. *)
Lemma upload_handler_run (err : Exn) (tr : Trace) :
  (if is_HTTPException err then raise err
   else
     log ERROR ("Asset upload failed: " +:+ str_exn err);;;
     raise (HTTPException 500 ("Upload operation failed: " +:+ str_exn err))) tr
  = (upload_failure_log err, @inl Exn Doc (upload_failure err)).
Proof.
  unfold upload_failure_log, upload_failure.
  destruct (is_HTTPException err); reflexivity.
Qed.

(** Every run of a create is of one of three kinds: rejected by the
    validation, before anything is written; failed on the primary write;
    or past the primary write, in which case exactly one metadata record
    is handed to the store, after the primary blob and the optional
    preview blob. *)
Lemma upload_new_asset_runs (f : UploadFile) (desc tags : option string)
    (acct : string) (tr : Trace) :
  let run := upload_new_asset E f desc tags acct tr in
  let primary := EvUploadFile (primary_stream f) acct (filename f) (content_type f) in
  (exists err,
      (validate_file_type E f = inl err
       \/ (exists ty, validate_file_type E f = inr ty)
          /\ validate_file_size E f None = inl err
       \/ (exists ty, validate_file_type E f = inr ty)
          /\ validate_file_size E f None = inr (stream_length f, rewound f)
          /\ result (process_label_data E tags) tr = inl err)
      /\ run = (upload_failure_log err, inl (upload_failure err)))
  \/
  (exists ty labels err,
      validate_file_type E f = inr ty
      /\ validate_file_size E f None = inr (stream_length f, rewound f)
      /\ result (process_label_data E tags) tr = inr labels
      /\ upload_file E tr (primary_stream f) acct (filename f) (content_type f) = inl err
      /\ run = ((upload_failure_log err ++ [primary (inl err)])%list,
                inl (upload_failure err)))
  \/
  (exists ty labels key url pev pv later r,
      validate_file_type E f = inr ty
      /\ validate_file_size E f None = inr (stream_length f, rewound f)
      /\ result (process_label_data E tags) tr = inr labels
      /\ upload_file E tr (primary_stream f) acct (filename f) (content_type f)
         = inr (key, url)
      /\ create_preview_for E (rewound f) acct ty (data (file f))
           (primary (inr (key, url)) :: tr) = (pev, inr pv)
      /\ let t2 := (pev ++ primary (inr (key, url)) :: tr)%list in
         let id := uuid4 E t2 in
         let now := utcnow_isoformat E (EvUuid4 id :: t2) in
         let rec := construct_asset_record id acct key (rewound f) ty
                      (stream_length f) url pv desc labels now in
         let stored := create_media E (EvUtcNow now :: EvUuid4 id :: t2) rec in
         run = ((later ++ EvCreateMedia rec stored :: EvUtcNow now :: EvUuid4 id
                   :: pev ++ [primary (inr (key, url))])%list, r)
         /\ none_of is_create_media later = true
         /\ none_of is_upload later = true
         /\ r = match stored with
                | inl err => inl (upload_failure err)
                | inr p =>
                    match MediaResponse E p with
                    | inl err => inl (upload_failure err)
                    | inr resp => inr resp
                    end
                end
         /\ (forall resp, r = inr resp -> later = [EvCreateTask])).
Proof.
  intros run primary. subst run.
  destruct (validate_file_type E f) as [err|ty] eqn:Hty.
  { left. exists err. split; [auto|].
    pose proof (upload_handler_run err tr) as Hh.
    unfold upload_new_asset.
    run_to. }
  destruct (validate_file_size E f None) as [err|sized] eqn:Hsz.
  { left. exists err. split; [eauto|].
    pose proof (upload_handler_run err tr) as Hh.
    unfold upload_new_asset.
    run_to. }
  destruct (verify_file_constraints_inv E f sized Hsz) as [-> Hle].
  pose proof (process_label_data_silent E tags tr) as Hlab.
  destruct (result (process_label_data E tags) tr) as [err|labels] eqn:Hlr.
  { left. exists err. split; [eauto 6|].
    pose proof (upload_handler_run err tr) as Hh.
    unfold upload_new_asset.
    run_to. }
  destruct (upload_file E tr (primary_stream f) acct (filename f) (content_type f))
    as [err|[key url]] eqn:Hup.
  { right. left. exists ty, labels, err. repeat (split; [reflexivity || assumption|]).
    pose proof (upload_handler_run err (primary (inl err) :: tr)) as Hh.
    unfold upload_new_asset.
    run_to. }
  right. right.
  destruct (create_preview_for_run E (rewound f) acct ty (data (file f))
              (primary (inr (key, url)) :: tr)) as (pev & pv & Hpv & _ & _).
  assert (Hquiet : forall err,
            none_of is_create_media (upload_failure_log err) = true
            /\ none_of is_upload (upload_failure_log err) = true).
  { intros err. unfold upload_failure_log.
    destruct (is_HTTPException err); split; reflexivity. }
  exists ty, labels, key, url, pev, pv.
  destruct (create_media E
              (EvUtcNow (utcnow_isoformat E
                           (EvUuid4 (uuid4 E (pev ++ primary (inr (key, url)) :: tr))
                            :: pev ++ primary (inr (key, url)) :: tr))
               :: EvUuid4 (uuid4 E (pev ++ primary (inr (key, url)) :: tr))
               :: pev ++ primary (inr (key, url)) :: tr)%list
              (construct_asset_record
                 (uuid4 E (pev ++ primary (inr (key, url)) :: tr)%list)
                 acct key (rewound f) ty (stream_length f) url pv desc labels
                 (utcnow_isoformat E
                    (EvUuid4 (uuid4 E (pev ++ primary (inr (key, url)) :: tr))
                     :: pev ++ primary (inr (key, url)) :: tr)%list)))
    as [err|p] eqn:Hst.
  - exists (upload_failure_log err), (inl (upload_failure err)).
    do 5 (split; [reflexivity || assumption|]).
    cbv zeta. rewrite Hst.
    split; [|split; [apply Hquiet|split; [apply Hquiet|split; [reflexivity|discriminate]]]].
    match goal with |- context [EvCreateMedia ?r (inl err)] =>
      pose proof (upload_handler_run err
        (EvCreateMedia r (inl err) :: EvUtcNow
           (utcnow_isoformat E
              (EvUuid4 (uuid4 E (pev ++ primary (inr (key, url)) :: tr))
               :: pev ++ primary (inr (key, url)) :: tr))
         :: EvUuid4 (uuid4 E (pev ++ primary (inr (key, url)) :: tr))
         :: pev ++ primary (inr (key, url)) :: tr)%list) as Hh end.
    unfold upload_new_asset. run_to.
  - destruct (MediaResponse E p) as [err|resp] eqn:Hresp.
    + exists (upload_failure_log err ++ [EvCreateTask])%list, (inl (upload_failure err)).
      do 5 (split; [reflexivity || assumption|]).
      cbv zeta. rewrite Hst, Hresp.
      split; [|split; [|split; [|split; [reflexivity|discriminate]]]].
      * match goal with |- context [EvCreateMedia ?r (inr p)] =>
          pose proof (upload_handler_run err
            (EvCreateTask :: EvCreateMedia r (inr p) :: EvUtcNow
               (utcnow_isoformat E
                  (EvUuid4 (uuid4 E (pev ++ primary (inr (key, url)) :: tr))
                   :: pev ++ primary (inr (key, url)) :: tr))
             :: EvUuid4 (uuid4 E (pev ++ primary (inr (key, url)) :: tr))
             :: pev ++ primary (inr (key, url)) :: tr)%list) as Hh end.
        unfold upload_new_asset. run_to.
      * unfold none_of. rewrite forallb_app. cbn.
        rewrite andb_true_r. apply Hquiet.
      * unfold none_of. rewrite forallb_app. cbn.
        rewrite andb_true_r. apply Hquiet.
    + exists [EvCreateTask], (inr resp).
      do 5 (split; [reflexivity || assumption|]).
      cbv zeta. rewrite Hst, Hresp.
      split; [|split; [reflexivity|split; [reflexivity|split; reflexivity]]].
      unfold upload_new_asset. run_to.
Qed.

Lemma none_of_In (p : Event -> bool) (evs : list Event) (e : Event) :
  none_of p evs = true -> In e evs -> p e = false.
Proof.
  unfold none_of. rewrite forallb_forall. intros H Hin.
  apply negb_true_iff, H, Hin.
Qed.

Lemma upload_failure_log_quiet (err : Exn) (e : Event) :
  In e (upload_failure_log err) -> is_error_log e = true.
Proof.
  unfold upload_failure_log. destruct (is_HTTPException err); [intros []|].
  intros [<-|[]]. reflexivity.
Qed.

(** C2.  A create hands the metadata record to the store only after the
    primary storage write has succeeded.  When the primary write raises,
    the create fails and no record is handed to the store.  Whenever a
    record is handed to the store, the primary write was the first event
    of the request, it succeeded, and the record carries the storage key
    it returned: no record is created without its backing primary blob. *)
Theorem create_persists_metadata_after_primary_write
    (f : UploadFile) (desc tags : option string) (acct : string) (tr : Trace) :
  let run := upload_new_asset E f desc tags acct in
  let primary := EvUploadFile (primary_stream f) acct (filename f) (content_type f) in
  (forall err,
     upload_file E tr (primary_stream f) acct (filename f) (content_type f) = inl err ->
     (exists e, result run tr = inl e)
     /\ none_of is_create_media (emitted run tr) = true)
  /\
  (forall rec stored,
     In (EvCreateMedia rec stored) (emitted run tr) ->
     exists key url later between,
       upload_file E tr (primary_stream f) acct (filename f) (content_type f)
       = inr (key, url)
       /\ emitted run tr =
            (later ++ EvCreateMedia rec stored :: between ++ [primary (inr (key, url))])%list
       /\ rec !! "fileName" = Some (VStr key)).
Proof.
  intros run primary. subst run.
  destruct (upload_new_asset_runs f desc tags acct tr)
    as [(err & _ & Hrun) | [(ty & labels & err & _ & _ & _ & Hup & Hrun)
       | (ty & labels & key & url & pev & pv & later & r & _ & _ & _ & Hup & Hpv & Hrun)]].
  - unfold result, emitted. rewrite Hrun. cbn [fst snd]. split.
    + intros _ _. split; [eauto|].
      unfold upload_failure_log. destruct (is_HTTPException err); reflexivity.
    + intros rec stored Hin. apply upload_failure_log_quiet in Hin. discriminate.
  - unfold result, emitted. rewrite Hrun. cbn [fst snd]. split.
    + intros _ _. split; [eauto|].
      unfold upload_failure_log. destruct (is_HTTPException err); reflexivity.
    + intros rec stored Hin. apply in_app_or in Hin as [Hin|[Hin|[]]].
      * apply upload_failure_log_quiet in Hin. discriminate.
      * discriminate.
  - cbv zeta in Hrun. destruct Hrun as (Hrun & Hlater & _ & _).
    unfold result, emitted. rewrite Hrun. cbn [fst snd]. split.
    + intros err Herr. rewrite Hup in Herr. discriminate.
    + intros rec stored Hin.
      destruct (create_preview_for_run E (rewound f) acct ty (data (file f))
                  (EvUploadFile (primary_stream f) acct (filename f)
                     (content_type f) (inr (key, url)) :: tr))
        as (pev' & pv' & Hpv' & Hquiet & _).
      assert (Hsame : (pev', @inr Exn Val pv') = (pev, inr pv))
        by (rewrite <- Hpv'; exact Hpv).
      injection Hsame as -> ->.
      exists key, url, later.
      apply in_app_or in Hin as [Hin|[Hin|[Hin|[Hin|Hin]]]]; try discriminate.
      * apply (none_of_In _ _ _ Hlater) in Hin. discriminate.
      * injection Hin as <- <-. eexists (_ :: _ :: pev).
        split; [exact Hup|]. split; reflexivity.
      * apply in_app_or in Hin as [Hin|[Hin|[]]]; [|discriminate].
        apply (none_of_In _ _ _ Hquiet) in Hin. discriminate.
Qed.

(** C4.  A create classifies the content type and measures the size
    before any storage write.  A declared content type that, lowered,
    is in neither allow-list fails the create with 400 and nothing is
    written; an accepted type with a stream longer than the configured
    maximum fails the create with 413 and nothing is written; and any
    storage write in a create implies that both checks have passed. *)
Theorem create_validates_before_storage_write
    (f : UploadFile) (desc tags : option string) (acct : string) (tr : Trace) :
  let run := upload_new_asset E f desc tags acct in
  (forall ct,
     content_type f = Some ct ->
     lower ct ∉ allowed_image_types_list (settings E) ->
     lower ct ∉ allowed_video_types_list (settings E) ->
     run tr =
       ([], inl (HTTPException 400
                   ("Content type '" +:+ lower ct
                    +:+ "' is not permitted. Supported types: "
                    +:+ allowed_image_types (settings E) +:+ ", "
                    +:+ allowed_video_types (settings E)))))
  /\
  (forall ty,
     determine_file_category E f = inr ty ->
     (stream_length f > max_file_size_bytes (settings E))%Z ->
     run tr =
       ([], inl (HTTPException 413
                   (size_detail E (stream_length f) (max_file_size_bytes (settings E))))))
  /\
  (forall ev,
     In ev (emitted run tr) -> is_upload ev = true ->
     (exists ty, determine_file_category E f = inr ty)
     /\ (stream_length f <= max_file_size_bytes (settings E))%Z).
Proof.
  intros run. subst run. split; [|split].
  - intros ct Hct Hi Hv.
    pose proof (determine_file_category_rejects E f ct Hct Hi Hv) as Hty.
    unfold upload_new_asset, validate_file_type. run_to.
  - intros ty Hty Hbig.
    pose proof (verify_file_constraints_too_large E f Hbig) as Hsz.
    unfold upload_new_asset, validate_file_type, validate_file_size. run_to.
  - intros ev Hin Hev.
    destruct (upload_new_asset_runs f desc tags acct tr)
      as [(err & _ & Hrun) | [(ty & labels & err & Hty & Hsz & _)
         | (ty & labels & key & url & pev & pv & later & r & Hty & Hsz & _)]].
    + unfold emitted in Hin. rewrite Hrun in Hin. cbn [fst] in Hin.
      apply upload_failure_log_quiet in Hin. destruct ev; discriminate.
    + split; [exists ty; exact Hty|].
      apply (verify_file_constraints_inv E f _ Hsz).
    + split; [exists ty; exact Hty|].
      apply (verify_file_constraints_inv E f _ Hsz).
Qed.

(** C5 (what the code does).  A label string that decodes to a JSON value
    other than an array makes the create fail with 500: the [ValueError]
    raised for it is not a [JSONDecodeError], passes the inner [except]
    clause and is turned into a server error by the outer one.  Only a
    string that is not valid JSON yields the 400 validation error. *)
Theorem create_non_array_labels_surface_as_500
    (f : UploadFile) (desc : option string) (text text' : string) (acct : string)
    (tr : Trace) (ty : string) (v : Val) (msg : string) :
  determine_file_category E f = inr ty ->
  (stream_length f <= max_file_size_bytes (settings E))%Z ->
  text <> "" -> json_loads E text = inr v -> is_list v = false ->
  text' <> "" -> json_loads E text' = inl (JSONDecodeError msg) ->
  upload_new_asset E f desc (Some text) acct tr =
    ([EvLog ERROR "Asset upload failed: Labels must be provided as an array"],
     inl (HTTPException 500
            "Upload operation failed: Labels must be provided as an array"))
  /\
  upload_new_asset E f desc (Some text') acct tr =
    ([], inl (HTTPException 400 "Label data format invalid. Expected JSON array.")).
Proof.
  intros Hty Hle Hne Hjson Hnl Hne' Hjson'.
  pose proof (verify_file_constraints_fits E f Hle) as Hsz.
  apply String.eqb_neq in Hne, Hne'.
  split.
  - unfold upload_new_asset, validate_file_type, validate_file_size,
      process_label_data.
    run_to.
  - unfold upload_new_asset, validate_file_type, validate_file_size,
      process_label_data.
    run_to.
Qed.

Lemma determine_file_category_range (f : UploadFile) ty :
  determine_file_category E f = inr ty -> ty = "image" \/ ty = "video".
Proof.
  unfold determine_file_category. destruct (content_type f); [|discriminate].
  repeat case_bool_decide; intros [= <-]; auto.
Qed.

(** The record a create hands to the store. *)
Lemma upload_created_record (f : UploadFile) (desc tags : option string)
    (acct : string) (tr : Trace) rec stored :
  In (EvCreateMedia rec stored) (emitted (upload_new_asset E f desc tags acct) tr) ->
  exists ty labels key url pev pv id now,
    determine_file_category E f = inr ty
    /\ upload_file E tr (primary_stream f) acct (filename f) (content_type f)
       = inr (key, url)
    /\ create_preview_for E (rewound f) acct ty (data (file f))
         (EvUploadFile (primary_stream f) acct (filename f) (content_type f)
            (inr (key, url)) :: tr) = (pev, inr pv)
    /\ rec = construct_asset_record id acct key (rewound f) ty (stream_length f)
               url pv desc labels now.
Proof.
  intros Hin.
  destruct (upload_new_asset_runs f desc tags acct tr)
    as [(err & _ & Hrun) | [(ty & labels & err & _ & _ & _ & Hup & Hrun)
       | (ty & labels & key & url & pev & pv & later & r & Hty & _ & _ & Hup & Hpv & Hrun)]].
  - unfold emitted in Hin. rewrite Hrun in Hin. cbn [fst] in Hin.
    apply upload_failure_log_quiet in Hin. discriminate.
  - unfold emitted in Hin. rewrite Hrun in Hin. cbn [fst] in Hin.
    apply in_app_or in Hin as [Hin|[Hin|[]]]; [|discriminate].
    apply upload_failure_log_quiet in Hin. discriminate.
  - cbv zeta in Hrun. destruct Hrun as (Hrun & Hlater & _ & _).
    unfold emitted in Hin. rewrite Hrun in Hin. cbn [fst] in Hin.
    destruct (create_preview_for_run E (rewound f) acct ty (data (file f))
                (EvUploadFile (primary_stream f) acct (filename f)
                   (content_type f) (inr (key, url)) :: tr))
      as (pev' & pv' & Hpv' & Hquiet & _).
    assert (Hsame : (pev', @inr Exn Val pv') = (pev, inr pv))
      by (rewrite <- Hpv'; exact Hpv).
    injection Hsame as -> ->.
    apply in_app_or in Hin as [Hin|[Hin|[Hin|[Hin|Hin]]]]; try discriminate.
    + apply (none_of_In _ _ _ Hlater) in Hin. discriminate.
    + injection Hin as <- _. exists ty, labels, key, url, pev, pv.
      eexists _, _. repeat split; try eassumption.
    + apply in_app_or in Hin as [Hin|[Hin|[]]]; [|discriminate].
      apply (none_of_In _ _ _ Hquiet) in Hin. discriminate.
Qed.

(** C8.  The record of a create carries a non-null preview key only
    when the media category is [image], the preview was derived (a
    non-empty result) and the preview blob was written, and the key is
    then what that write returned; for a video create it is null. *)
Theorem preview_key_only_for_stored_image_previews
    (f : UploadFile) (desc tags : option string) (acct : string) (tr : Trace)
    (rec : Doc) (stored : Exn + Doc) :
  In (EvCreateMedia rec stored) (emitted (upload_new_asset E f desc tags acct) tr) ->
  exists ty pv,
    determine_file_category E f = inr ty
    /\ (ty = "image" \/ ty = "video")
    /\ rec !! "mediaType" = Some (VStr ty)
    /\ rec !! "thumbnailUrl" = Some pv
    /\ (ty = "video" -> pv = VNone)
    /\ (pv <> VNone ->
        ty = "image"
        /\ exists key url thumb pkey purl,
             upload_file E tr (primary_stream f) acct (filename f) (content_type f)
             = inr (key, url)
             /\ let t1 := EvUploadFile (primary_stream f) acct (filename f)
                            (content_type f) (inr (key, url)) :: tr in
                generate_thumbnail E (data (file f)) t1 = ([], inr (Some thumb))
                /\ thumb <> []
                /\ upload_file E t1 (BytesIO thumb) acct
                     (Some ("thumb_" +:+ fmt_opt (filename f))) (Some "image/jpeg")
                   = inr (pkey, purl)
                /\ pv = VStr purl).
Proof.
  intros Hin.
  destruct (upload_created_record f desc tags acct tr rec stored Hin)
    as (ty & labels & key & url & pev & pv & id & now & Hty & Hup & Hpv & ->).
  exists ty, pv. split; [exact Hty|].
  split; [exact (determine_file_category_range f ty Hty)|].
  split; [reflexivity|]. split; [reflexivity|].
  destruct (create_preview_for_run E (rewound f) acct ty (data (file f))
              (EvUploadFile (primary_stream f) acct (filename f)
                 (content_type f) (inr (key, url)) :: tr))
    as (pev' & pv' & Hpv' & _ & Hcases).
  assert (Hsame : (pev', @inr Exn Val pv') = (pev, inr pv))
    by (rewrite <- Hpv'; exact Hpv).
  injection Hsame as -> ->.
  destruct Hcases as [-> | (thumb & pkey & purl & -> & Hgen & Hne & Hpup & _ & ->)].
  - split; [reflexivity|]. intros H. contradiction.
  - split; [discriminate|]. intros _. split; [reflexivity|].
    exists key, url, thumb, pkey, purl. cbv zeta. auto.
Qed.


End Create.

(** ** Update *)

Section Update.
Variable E : Env.

Lemma field_updates_lookup (now : string) (upd : MediaUpdate) :
  field_updates now upd !! "updatedAt" = Some (VStr now)
  /\ field_updates now upd !! "description" = VStr <$> description upd
  /\ field_updates now upd !! "tags" = (fun t => VList (VStr <$> t)) <$> tags upd
  /\ (forall k, k <> "updatedAt" -> k <> "description" -> k <> "tags" ->
        field_updates now upd !! k = None).
Proof.
  unfold field_updates, dict. rewrite list_to_map_cons, list_to_map_nil.
  destruct upd as [[d|] [t|]]; cbn [description tags fst snd];
    repeat split; try (intros k H1 H2 H3);
    rewrite ?lookup_insert_ne by congruence;
    rewrite ?lookup_insert_eq, ?lookup_empty; reflexivity.
Qed.

(** C9 (amended).  An update of an owned asset hands the store, once, a
    partial-update dict that holds the current time as [updatedAt], the
    description exactly when a non-null description is supplied, the
    labels exactly when a non-null label list is supplied, and no other
    field.  Laid over the stored record, it leaves an omitted or
    null-supplied field as it was, writes a supplied value as it is (an
    empty string or an empty list stays empty, it is not turned into
    null), sets [updatedAt] to the current time, and leaves every other
    field unchanged. *)
Theorem update_applies_supplied_fields_only
    (aid caller : string) (doc : Doc) (upd : MediaUpdate) (tr : Trace) :
  get_media_by_id E tr aid caller = inr (Some doc) ->
  owned_by doc caller ->
  let looked_up := EvGetMediaById aid caller (inr (Some doc)) :: tr in
  let now := utcnow_isoformat E looked_up in
  let updates := field_updates now upd in
  let answer := update_media E (EvUtcNow now :: looked_up) aid caller updates in
  let after := merge_fields updates doc in
  (exists later,
     emitted (modify_asset_metadata E aid upd caller) tr =
       (later ++ [EvUpdateMedia aid caller updates answer; EvUtcNow now;
                  EvGetMediaById aid caller (inr (Some doc))])%list
     /\ none_of is_update_media later = true)
  /\ (forall d r, answer = inr d -> MediaResponse E d = inr r ->
        result (modify_asset_metadata E aid upd caller) tr = inr r)
  /\ updates !! "updatedAt" = Some (VStr now)
  /\ updates !! "description" = VStr <$> description upd
  /\ updates !! "tags" = (fun t => VList (VStr <$> t)) <$> tags upd
  /\ (forall k, k <> "updatedAt" -> k <> "description" -> k <> "tags" ->
        updates !! k = None)
  /\ after !! "updatedAt" = Some (VStr now)
  /\ after !! "description" =
       match description upd with
       | Some d => Some (VStr d)
       | None => doc !! "description"
       end
  /\ after !! "tags" =
       match tags upd with
       | Some t => Some (VList (VStr <$> t))
       | None => doc !! "tags"
       end
  /\ (forall k, k <> "updatedAt" -> k <> "description" -> k <> "tags" ->
        after !! k = doc !! k).
Proof.
  intros Hget Hown looked_up now updates answer after.
  pose proof (guard_own E _ _ _ _ Hget Hown) as Hg.
  destruct (field_updates_lookup now upd) as (Hu & Hd & Ht & Hk).
  fold updates in Hu, Hd, Ht, Hk.
  split; [|split].
  - destruct answer as [e|d] eqn:Hans; subst answer.
    + assert (Hkind : exists b c, is_HTTPException e = b /\ is_ValueError e = c) by eauto.
      destruct Hkind as ([] & c & Hb & Hc).
      * exists []. split; [exec (modify_asset_metadata E aid upd caller tr) | reflexivity].
      * destruct c.
        -- exists []. split; [exec (modify_asset_metadata E aid upd caller tr) | reflexivity].
        -- eexists [_]. split; [exec (modify_asset_metadata E aid upd caller tr) | reflexivity].
    + destruct (MediaResponse E d) as [e|r] eqn:Hresp.
      * assert (Hkind : exists b c, is_HTTPException e = b /\ is_ValueError e = c)
          by eauto.
        destruct Hkind as ([] & c & Hb & Hc).
        -- exists [EvCreateTask]. split; [exec (modify_asset_metadata E aid upd caller tr) | reflexivity].
        -- destruct c.
           ++ exists [EvCreateTask]. split; [exec (modify_asset_metadata E aid upd caller tr) | reflexivity].
           ++ eexists [_; EvCreateTask]. split; [exec (modify_asset_metadata E aid upd caller tr) | reflexivity].
      * exists [EvCreateTask]. split; [exec (modify_asset_metadata E aid upd caller tr) | reflexivity].
  - intros d r Hans Hresp. subst answer.
    exec (modify_asset_metadata E aid upd caller tr).
  - split; [exact Hu|]. split; [exact Hd|]. split; [exact Ht|]. split; [exact Hk|].
    subst after. unfold merge_fields.
    split; [|split; [|split]].
    + apply lookup_union_Some_l, Hu.
    + rewrite lookup_union, Hd. destruct (description upd); cbn.
      * destruct (doc !! "description"); reflexivity.
      * destruct (doc !! "description"); reflexivity.
    + rewrite lookup_union, Ht. destruct (tags upd); cbn.
      * destruct (doc !! "tags"); reflexivity.
      * destruct (doc !! "tags"); reflexivity.
    + intros k H1 H2 H3. rewrite lookup_union, (Hk k H1 H2 H3).
      destruct (doc !! k); reflexivity.
Qed.

End Update.

(** ** The outbound notification *)

Section Notification.
Variable E : Env.

Lemma notification_payload_fields (k : string) (v : Val) :
  notification_payload !! k = Some v ->
  (k = "type" \/ k = "value" \/ k = "filename") /\ v = VStr "".
Proof.
  unfold notification_payload, dict.
  rewrite !list_to_map_cons, list_to_map_nil. cbn [fst snd].
  intros H.
  destruct (decide (k = "type")) as [->|H1];
    [rewrite lookup_insert_eq in H; injection H as <-; auto|].
  rewrite lookup_insert_ne in H by congruence.
  destruct (decide (k = "value")) as [->|H2];
    [rewrite lookup_insert_eq in H; injection H as <-; auto|].
  rewrite lookup_insert_ne in H by congruence.
  destruct (decide (k = "filename")) as [->|H3];
    [rewrite lookup_insert_eq in H; injection H as <-; auto|].
  rewrite lookup_insert_ne in H by congruence.
  rewrite lookup_empty in H. discriminate.
Qed.

(** The four ways a notification can go. *)
Lemma notify_logic_app_run (tr : Trace) :
  notify_logic_app E tr =
    match logic_app_url (settings E) with
    | Some url =>
        if String.eqb url "" then
          ([EvLog WARNING "LOGIC_APP_URL is not configured, skipping notification"],
           inr tt)
        else
          let posted := http_post E tr url notification_payload in
          match posted with
          | inl e =>
              ([EvLog ERROR ("Failed to notify Logic App: " +:+ str_exn e);
                EvHttpPost url notification_payload posted], inr tt)
          | inr code =>
              match raise_for_status E code with
              | inl e =>
                  ([EvLog ERROR ("Failed to notify Logic App: " +:+ str_exn e);
                    EvHttpPost url notification_payload posted], inr tt)
              | inr _ =>
                  ([EvLog INFO "Successfully notified Logic App";
                    EvHttpPost url notification_payload posted], inr tt)
              end
          end
    | None =>
        ([EvLog WARNING "LOGIC_APP_URL is not configured, skipping notification"],
         inr tt)
    end.
Proof.
  unfold notify_logic_app.
  destruct (logic_app_url (settings E)) as [url|]; [|reflexivity].
  destruct (String.eqb url ""); [reflexivity|].
  unfold_m. cbv beta zeta.
  destruct (http_post E tr url notification_payload) as [e|code]; [reflexivity|].
  cbv beta iota zeta. destruct (raise_for_status E code) as [e|[]]; reflexivity.
Qed.

(** The guard asks the store once and emits nothing else. *)
Lemma guard_outcome (aid caller : string) (tr : Trace) :
  exists r, retrieve_and_confirm_asset_ownership E aid caller tr =
              ([EvGetMediaById aid caller (get_media_by_id E tr aid caller)], r).
Proof.
  unfold retrieve_and_confirm_asset_ownership. unfold_m.
  destruct (get_media_by_id E tr aid caller) as [e|[d|]]; cbn; eauto.
  destruct (Nat.eqb (size d) 0); cbn; eauto.
  destruct (getitem d "userId") as [e|o]; cbn; eauto.
  destruct (ne_str o caller); cbn; eauto.
Qed.

Ltac split_exn e :=
  let b := fresh "b" in
  let Hb := fresh "Hb" in
  assert (exists b, is_HTTPException e = b) as [b Hb] by eauto;
  destruct b.

Ltac scheduled prog :=
  exec prog; first [discriminate | intros _; cbn; auto].

(** A route that succeeds has scheduled the notification. *)
Lemma upload_new_asset_schedules f desc tags acct tr resp :
  result (upload_new_asset E f desc tags acct) tr = inr resp ->
  In EvCreateTask (emitted (upload_new_asset E f desc tags acct) tr).
Proof.
  destruct (upload_new_asset_runs E f desc tags acct tr)
    as [(err & _ & Hrun) | [(ty & labels & err & _ & _ & _ & _ & Hrun)
       | (ty & labels & key & url & pev & pv & later & r & _ & _ & _ & _ & _ & Hrun)]].
  - unfold result. rewrite Hrun. discriminate.
  - unfold result. rewrite Hrun. discriminate.
  - cbv zeta in Hrun. destruct Hrun as (Hrun & _ & _ & _ & Hlater).
    unfold result, emitted. rewrite Hrun. cbn [fst snd]. intros ->.
    rewrite (Hlater resp eq_refl). left. reflexivity.
Qed.

Lemma find_assets_schedules query pg sz acct tr resp :
  result (find_assets E query pg sz acct) tr = inr resp ->
  In EvCreateTask (emitted (find_assets E query pg sz acct) tr).
Proof.
  destruct (search_media E tr acct query pg sz) as [e|[found n]] eqn:Hs.
  - scheduled (find_assets E query pg sz acct tr).
  - destruct (lift_all (MediaResponse E) found) as [e|l] eqn:Hl;
      scheduled (find_assets E query pg sz acct tr).
Qed.

Lemma retrieve_asset_collection_schedules pg sz kind acct tr resp :
  result (retrieve_asset_collection E pg sz kind acct) tr = inr resp ->
  In EvCreateTask (emitted (retrieve_asset_collection E pg sz kind acct) tr).
Proof.
  destruct (get_user_media E tr acct pg sz kind) as [e|[found n]] eqn:Hs.
  - scheduled (retrieve_asset_collection E pg sz kind acct tr).
  - destruct (lift_all (MediaResponse E) found) as [e|l] eqn:Hl;
      scheduled (retrieve_asset_collection E pg sz kind acct tr).
Qed.

Lemma retrieve_single_asset_schedules aid acct tr resp :
  result (retrieve_single_asset E aid acct) tr = inr resp ->
  In EvCreateTask (emitted (retrieve_single_asset E aid acct) tr).
Proof.
  destruct (guard_outcome aid acct tr) as ([e|d] & Hg).
  - split_exn e; scheduled (retrieve_single_asset E aid acct tr).
  - destruct (MediaResponse E d) as [e|r] eqn:Hr.
    + split_exn e; scheduled (retrieve_single_asset E aid acct tr).
    + scheduled (retrieve_single_asset E aid acct tr).
Qed.

Lemma modify_asset_metadata_schedules aid upd acct tr resp :
  result (modify_asset_metadata E aid upd acct) tr = inr resp ->
  In EvCreateTask (emitted (modify_asset_metadata E aid upd acct) tr).
Proof.
  destruct (guard_outcome aid acct tr) as ([e|d] & Hg).
  - split_exn e; [|destruct (is_ValueError e) eqn:Hv];
      scheduled (modify_asset_metadata E aid upd acct tr).
  - match goal with
    | |- _ -> In _ (emitted (modify_asset_metadata E aid upd acct) tr) =>
        destruct (update_media E
                    (EvUtcNow (utcnow_isoformat E
                                 (EvGetMediaById aid acct (get_media_by_id E tr aid acct)
                                  :: tr))
                     :: EvGetMediaById aid acct (get_media_by_id E tr aid acct) :: tr)
                    aid acct
                    (field_updates
                       (utcnow_isoformat E
                          (EvGetMediaById aid acct (get_media_by_id E tr aid acct) :: tr))
                       upd)) as [e|d'] eqn:Hu
    end.
    + split_exn e; [|destruct (is_ValueError e) eqn:Hv];
        scheduled (modify_asset_metadata E aid upd acct tr).
    + destruct (MediaResponse E d') as [e|r] eqn:Hr.
      * split_exn e; [|destruct (is_ValueError e) eqn:Hv];
          scheduled (modify_asset_metadata E aid upd acct tr).
      * scheduled (modify_asset_metadata E aid upd acct tr).
Qed.

Lemma remove_asset_schedules aid acct tr resp :
  result (remove_asset E aid acct) tr = inr resp ->
  In EvCreateTask (emitted (remove_asset E aid acct) tr).
Proof.
  destruct (guard_outcome aid acct tr) as ([e|d] & Hg).
  { split_exn e; scheduled (remove_asset E aid acct tr). }
  destruct (d !! "fileName") as [key|] eqn:Hkey.
  2:{ scheduled (remove_asset E aid acct tr). }
  destruct (delete_file E
              (EvGetMediaById aid acct (get_media_by_id E tr aid acct) :: tr) key)
    as [e|[]] eqn:Hprim.
  { split_exn e; scheduled (remove_asset E aid acct tr). }
  destruct (parse_preview_run d
              (EvDeleteFile key (inr tt)
               :: EvGetMediaById aid acct (get_media_by_id E tr aid acct) :: tr))
    as (pev & o & Hp & _).
  destruct (preview_delete_run E o
              (pev ++ EvDeleteFile key (inr tt)
               :: EvGetMediaById aid acct (get_media_by_id E tr aid acct) :: tr))
    as (dev & Hd & _).
  destruct (delete_media E
              (dev ++ pev ++ EvDeleteFile key (inr tt)
               :: EvGetMediaById aid acct (get_media_by_id E tr aid acct) :: tr)
              aid acct) as [e|[]] eqn:Hrec.
  { split_exn e; scheduled (remove_asset E aid acct tr). }
  scheduled (remove_asset E aid acct tr).
Qed.

(** C10.  The notification never raises, whatever the webhook does; what
    it posts is the constant payload [{type: "", value: "", filename: ""}]
    to the configured URL, and a failing post or status check is logged.
    It takes no argument, and the six routes hand it none: they only
    schedule it.  Their events and outcomes are the same whatever the
    webhook is and does, and every one of them that succeeds has
    scheduled the notification. *)
Theorem notification_constant_and_harmless :
  (forall tr, result (notify_logic_app E) tr = inr tt)
  /\ (forall tr url payload r,
        In (EvHttpPost url payload r) (emitted (notify_logic_app E) tr) ->
        payload = notification_payload /\ logic_app_url (settings E) = Some url)
  /\ (forall k v, notification_payload !! k = Some v ->
        (k = "type" \/ k = "value" \/ k = "filename") /\ v = VStr "")
  /\ (forall tr url e,
        logic_app_url (settings E) = Some url -> url <> "" ->
        (http_post E tr url notification_payload = inl e
         \/ exists code, http_post E tr url notification_payload = inr code
                         /\ raise_for_status E code = inl e) ->
        In (EvLog ERROR ("Failed to notify Logic App: " +:+ str_exn e))
           (emitted (notify_logic_app E) tr))
  /\ (forall url post check,
        let E' := with_webhook E url post check in
        (forall f desc tags acct tr,
           upload_new_asset E' f desc tags acct tr = upload_new_asset E f desc tags acct tr)
        /\ (forall query pg sz acct tr,
              find_assets E' query pg sz acct tr = find_assets E query pg sz acct tr)
        /\ (forall pg sz kind acct tr,
              retrieve_asset_collection E' pg sz kind acct tr
              = retrieve_asset_collection E pg sz kind acct tr)
        /\ (forall aid acct tr,
              retrieve_single_asset E' aid acct tr = retrieve_single_asset E aid acct tr)
        /\ (forall aid upd acct tr,
              modify_asset_metadata E' aid upd acct tr
              = modify_asset_metadata E aid upd acct tr)
        /\ (forall aid acct tr,
              remove_asset E' aid acct tr = remove_asset E aid acct tr))
  /\ ((forall f desc tags acct tr resp,
         result (upload_new_asset E f desc tags acct) tr = inr resp ->
         In EvCreateTask (emitted (upload_new_asset E f desc tags acct) tr))
      /\ (forall query pg sz acct tr resp,
            result (find_assets E query pg sz acct) tr = inr resp ->
            In EvCreateTask (emitted (find_assets E query pg sz acct) tr))
      /\ (forall pg sz kind acct tr resp,
            result (retrieve_asset_collection E pg sz kind acct) tr = inr resp ->
            In EvCreateTask (emitted (retrieve_asset_collection E pg sz kind acct) tr))
      /\ (forall aid acct tr resp,
            result (retrieve_single_asset E aid acct) tr = inr resp ->
            In EvCreateTask (emitted (retrieve_single_asset E aid acct) tr))
      /\ (forall aid upd acct tr resp,
            result (modify_asset_metadata E aid upd acct) tr = inr resp ->
            In EvCreateTask (emitted (modify_asset_metadata E aid upd acct) tr))
      /\ (forall aid acct tr resp,
            result (remove_asset E aid acct) tr = inr resp ->
            In EvCreateTask (emitted (remove_asset E aid acct) tr))).
Proof.
  split; [|split; [|split; [|split; [|split]]]].
  - intros tr. unfold result. rewrite notify_logic_app_run.
    destruct (logic_app_url (settings E)) as [url|]; [|reflexivity].
    destruct (String.eqb url ""); [reflexivity|]. cbv zeta.
    destruct (http_post E tr url notification_payload) as [e|code]; [reflexivity|].
    destruct (raise_for_status E code); reflexivity.
  - intros tr url payload r. unfold emitted. rewrite notify_logic_app_run.
    destruct (logic_app_url (settings E)) as [url'|];
      [|intros [H|[]]; discriminate].
    destruct (String.eqb url' ""); [intros [H|[]]; discriminate|]. cbv zeta.
    destruct (http_post E tr url' notification_payload) as [e|code].
    + intros [H|[H|[]]]; [discriminate|]. injection H as <- <- _. auto.
    + destruct (raise_for_status E code);
        (intros [H|[H|[]]]; [discriminate|]; injection H as <- <- _; auto).
  - exact notification_payload_fields.
  - intros tr url e Hurl Hne Hfail. unfold emitted. rewrite notify_logic_app_run, Hurl.
    apply String.eqb_neq in Hne. rewrite Hne. cbv zeta.
    destruct Hfail as [-> | (code & -> & ->)]; left; reflexivity.
  - intros url post check E'. repeat split; intros; reflexivity.
  - split; [exact upload_new_asset_schedules|].
    split; [exact find_assets_schedules|].
    split; [exact retrieve_asset_collection_schedules|].
    split; [exact retrieve_single_asset_schedules|].
    split; [exact modify_asset_metadata_schedules | exact remove_asset_schedules].
Qed.

End Notification.

(** ** The theorems at work in the concrete world *)

(** A create whose primary write is refused, and one that goes through. *)
Lemma create_persists_metadata_after_primary_write_witness :
  ((exists e,
      result (upload_new_asset Demo.primary_refused (Demo.png Demo.three_bytes)
                None None "alice") [] = inl e)
   /\ none_of is_create_media
        (emitted (upload_new_asset Demo.primary_refused (Demo.png Demo.three_bytes)
                    None None "alice") []) = true)
  /\
  (exists key url later between,
     upload_file Demo.library [] (primary_stream (Demo.png Demo.three_bytes))
       "alice" (Some "cat.png") (Some "image/png") = inr (key, url)
     /\ emitted (upload_new_asset Demo.library (Demo.png Demo.three_bytes)
                   None None "alice") [] =
          (later ++ EvCreateMedia Demo.new_cat (inr Demo.new_cat) :: between
           ++ [EvUploadFile (primary_stream (Demo.png Demo.three_bytes)) "alice"
                 (Some "cat.png") (Some "image/png") (inr (key, url))])%list
     /\ Demo.new_cat !! "fileName" = Some (VStr key)).
Proof.
  split.
  - apply (create_persists_metadata_after_primary_write Demo.primary_refused
             (Demo.png Demo.three_bytes) None None "alice" [])
      with (err := OtherException "blob store unavailable").
    reflexivity.
  - apply (create_persists_metadata_after_primary_write Demo.library
             (Demo.png Demo.three_bytes) None None "alice" []).
    right. left. reflexivity.
Defined.

(** A PDF, a five-byte image against a four-byte limit, and an accepted
    image. *)
Lemma create_validates_before_storage_write_witness :
  upload_new_asset Demo.library (Demo.pdf Demo.three_bytes) None None "alice" [] =
    ([], inl (HTTPException 400
       "Content type 'application/pdf' is not permitted. Supported types: image/jpeg,image/png, video/mp4"))
  /\ upload_new_asset Demo.library (Demo.png Demo.five_bytes) None None "alice" [] =
    ([], inl (HTTPException 413 "File size (5 B) surpasses maximum limit (4 B)"))
  /\ ((exists ty, determine_file_category Demo.library (Demo.png Demo.three_bytes)
                  = inr ty)
      /\ (stream_length (Demo.png Demo.three_bytes) <= 4)%Z).
Proof.
  pose proof (create_validates_before_storage_write Demo.library
                (Demo.pdf Demo.three_bytes) None None "alice" []) as (Htype & _ & _).
  pose proof (create_validates_before_storage_write Demo.library
                (Demo.png Demo.five_bytes) None None "alice" []) as (_ & Hsize & _).
  pose proof (create_validates_before_storage_write Demo.library
                (Demo.png Demo.three_bytes) None None "alice" []) as (_ & _ & Hwrite).
  split; [|split].
  - apply (Htype "application/pdf"); [reflexivity | |]; vm_compute;
      intros H; repeat (inversion H as [|? ? ? H']; clear H; rename H' into H).
  - apply (Hsize "image"); [reflexivity | vm_compute; reflexivity].
  - apply (Hwrite (EvUploadFile (primary_stream (Demo.png Demo.three_bytes)) "alice"
                     (Some "cat.png") (Some "image/png")
                     (inr ("alice/cat.png", "https://blobs.example/alice/cat.png")))).
    + do 5 right. left. reflexivity.
    + reflexivity.
Defined.

(** The label string [1] (valid JSON, not an array) and a lone opening
    bracket (not JSON). *)
Lemma create_non_array_labels_surface_as_500_witness :
  upload_new_asset Demo.library (Demo.png Demo.three_bytes) None (Some "1") "alice" [] =
    ([EvLog ERROR "Asset upload failed: Labels must be provided as an array"],
     inl (HTTPException 500
            "Upload operation failed: Labels must be provided as an array"))
  /\
  upload_new_asset Demo.library (Demo.png Demo.three_bytes) None (Some "[") "alice" [] =
    ([], inl (HTTPException 400 "Label data format invalid. Expected JSON array.")).
Proof.
  apply (create_non_array_labels_surface_as_500 Demo.library
           (Demo.png Demo.three_bytes) None "1" "[" "alice" [] "image" (VInt 1)
           "Expecting value: line 1 column 1 (char 0)").
  - reflexivity.
  - vm_compute. discriminate.
  - discriminate.
  - reflexivity.
  - reflexivity.
  - discriminate.
  - reflexivity.
Defined.


(** The record of an image create that stored its preview. *)
Lemma preview_key_only_for_stored_image_previews_witness :
  In (EvCreateMedia Demo.new_cat (inr Demo.new_cat))
     (emitted (upload_new_asset Demo.library (Demo.png Demo.three_bytes)
                 None None "alice") [])
  /\ exists ty pv,
       determine_file_category Demo.library (Demo.png Demo.three_bytes) = inr ty
       /\ (ty = "image" \/ ty = "video")
       /\ Demo.new_cat !! "mediaType" = Some (VStr ty)
       /\ Demo.new_cat !! "thumbnailUrl" = Some pv
       /\ (ty = "video" -> pv = VNone).
Proof.
  assert (Hin : In (EvCreateMedia Demo.new_cat (inr Demo.new_cat))
                   (emitted (upload_new_asset Demo.library (Demo.png Demo.three_bytes)
                               None None "alice") [])).
  { right. left. reflexivity. }
  split; [exact Hin|].
  destruct (preview_key_only_for_stored_image_previews Demo.library
              (Demo.png Demo.three_bytes) None None "alice" []
              Demo.new_cat (inr Demo.new_cat) Hin)
    as (ty & pv & Hty & Hrange & Hkind & Hkey & Hvideo & _).
  exists ty, pv. auto.
Defined.

(** An update with a null description and an empty label list. *)
Lemma update_applies_supplied_fields_only_witness :
  (exists later,
     emitted (modify_asset_metadata Demo.library "m1" Demo.null_and_empty "alice") [] =
       (later ++ [EvUpdateMedia "m1" "alice"
                    (field_updates "T+1" Demo.null_and_empty)
                    (inr (merge_fields (field_updates "T+1" Demo.null_and_empty)
                            Demo.cat));
                  EvUtcNow "T+1";
                  EvGetMediaById "m1" "alice" (inr (Some Demo.cat))])%list
     /\ none_of is_update_media later = true)
  /\ merge_fields (field_updates "T+1" Demo.null_and_empty) Demo.cat !! "updatedAt"
     = Some (VStr "T+1")
  /\ merge_fields (field_updates "T+1" Demo.null_and_empty) Demo.cat !! "description"
     = Some (VStr "a cat")
  /\ merge_fields (field_updates "T+1" Demo.null_and_empty) Demo.cat !! "tags"
     = Some (VList [])
  /\ merge_fields (field_updates "T+1" Demo.null_and_empty) Demo.cat !! "userId"
     = Some (VStr "alice").
Proof.
  pose proof (update_applies_supplied_fields_only Demo.library "m1" "alice"
                Demo.cat Demo.null_and_empty [] eq_refl eq_refl)
    as (Hcall & _ & _ & _ & _ & _ & Hstamp & Hdesc & Htags & Hrest).
  split; [exact Hcall|].
  split; [exact Hstamp|].
  split; [exact Hdesc|].
  split; [exact Htags|].
  refine (Hrest "userId" _ _ _); discriminate.
Defined.

(** C9 as stated fails: a description supplied as null and a label list
    supplied as empty.  The null description is not written as null, the
    stored one stays; the empty label list is written as an empty list,
    not as null.  Likewise an empty description is written as the empty
    string. *)
Lemma update_null_and_empty_counterexample :
  result (modify_asset_metadata Demo.library "m1" Demo.null_and_empty "alice") []
    = inr (merge_fields (field_updates "T+1" Demo.null_and_empty) Demo.cat)
  /\ field_updates "T+1" Demo.null_and_empty !! "description" = None
  /\ merge_fields (field_updates "T+1" Demo.null_and_empty) Demo.cat !! "description"
     = Some (VStr "a cat")
  /\ merge_fields (field_updates "T+1" Demo.null_and_empty) Demo.cat !! "description"
     <> Some VNone
  /\ merge_fields (field_updates "T+1" Demo.null_and_empty) Demo.cat !! "tags"
     = Some (VList [])
  /\ merge_fields (field_updates "T+1" Demo.null_and_empty) Demo.cat !! "tags"
     <> Some VNone
  /\ result (modify_asset_metadata Demo.library "m1" Demo.empty_description "alice") []
     = inr (merge_fields (field_updates "T+1" Demo.empty_description) Demo.cat)
  /\ merge_fields (field_updates "T+1" Demo.empty_description) Demo.cat !! "description"
     = Some (VStr "")
  /\ merge_fields (field_updates "T+1" Demo.empty_description) Demo.cat !! "description"
     <> Some VNone.
Proof.
  assert (Hd : merge_fields (field_updates "T+1" Demo.null_and_empty) Demo.cat
               !! "description" = Some (VStr "a cat")) by reflexivity.
  assert (Ht : merge_fields (field_updates "T+1" Demo.null_and_empty) Demo.cat
               !! "tags" = Some (VList [])) by reflexivity.
  assert (He : merge_fields (field_updates "T+1" Demo.empty_description) Demo.cat
               !! "description" = Some (VStr "")) by reflexivity.
  split; [reflexivity|]. split; [reflexivity|].
  split; [exact Hd|]. split; [rewrite Hd; discriminate|].
  split; [exact Ht|]. split; [rewrite Ht; discriminate|].
  split; [reflexivity|].
  split; [exact He|]. rewrite He; discriminate.
Qed.

(** A webhook that times out. *)
Lemma notification_constant_and_harmless_witness :
  notify_logic_app
    (with_webhook Demo.library (Some "https://hooks.example/media")
       (fun _ _ _ => inl (OtherException "ConnectTimeout"))
       (raise_for_status Demo.library)) [] =
    ([EvLog ERROR "Failed to notify Logic App: ConnectTimeout";
      EvHttpPost "https://hooks.example/media" notification_payload
        (inl (OtherException "ConnectTimeout"))], inr tt)
  /\ notification_payload !! "filename" = Some (VStr "")
  /\ In (EvLog ERROR "Failed to notify Logic App: ConnectTimeout")
        (emitted (notify_logic_app
                    (with_webhook Demo.library (Some "https://hooks.example/media")
                       (fun _ _ _ => inl (OtherException "ConnectTimeout"))
                       (raise_for_status Demo.library))) [])
  /\ remove_asset
       (with_webhook Demo.library (Some "https://hooks.example/media")
          (fun _ _ _ => inl (OtherException "ConnectTimeout"))
          (raise_for_status Demo.library)) "m1" "alice" []
     = remove_asset Demo.library "m1" "alice" [].
Proof.
  pose proof (notification_constant_and_harmless
                (with_webhook Demo.library (Some "https://hooks.example/media")
                   (fun _ _ _ => inl (OtherException "ConnectTimeout"))
                   (raise_for_status Demo.library)))
    as (Hnever & Hpayload & Hfields & Hlogged & _).
  pose proof (notification_constant_and_harmless Demo.library)
    as (_ & _ & _ & _ & Hsame & _).
  split; [reflexivity|].
  split; [reflexivity|].
  split.
  - apply (Hlogged [] "https://hooks.example/media" (OtherException "ConnectTimeout")).
    + reflexivity.
    + discriminate.
    + left. reflexivity.
  - apply (Hsame (Some "https://hooks.example/media")
             (fun _ _ _ => inl (OtherException "ConnectTimeout"))
             (raise_for_status Demo.library)).
Defined.

(** * Further properties of the code *)

(** ** utils.py: the two checks *)

Section Checks.
Variable E : Env.

(** X1.  The size check accepts an upload exactly up to the limit in
    force, the limit itself included: the per-call limit when one is given,
    the configured maximum otherwise.  It measures the whole stream,
    wherever the read position was. *)
Theorem verify_file_constraints_accepts_up_to_limit
    (f : UploadFile) (size_limit : option Z) :
  let limit :=
    match size_limit with
    | None => max_file_size_bytes (settings E)
    | Some l => l
    end in
  ((stream_length f <= limit)%Z ->
     verify_file_constraints E f size_limit = inr (stream_length f, rewound f))
  /\ ((stream_length f > limit)%Z ->
     verify_file_constraints E f size_limit =
       inl (HTTPException 413 (size_detail E (stream_length f) limit))).
Proof.
  cbv zeta. unfold verify_file_constraints, stream_length, rewound, tell.
  cbn [seek_end seek_start data pos].
  destruct size_limit as [l|];
    (match goal with
     | |- context [Z.gtb ?a ?b] => destruct (Z.gtb_spec a b)
     end; split; intros Hcmp; first [reflexivity | lia]).
Qed.

(** X2.  The size check does not consume the stream: after a passed check
    the upload has the same name, type and content, its read position is
    at the start, and a read gives the whole content, even when the
    stream was positioned elsewhere before the check. *)
Theorem verify_file_constraints_leaves_stream_readable
    (f f' : UploadFile) (size_limit : option Z) (measured : Z) :
  verify_file_constraints E f size_limit = inr (measured, f') ->
  measured = Z.of_nat (length (data (file f)))
  /\ filename f' = filename f
  /\ content_type f' = content_type f
  /\ tell (file f') = 0%Z
  /\ fst (read_all (file f')) = data (file f).
Proof.
  unfold verify_file_constraints, tell. cbn [seek_end seek_start data pos].
  match goal with
  | |- context [Z.gtb ?a ?b] => destruct (Z.gtb a b)
  end; [discriminate|].
  intros [= <- <-]. repeat split.
Qed.

(** X3.  The content-type check is a case-insensitive lookup with the
    image list first: the category is [image] exactly when the lowered
    declared type is in the image list, [video] exactly when it is in the
    video list and not in the image list; every other declared type is
    refused with 400, a missing declaration raises [AttributeError]; and
    two uploads whose declared types differ only in case are treated
    alike. *)
Theorem determine_file_category_classifies (f : UploadFile) :
  (determine_file_category E f = inr "image" <->
     exists ct, content_type f = Some ct
                /\ lower ct ∈ allowed_image_types_list (settings E))
  /\ (determine_file_category E f = inr "video" <->
        exists ct, content_type f = Some ct
                   /\ (lower ct ∉ allowed_image_types_list (settings E))
                   /\ lower ct ∈ allowed_video_types_list (settings E))
  /\ (forall e, determine_file_category E f = inl e ->
        (content_type f = None /\ exists m, e = AttributeError m)
        \/ (exists ct d, content_type f = Some ct
                         /\ (lower ct ∉ allowed_image_types_list (settings E))
                         /\ (lower ct ∉ allowed_video_types_list (settings E))
                         /\ e = HTTPException 400 d))
  /\ (forall g, (lower <$> content_type f) = (lower <$> content_type g) ->
        determine_file_category E f = determine_file_category E g).
Proof.
  unfold determine_file_category.
  split; [|split; [|split]].
  - destruct (content_type f) as [ct|];
      [|split; [discriminate | intros (ct & Hct & _); discriminate]].
    case_bool_decide as Hi.
    + split; [eauto | reflexivity].
    + split; [case_bool_decide; discriminate|].
      intros (ct' & [= <-] & Hin). contradiction.
  - destruct (content_type f) as [ct|];
      [|split; [discriminate | intros (ct & Hct & _); discriminate]].
    case_bool_decide as Hi.
    + split; [discriminate|].
      intros (ct' & [= <-] & Hni & _). contradiction.
    + case_bool_decide as Hv.
      * split; [eauto | reflexivity].
      * split; [discriminate|].
        intros (ct' & [= <-] & _ & Hin). contradiction.
  - intros e. destruct (content_type f) as [ct|].
    + case_bool_decide as Hi; [discriminate|].
      case_bool_decide as Hv; [discriminate|].
      intros [= <-]. right. eauto 8.
    + intros [= <-]. left. eauto.
  - intros g Hg. destruct (content_type f) as [ct|], (content_type g) as [ct'|];
      try discriminate; [|reflexivity].
    injection Hg as ->. reflexivity.
Qed.

End Checks.

(** A five-byte image against the configured limit of four bytes and
    against a per-call limit of five. *)
Lemma verify_file_constraints_accepts_up_to_limit_witness :
  verify_file_constraints Demo.library (Demo.png Demo.five_bytes) (Some 5%Z) =
    inr (5%Z, rewound (Demo.png Demo.five_bytes))
  /\ verify_file_constraints Demo.library (Demo.png Demo.five_bytes) None =
    inl (HTTPException 413 "File size (5 B) surpasses maximum limit (4 B)").
Proof.
  split.
  - apply (verify_file_constraints_accepts_up_to_limit Demo.library
             (Demo.png Demo.five_bytes) (Some 5%Z)).
    vm_compute. discriminate.
  - apply (verify_file_constraints_accepts_up_to_limit Demo.library
             (Demo.png Demo.five_bytes) None).
    vm_compute. reflexivity.
Defined.

(** An upload that arrives with its read position behind the second
    byte. *)
Lemma verify_file_constraints_leaves_stream_readable_witness :
  verify_file_constraints Demo.library
    {| filename := Some "cat.png"; content_type := Some "image/png";
       file := {| data := Demo.three_bytes; pos := 2 |} |} None
  = inr (3%Z, Demo.png Demo.three_bytes)
  /\ fst (read_all (file (Demo.png Demo.three_bytes))) = Demo.three_bytes.
Proof.
  split; [reflexivity|].
  apply (verify_file_constraints_leaves_stream_readable Demo.library
           {| filename := Some "cat.png"; content_type := Some "image/png";
              file := {| data := Demo.three_bytes; pos := 2 |} |}
           (Demo.png Demo.three_bytes) None 3%Z).
  reflexivity.
Defined.

(** [Image/PNG] is an image in the concrete world, and is treated as
    [image/png] is. *)
Lemma determine_file_category_classifies_witness :
  determine_file_category Demo.library
    {| filename := None; content_type := Some "Image/PNG"; file := BytesIO [] |}
  = inr "image"
  /\ determine_file_category Demo.library
       {| filename := None; content_type := Some "Image/PNG"; file := BytesIO [] |}
     = determine_file_category Demo.library (Demo.png Demo.three_bytes).
Proof.
  pose proof (determine_file_category_classifies Demo.library
                {| filename := None; content_type := Some "Image/PNG";
                   file := BytesIO [] |}) as (Himage & _ & _ & Hcase).
  split.
  - apply Himage. exists "Image/PNG". split; [reflexivity|].
    apply list_elem_of_In. right. left. reflexivity.
  - apply Hcase. reflexivity.
Defined.

(** ** media_helpers.py: the two fetch modes *)

Ltac by_http_kind e :=
  let b := fresh "b" in
  let Hb := fresh "Hhttp" in
  assert (exists b, is_HTTPException e = b) as [b Hb] by eauto;
  destruct b.

Ltac by_value_kind e :=
  let b := fresh "b" in
  let Hb := fresh "Hvalue" in
  assert (exists b, is_ValueError e = b) as [b Hb] by eauto;
  destruct b.

Lemma ne_str_false (v : Val) (s : string) : ne_str v s = false -> v = VStr s.
Proof.
  destruct v; try discriminate. cbn. intros H.
  apply negb_false_iff, String.eqb_eq in H. congruence.
Qed.

Section FetchModes.
Variable E : Env.

(** What the strict guard makes of the store's answer. *)
Lemma guard_full (aid caller : string) (tr : Trace) :
  retrieve_and_confirm_asset_ownership E aid caller tr =
    ([EvGetMediaById aid caller (get_media_by_id E tr aid caller)],
     match get_media_by_id E tr aid caller with
     | inl e => inl e
     | inr None => inl (HTTPException 404 "Asset resource could not be located")
     | inr (Some d) =>
         if absent (Some d) then
           inl (HTTPException 404 "Asset resource could not be located")
         else
           match d !! "userId" with
           | None => inl (KeyError "userId")
           | Some o => if ne_str o caller then inl forbidden else inr d
           end
     end).
Proof.
  unfold retrieve_and_confirm_asset_ownership. unfold_m.
  destruct (get_media_by_id E tr aid caller) as [e|[d|]]; [reflexivity| |reflexivity].
  cbv beta iota. destruct (absent (Some d)); [reflexivity|].
  unfold getitem. destruct (d !! "userId") as [o|]; [|reflexivity].
  cbv beta iota. destruct (ne_str o caller); reflexivity.
Qed.

(** What the pre-scoped mode makes of it. *)
Lemma presence_full (aid caller : string) (tr : Trace) :
  confirm_asset_presence E aid caller tr =
    ([EvGetMediaById aid caller (get_media_by_id E tr aid caller)],
     match get_media_by_id E tr aid caller with
     | inl e => inl e
     | inr None => inl (HTTPException 404 "Specified asset resource is not available")
     | inr (Some d) =>
         if absent (Some d) then
           inl (HTTPException 404 "Specified asset resource is not available")
         else inr d
     end).
Proof.
  unfold confirm_asset_presence. unfold_m.
  destruct (get_media_by_id E tr aid caller) as [e|[d|]]; [reflexivity| |reflexivity].
  cbv beta iota. destruct (absent (Some d)); reflexivity.
Qed.

(** A record the strict guard lets through is the store's answer and is
    stored under the caller. *)
Lemma guard_sound (aid caller : string) (tr : Trace) evs d :
  retrieve_and_confirm_asset_ownership E aid caller tr = (evs, inr d) ->
  get_media_by_id E tr aid caller = inr (Some d)
  /\ d !! "userId" = Some (VStr caller).
Proof.
  rewrite guard_full.
  destruct (get_media_by_id E tr aid caller) as [e|[d'|]]; try discriminate.
  destruct (absent (Some d')); [discriminate|].
  destruct (d' !! "userId") as [o|] eqn:Ho; [|discriminate].
  destruct (ne_str o caller) eqn:Hne; [discriminate|].
  intros [= _ <-]. apply ne_str_false in Hne. subst o. auto.
Qed.

(** X4.  The pre-scoped fetch never looks at the owner: it returns any
    non-empty record the store hands it, whoever owns it, and when it
    fails it fails with 404 or with the store's own exception, never with
    a 403 of its own. *)
Theorem confirm_asset_presence_ignores_owner (aid caller : string) (tr : Trace) :
  (forall doc,
     get_media_by_id E tr aid caller = inr (Some doc) ->
     absent (Some doc) = false ->
     confirm_asset_presence E aid caller tr =
       ([EvGetMediaById aid caller (inr (Some doc))], inr doc))
  /\ (forall e,
        result (confirm_asset_presence E aid caller) tr = inl e ->
        e = HTTPException 404 "Specified asset resource is not available"
        \/ get_media_by_id E tr aid caller = inl e).
Proof.
  split.
  - intros doc Hget Hpresent. rewrite presence_full, Hget, Hpresent. reflexivity.
  - intros e. unfold result. rewrite presence_full. cbn [snd].
    destruct (get_media_by_id E tr aid caller) as [e'|[d|]].
    + intros [= <-]. auto.
    + destruct (absent (Some d)); [|discriminate]. intros [= <-]. auto.
    + intros [= <-]. auto.
Qed.

(** X5.  The strict guard is the pre-scoped fetch followed by the owner
    check: it returns a record exactly when the pre-scoped fetch returns
    that record and the record's [userId] is the caller's identifier; both
    ask the store once, with the same arguments. *)
Theorem strict_guard_is_presence_plus_owner_check
    (aid caller : string) (tr : Trace) (doc : Doc) :
  (result (retrieve_and_confirm_asset_ownership E aid caller) tr = inr doc <->
     result (confirm_asset_presence E aid caller) tr = inr doc
     /\ doc !! "userId" = Some (VStr caller))
  /\ emitted (retrieve_and_confirm_asset_ownership E aid caller) tr
     = emitted (confirm_asset_presence E aid caller) tr.
Proof.
  unfold result, emitted. rewrite guard_full, presence_full. cbn [fst snd].
  split; [|reflexivity].
  destruct (get_media_by_id E tr aid caller) as [e|[d|]];
    try (split; [discriminate | intros [H _]; discriminate]).
  destruct (absent (Some d));
    [split; [discriminate | intros [H _]; discriminate]|].
  split.
  - destruct (d !! "userId") as [o|] eqn:Ho; [|discriminate].
    destruct (ne_str o caller) eqn:Hne; [discriminate|].
    intros [= <-]. apply ne_str_false in Hne. subst o. auto.
  - intros [[= <-] Hown]. rewrite Hown. cbn. rewrite String.eqb_refl. reflexivity.
Qed.

(** X6.  An asset the store does not have (no record, or an empty one) is
    a 404 for the single read, the update and the delete; each of them
    stops after the lookup: nothing is updated, deleted or scheduled. *)
Theorem absent_asset_is_not_found
    (aid caller : string) (upd : MediaUpdate) (tr : Trace) (found : option Doc) :
  get_media_by_id E tr aid caller = inr found ->
  absent found = true ->
  let lookup := [EvGetMediaById aid caller (inr found)] in
  let not_found := HTTPException 404 "Asset resource could not be located" in
  retrieve_single_asset E aid caller tr = (lookup, inl not_found)
  /\ modify_asset_metadata E aid upd caller tr = (lookup, inl not_found)
  /\ remove_asset E aid caller tr = (lookup, inl not_found).
Proof.
  intros Hget Habsent lookup not_found.
  assert (Hg : retrieve_and_confirm_asset_ownership E aid caller tr =
               (lookup, inl not_found)).
  { rewrite guard_full, Hget. destruct found as [d|]; [|reflexivity].
    rewrite Habsent. reflexivity. }
  repeat split.
  - exec (retrieve_single_asset E aid caller tr).
  - exec (modify_asset_metadata E aid upd caller tr).
  - exec (remove_asset E aid caller tr).
Qed.

(** X7.  A stored record without a [userId] field is never served: the
    guard's [KeyError] reaches the route's last handler, the single read,
    the update and the delete answer 500 with their fixed detail, the
    failure is logged, and nothing is updated or deleted. *)
Theorem ownerless_record_is_a_server_error
    (aid caller : string) (upd : MediaUpdate) (tr : Trace) (doc : Doc) :
  get_media_by_id E tr aid caller = inr (Some doc) ->
  absent (Some doc) = false ->
  doc !! "userId" = None ->
  let lookup := EvGetMediaById aid caller (inr (Some doc)) in
  retrieve_single_asset E aid caller tr =
    ([EvLog ERROR "Single asset retrieval failed: 'userId'"; lookup],
     inl (HTTPException 500 "Failed to retrieve asset details"))
  /\ modify_asset_metadata E aid upd caller tr =
    ([EvLog ERROR "Asset modification failed: 'userId'"; lookup],
     inl (HTTPException 500 "Failed to update asset metadata"))
  /\ remove_asset E aid caller tr =
    ([EvLog ERROR "Asset deletion failed: 'userId'"; lookup],
     inl (HTTPException 500 "Failed to delete asset")).
Proof.
  intros Hget Hpresent Hno lookup.
  assert (Hg : retrieve_and_confirm_asset_ownership E aid caller tr =
               ([lookup], inl (KeyError "userId"))).
  { rewrite guard_full, Hget, Hpresent, Hno. reflexivity. }
  repeat split.
  - exec (retrieve_single_asset E aid caller tr).
  - exec (modify_asset_metadata E aid upd caller tr).
  - exec (remove_asset E aid caller tr).
Qed.

(** X8.  No asset-scoped route succeeds on somebody else's asset: when
    the single read, the update or the delete returns normally, the store
    has answered the lookup with a record whose [userId] is the caller's
    identifier. *)
Theorem asset_routes_succeed_only_for_the_owner
    (aid caller : string) (upd : MediaUpdate) (tr : Trace) :
  let owned :=
    exists doc, get_media_by_id E tr aid caller = inr (Some doc)
                /\ doc !! "userId" = Some (VStr caller) in
  (forall r, result (retrieve_single_asset E aid caller) tr = inr r -> owned)
  /\ (forall r, result (modify_asset_metadata E aid upd caller) tr = inr r -> owned)
  /\ (forall r, result (remove_asset E aid caller) tr = inr r -> owned).
Proof.
  cbv zeta.
  destruct (guard_outcome E aid caller tr) as ([e|d] & Hg).
  - repeat split; intros r.
    + by_http_kind e; exec (retrieve_single_asset E aid caller tr); discriminate.
    + by_http_kind e; [|by_value_kind e];
        exec (modify_asset_metadata E aid upd caller tr); discriminate.
    + by_http_kind e; exec (remove_asset E aid caller tr); discriminate.
  - destruct (guard_sound _ _ _ _ _ Hg) as [Hget Hown].
    repeat split; intros r _; eauto.
Qed.

End FetchModes.

(** [alice]'s asset fetched in the pre-scoped mode under [bob]'s
    identifier. *)
Lemma confirm_asset_presence_ignores_owner_witness :
  confirm_asset_presence Demo.library "m1" "bob" [] =
    ([EvGetMediaById "m1" "bob" (inr (Some Demo.cat))], inr Demo.cat)
  /\ retrieve_and_confirm_asset_ownership Demo.library "m1" "bob" [] =
    ([EvGetMediaById "m1" "bob" (inr (Some Demo.cat))], inl forbidden).
Proof.
  split; [|reflexivity].
  apply (confirm_asset_presence_ignores_owner Demo.library "m1" "bob" []);
    reflexivity.
Defined.

(** [alice] fetches her asset in both modes. *)
Lemma strict_guard_is_presence_plus_owner_check_witness :
  result (confirm_asset_presence Demo.library "m1" "alice") [] = inr Demo.cat
  /\ Demo.cat !! "userId" = Some (VStr "alice")
  /\ result (retrieve_and_confirm_asset_ownership Demo.library "m1" "alice") []
     = inr Demo.cat.
Proof.
  split; [reflexivity|]. split; [reflexivity|].
  apply (strict_guard_is_presence_plus_owner_check Demo.library "m1" "alice" []
           Demo.cat).
  split; reflexivity.
Defined.

(** [alice] asks for an asset the store does not have. *)
Lemma absent_asset_is_not_found_witness :
  retrieve_single_asset Demo.library "m9" "alice" [] =
    ([EvGetMediaById "m9" "alice" (inr None)],
     inl (HTTPException 404 "Asset resource could not be located"))
  /\ modify_asset_metadata Demo.library "m9" Demo.retitle "alice" [] =
    ([EvGetMediaById "m9" "alice" (inr None)],
     inl (HTTPException 404 "Asset resource could not be located"))
  /\ remove_asset Demo.library "m9" "alice" [] =
    ([EvGetMediaById "m9" "alice" (inr None)],
     inl (HTTPException 404 "Asset resource could not be located")).
Proof.
  apply (absent_asset_is_not_found Demo.library "m9" "alice" Demo.retitle []
           None); reflexivity.
Defined.

(** A store that holds the record of [Demo.cat] without its owner field. *)
Lemma ownerless_record_is_a_server_error_witness :
  remove_asset (Demo.world [delete "userId" Demo.cat] Demo.no_faults) "m1" "alice" [] =
    ([EvLog ERROR "Asset deletion failed: 'userId'";
      EvGetMediaById "m1" "alice" (inr (Some (delete "userId" Demo.cat)))],
     inl (HTTPException 500 "Failed to delete asset")).
Proof.
  apply (ownerless_record_is_a_server_error
           (Demo.world [delete "userId" Demo.cat] Demo.no_faults)
           "m1" "alice" Demo.retitle [] (delete "userId" Demo.cat));
    reflexivity.
Defined.

(** [alice] reads her asset: the lookup has returned a record of hers. *)
Lemma asset_routes_succeed_only_for_the_owner_witness :
  result (retrieve_single_asset Demo.library "m1" "alice") [] = inr Demo.cat
  /\ exists doc, get_media_by_id Demo.library [] "m1" "alice" = inr (Some doc)
                 /\ doc !! "userId" = Some (VStr "alice").
Proof.
  split; [reflexivity|].
  pose proof (asset_routes_succeed_only_for_the_owner Demo.library "m1" "alice"
                Demo.retitle []) as (Hread & _ & _).
  apply (Hread Demo.cat). reflexivity.
Defined.

(** ** routes_media.py: list and search *)

Section Pages.
Context {A B : Type}.

(** [lift_all] succeeds exactly when every element does, in order. *)
Lemma lift_all_inr (f : A -> Exn + B) (l : list A) (ys : list B) :
  lift_all f l = inr ys <-> Forall2 (fun x y => f x = inr y) l ys.
Proof.
  revert ys. induction l as [|x l IH]; intros ys; cbn [lift_all].
  - split; [intros [= <-]; constructor | intros H; inversion H; reflexivity].
  - destruct (f x) as [e|y] eqn:Hx.
    + split; [discriminate|]. intros H. inversion H; subst. congruence.
    + destruct (lift_all f l) as [e|ys'] eqn:Hl.
      * split; [discriminate|]. intros H. inversion H as [|? y' ? ys'' ? Hrest]; subst.
        apply IH in Hrest. discriminate.
      * split.
        -- intros [= <-]. constructor; [exact Hx | apply IH; reflexivity].
        -- intros H. inversion H as [|? y' ? ys'' Hy Hrest]; subst.
           apply IH in Hrest. congruence.
Qed.

End Pages.

Section Listing.
Variable E : Env.

(** X9.  A search or a listing returns normally exactly when the store
    returns a page and the response model accepts every record of it; the
    response then holds the accepted records in the store's order, the
    store's total, and the page number and page size of the request.  The
    store is asked for the caller's records only. *)
Theorem listing_returns_the_store_page
    (query : string) (pg sz : Z) (kind : option string) (acct : string)
    (tr : Trace) (resp : MediaListResponse) :
  (result (find_assets E query pg sz acct) tr = inr resp <->
     exists found,
       search_media E tr acct query pg sz = inr (found, total resp)
       /\ Forall2 (fun d r => MediaResponse E d = inr r) found (items resp)
       /\ page resp = pg /\ pageSize resp = sz)
  /\ (result (retrieve_asset_collection E pg sz kind acct) tr = inr resp <->
        exists found,
          get_user_media E tr acct pg sz kind = inr (found, total resp)
          /\ Forall2 (fun d r => MediaResponse E d = inr r) found (items resp)
          /\ page resp = pg /\ pageSize resp = sz).
Proof.
  split.
  - destruct (search_media E tr acct query pg sz) as [e|[found n]] eqn:Hs.
    + exec (find_assets E query pg sz acct tr).
      split; [discriminate | intros (fd & Hbad & _); discriminate].
    + destruct (lift_all (MediaResponse E) found) as [e|l] eqn:Hl.
      * exec (find_assets E query pg sz acct tr).
        split; [discriminate|].
        intros (fd & [= <- _] & Hall & _). apply lift_all_inr in Hall. congruence.
      * exec (find_assets E query pg sz acct tr). split.
        -- intros [= <-]. exists found. cbn.
           split; [reflexivity|]. split; [apply lift_all_inr, Hl | auto].
        -- intros (fd & [= <- Hn] & Hall & Hp & Hz).
           apply lift_all_inr in Hall. rewrite Hl in Hall. injection Hall as Hi.
           destruct resp; cbn in *; subst; reflexivity.
  - destruct (get_user_media E tr acct pg sz kind) as [e|[found n]] eqn:Hs.
    + exec (retrieve_asset_collection E pg sz kind acct tr).
      split; [discriminate | intros (fd & Hbad & _); discriminate].
    + destruct (lift_all (MediaResponse E) found) as [e|l] eqn:Hl.
      * exec (retrieve_asset_collection E pg sz kind acct tr).
        split; [discriminate|].
        intros (fd & [= <- _] & Hall & _). apply lift_all_inr in Hall. congruence.
      * exec (retrieve_asset_collection E pg sz kind acct tr). split.
        -- intros [= <-]. exists found. cbn.
           split; [reflexivity|]. split; [apply lift_all_inr, Hl | auto].
        -- intros (fd & [= <- Hn] & Hall & Hp & Hz).
           apply lift_all_inr in Hall. rewrite Hl in Hall. injection Hall as Hi.
           destruct resp; cbn in *; subst; reflexivity.
Qed.

(** X10.  A search or a listing that fails always fails with 500 and its
    own fixed detail, whatever was raised and wherever (an [HTTPException]
    of the store included); the failure is logged and no notification is
    scheduled. *)
Theorem listing_masks_every_failure
    (query : string) (pg sz : Z) (kind : option string) (acct : string)
    (tr : Trace) (e : Exn) :
  (result (find_assets E query pg sz acct) tr = inl e ->
     e = HTTPException 500 "Search operation failed"
     /\ none_of is_create_task (emitted (find_assets E query pg sz acct) tr) = true
     /\ exists msg rest,
          emitted (find_assets E query pg sz acct) tr = EvLog ERROR msg :: rest)
  /\ (result (retrieve_asset_collection E pg sz kind acct) tr = inl e ->
        e = HTTPException 500 "Failed to retrieve asset collection"
        /\ none_of is_create_task
             (emitted (retrieve_asset_collection E pg sz kind acct) tr) = true
        /\ exists msg rest,
             emitted (retrieve_asset_collection E pg sz kind acct) tr
             = EvLog ERROR msg :: rest).
Proof.
  split.
  - destruct (search_media E tr acct query pg sz) as [e'|[found n]] eqn:Hs.
    + exec (find_assets E query pg sz acct tr).
      intros [= <-]. repeat split; eauto.
    + destruct (lift_all (MediaResponse E) found) as [e'|l] eqn:Hl.
      * exec (find_assets E query pg sz acct tr).
        intros [= <-]. repeat split; eauto.
      * exec (find_assets E query pg sz acct tr). discriminate.
  - destruct (get_user_media E tr acct pg sz kind) as [e'|[found n]] eqn:Hs.
    + exec (retrieve_asset_collection E pg sz kind acct tr).
      intros [= <-]. repeat split; eauto.
    + destruct (lift_all (MediaResponse E) found) as [e'|l] eqn:Hl.
      * exec (retrieve_asset_collection E pg sz kind acct tr).
        intros [= <-]. repeat split; eauto.
      * exec (retrieve_asset_collection E pg sz kind acct tr). discriminate.
Qed.

(** X11.  The asset-scoped routes pass an [HTTPException] of the store
    through as it is, without a log entry, where a search turns the same
    exception into its 500. *)
Theorem store_http_exception_passes_asset_routes
    (aid caller : string) (upd : MediaUpdate) (query : string) (pg sz : Z)
    (tr : Trace) (status : Z) (detail : string) :
  let raised := HTTPException status detail in
  (get_media_by_id E tr aid caller = inl raised ->
     retrieve_single_asset E aid caller tr =
       ([EvGetMediaById aid caller (inl raised)], inl raised)
     /\ modify_asset_metadata E aid upd caller tr =
       ([EvGetMediaById aid caller (inl raised)], inl raised)
     /\ remove_asset E aid caller tr =
       ([EvGetMediaById aid caller (inl raised)], inl raised))
  /\ (search_media E tr caller query pg sz = inl raised ->
        result (find_assets E query pg sz caller) tr
        = inl (HTTPException 500 "Search operation failed")).
Proof.
  intros raised. split.
  - intros Hget.
    assert (Hg : retrieve_and_confirm_asset_ownership E aid caller tr =
                 ([EvGetMediaById aid caller (inl raised)], inl raised)).
    { unfold retrieve_and_confirm_asset_ownership. unfold_m. rewrite Hget.
      reflexivity. }
    repeat split.
    + exec (retrieve_single_asset E aid caller tr).
    + exec (modify_asset_metadata E aid upd caller tr).
    + exec (remove_asset E aid caller tr).
  - intros Hs. exec (find_assets E query pg sz caller tr).
Qed.

End Listing.

(** ** routes_media.py: failures of an update *)

Section UpdateFailures.
Variable E : Env.

(** X12.  An update of an owned asset that fails at the store or at the
    response model ends as the route's [except] clauses say: an
    [HTTPException] passes unchanged, a [ValueError] (a [JSONDecodeError]
    included) becomes a 404 that carries its message, anything else
    becomes the fixed 500 and is logged.  A failure of the store's update
    schedules no notification; a failure of the response model comes after
    the store has applied the update and after the notification was
    scheduled. *)
Theorem update_failures_follow_the_except_clauses
    (aid caller : string) (doc : Doc) (upd : MediaUpdate) (tr : Trace) :
  get_media_by_id E tr aid caller = inr (Some doc) ->
  owned_by doc caller ->
  let lookup := EvGetMediaById aid caller (inr (Some doc)) in
  let now := utcnow_isoformat E (lookup :: tr) in
  let updates := field_updates now upd in
  let answer := update_media E (EvUtcNow now :: lookup :: tr) aid caller updates in
  (forall e, answer = inl e ->
     modify_asset_metadata E aid upd caller tr =
       ((update_failure_log e
         ++ [EvUpdateMedia aid caller updates (inl e); EvUtcNow now; lookup])%list,
        inl (update_failure e)))
  /\ (forall d e, answer = inr d -> MediaResponse E d = inl e ->
        modify_asset_metadata E aid upd caller tr =
          ((update_failure_log e
            ++ [EvCreateTask; EvUpdateMedia aid caller updates (inr d);
                EvUtcNow now; lookup])%list,
           inl (update_failure e)))
  /\ (forall msg, update_failure (ValueError msg) = HTTPException 404 msg
                  /\ update_failure_log (ValueError msg) = []).
Proof.
  intros Hget Hown lookup now updates answer.
  pose proof (guard_own E _ _ _ _ Hget Hown) as Hg.
  split; [|split].
  - intros e Hans. subst answer. unfold update_failure_log, update_failure.
    by_http_kind e; [|by_value_kind e];
      exec (modify_asset_metadata E aid upd caller tr);
      rewrite ?Hhttp, ?Hvalue; reflexivity.
  - intros d e Hans Hresp. subst answer. unfold update_failure_log, update_failure.
    by_http_kind e; [|by_value_kind e];
      exec (modify_asset_metadata E aid upd caller tr);
      rewrite ?Hhttp, ?Hvalue; reflexivity.
  - intros msg. split; reflexivity.
Qed.

End UpdateFailures.

(** A store that holds two records of [alice]. *)
Lemma listing_returns_the_store_page_witness :
  result (find_assets (Demo.world [Demo.cat; Demo.renamed_cat] Demo.no_faults)
            "cat" 1 20 "alice") []
  = inr {| items := [Demo.cat; Demo.renamed_cat]; total := 2;
           page := 1; pageSize := 20 |}.
Proof.
  apply (listing_returns_the_store_page
           (Demo.world [Demo.cat; Demo.renamed_cat] Demo.no_faults)
           "cat" 1 20 None "alice" []
           {| items := [Demo.cat; Demo.renamed_cat]; total := 2;
              page := 1; pageSize := 20 |}).
  exists [Demo.cat; Demo.renamed_cat].
  split; [reflexivity|]. split; [|split; reflexivity].
  repeat constructor.
Defined.

(** A store whose search raises a 404 of its own. *)
Lemma listing_masks_every_failure_witness :
  result (find_assets Cases.search_gone "cat" 1 20 "alice") []
  = inl (HTTPException 500 "Search operation failed")
  /\ none_of is_create_task
       (emitted (find_assets Cases.search_gone "cat" 1 20 "alice") []) = true.
Proof.
  split; [reflexivity|].
  pose proof (listing_masks_every_failure Cases.search_gone "cat" 1 20 None
                "alice" [] (HTTPException 500 "Search operation failed"))
    as (Hsearch & _).
  apply Hsearch. reflexivity.
Defined.

(** A store whose lookup raises a 503 of its own. *)
Lemma store_http_exception_passes_asset_routes_witness :
  retrieve_single_asset Cases.lookup_unavailable "m1" "alice" [] =
    ([EvGetMediaById "m1" "alice" (inl (HTTPException 503 "store unavailable"))],
     inl (HTTPException 503 "store unavailable"))
  /\ result (find_assets Cases.search_gone "cat" 1 20 "alice") []
     = inl (HTTPException 500 "Search operation failed").
Proof.
  split.
  - pose proof (store_http_exception_passes_asset_routes Cases.lookup_unavailable
                  "m1" "alice" Demo.retitle "cat" 1 20 [] 503 "store unavailable")
      as (Hpass & _).
    apply Hpass. reflexivity.
  - pose proof (store_http_exception_passes_asset_routes Cases.search_gone
                  "m1" "alice" Demo.retitle "cat" 1 20 [] 404 "index gone")
      as (_ & Hmask).
    apply Hmask. reflexivity.
Defined.

(** The record disappears between the lookup and the update. *)
Lemma update_failures_follow_the_except_clauses_witness :
  modify_asset_metadata Cases.record_vanished "m1" Demo.retitle "alice" [] =
    ([EvUpdateMedia "m1" "alice" (field_updates "T+1" Demo.retitle)
        (inl (ValueError "Media not found"));
      EvUtcNow "T+1";
      EvGetMediaById "m1" "alice" (inr (Some Demo.cat))],
     inl (HTTPException 404 "Media not found")).
Proof.
  pose proof (update_failures_follow_the_except_clauses Cases.record_vanished
                "m1" "alice" Demo.cat Demo.retitle [] eq_refl eq_refl)
    as (Hstore & _).
  apply (Hstore (ValueError "Media not found")). reflexivity.
Defined.

(** ** routes_media.py: the steps of a delete *)

Section DeleteSteps.
Variable E : Env.

(** The preview step of a delete, run: its events are
    [preview_delete_events] and it returns. *)
Lemma preview_delete_step (o : option string) (tr : Trace) :
  (if truthy_str o then
     try_except
       (call (EvDeleteFile (of_opt o)) (fun t => delete_file E t (of_opt o)))
       (fun err => log WARNING ("Preview deletion failed: " +:+ str_exn err))
   else ret tt) tr
  = (preview_delete_events o (delete_file E tr (of_opt o)), inr tt).
Proof.
  unfold preview_delete_events. destruct (truthy_str o); [|reflexivity].
  unfold_m. destruct (delete_file E tr (of_opt o)) as [e|[]]; reflexivity.
Qed.

(** The run of a delete of an owned record whose primary blob the blob
    store has deleted. *)
Lemma remove_asset_after_primary
    (aid caller : string) (doc : Doc) (key : Val) (warned : list Event)
    (o : option string) (tr : Trace) :
  get_media_by_id E tr aid caller = inr (Some doc) ->
  owned_by doc caller ->
  doc !! "fileName" = Some key ->
  let lookup := EvGetMediaById aid caller (inr (Some doc)) in
  delete_file E (lookup :: tr) key = inr tt ->
  let primary := EvDeleteFile key (inr tt) in
  parse_preview_storage_identifier doc (primary :: lookup :: tr) = (warned, inr o) ->
  let preview :=
    preview_delete_events o
      (delete_file E (warned ++ primary :: lookup :: tr)%list (of_opt o)) in
  let before := (preview ++ warned ++ [primary; lookup])%list in
  let removal := delete_media E (before ++ tr)%list aid caller in
  remove_asset E aid caller tr =
    match removal with
    | inl e =>
        ((delete_failure_log e ++ EvDeleteMedia aid caller removal :: before)%list,
         inl (delete_failure e))
    | inr _ => (EvCreateTask :: EvDeleteMedia aid caller removal :: before, inr tt)
    end.
Proof.
  intros Hget Hown Hkey lookup Hprimary primary Hparse preview before removal.
  pose proof (guard_own E _ _ _ _ Hget Hown) as Hg.
  pose proof (preview_delete_step o (warned ++ primary :: lookup :: tr)%list) as Hstep.
  fold preview in Hstep.
  subst lookup primary.
  destruct removal as [e|[]] eqn:Hrem; subst removal before;
    rewrite <- ?app_assoc in Hrem; cbn [app] in Hrem.
  - unfold delete_failure_log, delete_failure.
    by_http_kind e; exec (remove_asset E aid caller tr);
      rewrite ?Hhttp; reflexivity.
  - exec (remove_asset E aid caller tr).
Qed.

(** X13.  A delete is not undone when the metadata store fails last: for
    an owned record whose primary blob was deleted, a failure of the
    store's delete ends the route with the store's own [HTTPException] or
    with the fixed 500, after the primary blob (and the preview blob, where
    one was derived) has been deleted, and no notification is scheduled;
    when the store succeeds the route returns after exactly these steps
    with the notification scheduled last. *)
Theorem remove_asset_store_failure_comes_after_the_blobs
    (aid caller : string) (doc : Doc) (key : Val) (warned : list Event)
    (o : option string) (tr : Trace) :
  get_media_by_id E tr aid caller = inr (Some doc) ->
  owned_by doc caller ->
  doc !! "fileName" = Some key ->
  let lookup := EvGetMediaById aid caller (inr (Some doc)) in
  delete_file E (lookup :: tr) key = inr tt ->
  let primary := EvDeleteFile key (inr tt) in
  parse_preview_storage_identifier doc (primary :: lookup :: tr) = (warned, inr o) ->
  let preview :=
    preview_delete_events o
      (delete_file E (warned ++ primary :: lookup :: tr)%list (of_opt o)) in
  let before := (preview ++ warned ++ [primary; lookup])%list in
  let removal := delete_media E (before ++ tr)%list aid caller in
  (forall e, removal = inl e ->
     remove_asset E aid caller tr =
       ((delete_failure_log e ++ EvDeleteMedia aid caller (inl e) :: before)%list,
        inl (delete_failure e))
     /\ none_of is_create_task (emitted (remove_asset E aid caller) tr) = true
     /\ (is_HTTPException e = false ->
           delete_failure e = HTTPException 500 "Failed to delete asset"))
  /\ (removal = inr tt ->
        remove_asset E aid caller tr =
          (EvCreateTask :: EvDeleteMedia aid caller (inr tt) :: before, inr tt)).
Proof.
  intros Hget Hown Hkey lookup Hprimary primary Hparse preview before removal.
  pose proof (remove_asset_after_primary aid caller doc key warned o tr
                Hget Hown Hkey Hprimary Hparse) as Hrun.
  cbv zeta in Hrun. fold lookup primary preview before removal in Hrun.
  split.
  - intros e He. rewrite He in Hrun. split; [exact Hrun|]. split.
    + unfold emitted. rewrite Hrun. cbn [fst].
      unfold none_of. rewrite forallb_app. apply andb_true_iff. split.
      * unfold delete_failure_log. destruct (is_HTTPException e); reflexivity.
      * cbn [forallb is_create_task negb andb]. subst before.
        rewrite !forallb_app. cbn. rewrite !andb_true_r.
        apply andb_true_iff. split.
        -- subst preview. unfold preview_delete_events.
           destruct (truthy_str o); [|reflexivity].
           destruct (delete_file E _ (of_opt o)) as [?|[]]; reflexivity.
        -- destruct (parse_preview_run doc (primary :: lookup :: tr))
             as (evs & o' & Hp & Hw).
           rewrite Hparse in Hp. injection Hp as <- _.
           apply forallb_forall. intros ev Hin.
           rewrite Forall_forall in Hw. apply list_elem_of_In in Hin.
           specialize (Hw ev Hin). destruct ev; try discriminate. reflexivity.
    + intros Hkind. unfold delete_failure. rewrite Hkind. reflexivity.
  - intros Hok. rewrite Hok in Hrun. exact Hrun.
Qed.

(** X14.  A record without a storage key cannot be deleted: for an owned
    record that has no [fileName] the route fails with the fixed 500
    before anything is deleted, neither a blob nor the record. *)
Theorem remove_asset_needs_a_storage_key
    (aid caller : string) (doc : Doc) (tr : Trace) :
  get_media_by_id E tr aid caller = inr (Some doc) ->
  owned_by doc caller ->
  doc !! "fileName" = None ->
  exists msg,
    remove_asset E aid caller tr =
      ([EvLog ERROR msg; EvGetMediaById aid caller (inr (Some doc))],
       inl (HTTPException 500 "Failed to delete asset")).
Proof.
  intros Hget Hown Hkey.
  pose proof (guard_own E _ _ _ _ Hget Hown) as Hg.
  eexists. exec (remove_asset E aid caller tr).
Qed.

(** X15.  A record without a stored preview URL (missing, null or empty)
    costs one blob deletion: the route deletes the primary blob, asks the
    store to delete the record and schedules the notification, and nothing
    else. *)
Theorem remove_asset_without_preview_url
    (aid caller : string) (doc : Doc) (key : Val) (tr : Trace) :
  get_media_by_id E tr aid caller = inr (Some doc) ->
  owned_by doc caller ->
  doc !! "fileName" = Some key ->
  truthy (dict_get doc "thumbnailUrl") = false ->
  let lookup := EvGetMediaById aid caller (inr (Some doc)) in
  delete_file E (lookup :: tr) key = inr tt ->
  delete_media E (EvDeleteFile key (inr tt) :: lookup :: tr) aid caller = inr tt ->
  remove_asset E aid caller tr =
    ([EvCreateTask; EvDeleteMedia aid caller (inr tt);
      EvDeleteFile key (inr tt); lookup], inr tt).
Proof.
  intros Hget Hown Hkey Hth lookup Hprimary Hrem.
  assert (Hparse : parse_preview_storage_identifier doc
                     (EvDeleteFile key (inr tt) :: lookup :: tr) = ([], inr None)).
  { unfold parse_preview_storage_identifier. rewrite Hth. reflexivity. }
  pose proof (remove_asset_after_primary aid caller doc key [] None tr
                Hget Hown Hkey Hprimary Hparse) as Hrun.
  cbv zeta in Hrun. cbn [preview_delete_events truthy_str app] in Hrun.
  fold lookup in Hrun. rewrite Hrem in Hrun. exact Hrun.
Qed.

(** X16.  When the last segment of the original file name does not occur
    in the primary storage key, the preview step of a delete asks the blob
    store to delete the primary key a second time: both blob deletions of
    the route carry the same key, and a failure of the second one is
    swallowed as a preview failure. *)
Theorem remove_asset_unmatched_name_deletes_primary_key_twice
    (aid caller name key : string) (doc : Doc) (tr : Trace) :
  get_media_by_id E tr aid caller = inr (Some doc) ->
  owned_by doc caller ->
  truthy (dict_get doc "thumbnailUrl") = true ->
  doc !! "originalFileName" = Some (VStr name) ->
  doc !! "fileName" = Some (VStr key) ->
  key <> "" ->
  occurs (last_segment name) key = false ->
  let lookup := EvGetMediaById aid caller (inr (Some doc)) in
  delete_file E (lookup :: tr) (VStr key) = inr tt ->
  let primary := EvDeleteFile (VStr key) (inr tt) in
  let again := delete_file E (primary :: lookup :: tr) (VStr key) in
  exists later,
    emitted (remove_asset E aid caller) tr =
      (later ++ preview_delete_events (Some key) again ++ [primary; lookup])%list
    /\ (forall e, again = inl e ->
          preview_delete_events (Some key) again =
            [EvLog WARNING ("Preview deletion failed: " +:+ str_exn e);
             EvDeleteFile (VStr key) (inl e)])
    /\ (again = inr tt ->
          preview_delete_events (Some key) again = [EvDeleteFile (VStr key) (inr tt)]).
Proof.
  intros Hget Hown Hth Hname Hkey Hne Hocc lookup Hprimary primary again.
  assert (Hparse : parse_preview_storage_identifier doc (primary :: lookup :: tr)
                   = ([], inr (Some key))).
  { unfold parse_preview_storage_identifier. rewrite Hth. unfold_m.
    unfold getitem. rewrite Hname, Hkey. cbn.
    rewrite (replace_absent _ _ _ Hocc). reflexivity. }
  pose proof (remove_asset_after_primary aid caller doc (VStr key) [] (Some key) tr
                Hget Hown Hkey Hprimary Hparse) as Hrun.
  cbv zeta in Hrun. cbn [app of_opt] in Hrun.
  fold lookup primary again in Hrun.
  assert (Htruthy : truthy_str (Some key) = true).
  { cbn. destruct (String.eqb_spec key ""); [contradiction | reflexivity]. }
  assert (Hevents : (forall e, again = inl e ->
                       preview_delete_events (Some key) again =
                         [EvLog WARNING ("Preview deletion failed: " +:+ str_exn e);
                          EvDeleteFile (VStr key) (inl e)])
                    /\ (again = inr tt ->
                        preview_delete_events (Some key) again =
                          [EvDeleteFile (VStr key) (inr tt)])).
  { unfold preview_delete_events. rewrite Htruthy.
    split; [intros e He | intros He]; rewrite He; reflexivity. }
  unfold emitted. rewrite Hrun.
  destruct (delete_media E _ aid caller) as [e|[]]; cbn [fst].
  - exists (delete_failure_log e ++ [EvDeleteMedia aid caller (inl e)])%list.
    rewrite <- app_assoc. split; [reflexivity | exact Hevents].
  - exists [EvCreateTask; EvDeleteMedia aid caller (inr tt)].
    split; [reflexivity | exact Hevents].
Qed.

End DeleteSteps.

(** The store refuses to delete the record of [cat] after both of its
    blobs are gone. *)
Lemma remove_asset_store_failure_comes_after_the_blobs_witness :
  remove_asset Cases.delete_refused "m1" "alice" [] =
    ([EvLog ERROR "Asset deletion failed: store unavailable";
      EvDeleteMedia "m1" "alice" (inl (OtherException "store unavailable"));
      EvDeleteFile (VStr "alice/thumb_cat.png") (inr tt);
      EvDeleteFile (VStr "alice/cat.png") (inr tt);
      EvGetMediaById "m1" "alice" (inr (Some Demo.cat))],
     inl (HTTPException 500 "Failed to delete asset")).
Proof.
  pose proof (remove_asset_store_failure_comes_after_the_blobs Cases.delete_refused
                "m1" "alice" Demo.cat (VStr "alice/cat.png") []
                (Some "alice/thumb_cat.png") []
                eq_refl eq_refl eq_refl eq_refl eq_refl) as (Hfail & _).
  apply (Hfail (OtherException "store unavailable")). reflexivity.
Defined.

(** A record of [alice] that has lost its storage key. *)
Lemma remove_asset_needs_a_storage_key_witness :
  exists msg,
    remove_asset (Demo.world [Cases.keyless_cat] Demo.no_faults) "m1" "alice" [] =
      ([EvLog ERROR msg;
        EvGetMediaById "m1" "alice" (inr (Some Cases.keyless_cat))],
       inl (HTTPException 500 "Failed to delete asset")).
Proof.
  apply (remove_asset_needs_a_storage_key
           (Demo.world [Cases.keyless_cat] Demo.no_faults) "m1" "alice"
           Cases.keyless_cat []); reflexivity.
Defined.

(** A record of [alice] stored without a preview. *)
Lemma remove_asset_without_preview_url_witness :
  remove_asset (Demo.world [Cases.plain_cat] Demo.no_faults) "m1" "alice" [] =
    ([EvCreateTask; EvDeleteMedia "m1" "alice" (inr tt);
      EvDeleteFile (VStr "alice/cat.png") (inr tt);
      EvGetMediaById "m1" "alice" (inr (Some Cases.plain_cat))], inr tt).
Proof.
  apply (remove_asset_without_preview_url
           (Demo.world [Cases.plain_cat] Demo.no_faults) "m1" "alice"
           Cases.plain_cat (VStr "alice/cat.png") []); reflexivity.
Defined.

(** The record of [cat] under the key [alice/0042.bin]: the blob store is
    asked for that key twice. *)
Lemma remove_asset_unmatched_name_deletes_primary_key_twice_witness :
  exists later,
    emitted (remove_asset (Demo.world [Demo.renamed_cat] Demo.no_faults) "m1" "alice") [] =
      (later ++ [EvDeleteFile (VStr "alice/0042.bin") (inr tt);
                 EvDeleteFile (VStr "alice/0042.bin") (inr tt);
                 EvGetMediaById "m1" "alice" (inr (Some Demo.renamed_cat))])%list.
Proof.
  destruct (remove_asset_unmatched_name_deletes_primary_key_twice
              (Demo.world [Demo.renamed_cat] Demo.no_faults)
              "m1" "alice" "cat.png" "alice/0042.bin" Demo.renamed_cat [])
    as (later & Hrun & _ & Hok); try reflexivity; [discriminate|].
  exists later. rewrite Hrun. rewrite Hok; reflexivity.
Defined.

(** ** routes_media.py: the record and the failures of a create *)

Lemma none_of_app (p : Event -> bool) (l1 l2 : list Event) :
  none_of p (l1 ++ l2)%list = none_of p l1 && none_of p l2.
Proof. apply forallb_app. Qed.

Lemma none_of_cons (p : Event -> bool) (e : Event) (l : list Event) :
  none_of p (e :: l) = negb (p e) && none_of p l.
Proof. reflexivity. Qed.

Section CreateSteps.
Variable E : Env.

(** The label block gives null or an array, and null for absent or empty
    label data. *)
Lemma process_label_data_value (label_data : option string) (tr : Trace) (v : Val) :
  result (process_label_data E label_data) tr = inr v ->
  (v = VNone \/ is_list v = true)
  /\ (label_data = None \/ label_data = Some "" -> v = VNone)
  /\ (forall text, label_data = Some text -> text <> "" -> json_loads E text = inr v).
Proof.
  unfold result, process_label_data.
  destruct label_data as [text|].
  - destruct (String.eqb_spec text "") as [->|Hne].
    + intros [= <-]. split; [auto|]. split; [auto|]. intros t [= <-] Ht. contradiction.
    + unfold_m. destruct (json_loads E text) as [e|w] eqn:Hj; cbn.
      * destruct (is_JSONDecodeError e); discriminate.
      * destruct (is_list w) eqn:Hl; cbn; [|discriminate].
        intros [= <-]. split; [auto|]. split.
        -- intros [Hbad|[= Hbad]]; [discriminate | contradiction].
        -- intros t [= <-] _. exact Hj.
  - intros [= <-]. split; [auto|]. split; [auto|]. intros t Hbad. discriminate.
Qed.

(** The events of the preview block: at most one blob write, otherwise
    log entries; none at all for a category other than [image]. *)
Lemma create_preview_for_events (f : UploadFile) (acct ty : string)
    (content : bytes) (tr : Trace) :
  let evs := emitted (create_preview_for E f acct ty content) tr in
  (uploads evs <= 1)%nat
  /\ Forall (fun e => is_upload e = true \/ is_warning e = true
                      \/ is_error_log e = true) evs
  /\ (ty <> "image" -> evs = []).
Proof.
  cbv zeta. unfold emitted, create_preview_for, uploads.
  destruct (String.eqb_spec ty "image") as [->|Hty];
    [|repeat split; [cbn; lia | constructor]].
  split; [|split; [|intros Hbad; contradiction]].
  - unfold generate_thumbnail.
    destruct (create_preview_image_run E content (300, 300) tr)
      as [(msg & Hrun) | (src & im & buf & _ & _ & Hrun)].
    + unfold bind. rewrite Hrun. cbn. lia.
    + unfold bind. rewrite Hrun. destruct buf as [|b bs]; [cbn; lia|].
      unfold_m. cbn [app].
      destruct (upload_file E tr _ acct _ _) as [e|[k u]]; cbn; lia.
  - unfold generate_thumbnail.
    destruct (create_preview_image_run E content (300, 300) tr)
      as [(msg & Hrun) | (src & im & buf & _ & _ & Hrun)].
    + unfold bind. rewrite Hrun. cbn. constructor; [auto | constructor].
    + unfold bind. rewrite Hrun. destruct buf as [|b bs]; [cbn; constructor|].
      unfold_m. cbn [app].
      destruct (upload_file E tr _ acct _ _) as [e|[k u]]; cbn;
        repeat (constructor; [cbn; auto|]); constructor.
Qed.

(** The run of a create past a successful primary write. *)
Lemma upload_new_asset_after_primary
    (f : UploadFile) (desc tags : option string) (acct : string) (tr : Trace)
    (ty : string) (labels : Val) (key url : string) (pev : list Event) (pv : Val) :
  determine_file_category E f = inr ty ->
  (stream_length f <= max_file_size_bytes (settings E))%Z ->
  result (process_label_data E tags) tr = inr labels ->
  upload_file E tr (primary_stream f) acct (filename f) (content_type f)
  = inr (key, url) ->
  let primary :=
    EvUploadFile (primary_stream f) acct (filename f) (content_type f)
      (inr (key, url)) in
  create_preview_for E (rewound f) acct ty (data (file f)) (primary :: tr)
  = (pev, inr pv) ->
  let t2 := (pev ++ primary :: tr)%list in
  let id := uuid4 E t2 in
  let now := utcnow_isoformat E (EvUuid4 id :: t2) in
  let rec := construct_asset_record id acct key (rewound f) ty (stream_length f)
               url pv desc labels now in
  let stored := create_media E (EvUtcNow now :: EvUuid4 id :: t2) rec in
  let before :=
    (EvCreateMedia rec stored :: EvUtcNow now :: EvUuid4 id :: pev ++ [primary])%list in
  upload_new_asset E f desc tags acct tr =
    match stored with
    | inl err => ((upload_failure_log err ++ before)%list, inl (upload_failure err))
    | inr p =>
        match MediaResponse E p with
        | inl err =>
            ((upload_failure_log err ++ EvCreateTask :: before)%list,
             inl (upload_failure err))
        | inr resp => (EvCreateTask :: before, inr resp)
        end
    end.
Proof.
  intros Hty Hle Hlr Hup primary Hpv t2 id now rec stored before.
  pose proof (verify_file_constraints_fits E f Hle) as Hsz.
  change (validate_file_type E f = inr ty) in Hty.
  change (validate_file_size E f None = inr (stream_length f, rewound f)) in Hsz.
  pose proof (process_label_data_silent E tags tr) as Hlab.
  rewrite Hlr in Hlab.
  subst before. destruct stored as [err|p] eqn:Hst; subst stored.
  - pose proof (upload_handler_run err
                  (EvCreateMedia rec (inl err) :: EvUtcNow now :: EvUuid4 id :: t2))
      as Hh.
    subst rec now id t2 primary. unfold upload_new_asset. run_to.
  - destruct (MediaResponse E p) as [err|resp] eqn:Hresp.
    + pose proof (upload_handler_run err
                    (EvCreateTask :: EvCreateMedia rec (inr p) :: EvUtcNow now
                     :: EvUuid4 id :: t2)) as Hh.
      subst rec now id t2 primary. unfold upload_new_asset. run_to.
    + subst rec now id t2 primary. unfold upload_new_asset. run_to.
Qed.

(** X17.  A create is not undone when it fails late.  Past a successful
    primary write, a failure of the metadata store ends the create with
    the route's error after the blobs were written, and no notification is
    scheduled; a failure of the response model ends it the same way after
    the record was stored as well and the notification was scheduled.  In
    neither case is a written blob deleted again. *)
Theorem create_late_failure_leaves_what_was_written
    (f : UploadFile) (desc tags : option string) (acct : string) (tr : Trace)
    (ty : string) (labels : Val) (key url : string) (pev : list Event) (pv : Val) :
  determine_file_category E f = inr ty ->
  (stream_length f <= max_file_size_bytes (settings E))%Z ->
  result (process_label_data E tags) tr = inr labels ->
  upload_file E tr (primary_stream f) acct (filename f) (content_type f)
  = inr (key, url) ->
  let primary :=
    EvUploadFile (primary_stream f) acct (filename f) (content_type f)
      (inr (key, url)) in
  create_preview_for E (rewound f) acct ty (data (file f)) (primary :: tr)
  = (pev, inr pv) ->
  let t2 := (pev ++ primary :: tr)%list in
  let id := uuid4 E t2 in
  let now := utcnow_isoformat E (EvUuid4 id :: t2) in
  let rec := construct_asset_record id acct key (rewound f) ty (stream_length f)
               url pv desc labels now in
  let stored := create_media E (EvUtcNow now :: EvUuid4 id :: t2) rec in
  let written := (EvUtcNow now :: EvUuid4 id :: pev ++ [primary])%list in
  (forall err, stored = inl err ->
     upload_new_asset E f desc tags acct tr =
       ((upload_failure_log err ++ EvCreateMedia rec (inl err) :: written)%list,
        inl (upload_failure err)))
  /\ (forall p err, stored = inr p -> MediaResponse E p = inl err ->
        upload_new_asset E f desc tags acct tr =
          ((upload_failure_log err
            ++ EvCreateTask :: EvCreateMedia rec (inr p) :: written)%list,
           inl (upload_failure err)))
  /\ none_of is_delete_file (emitted (upload_new_asset E f desc tags acct) tr) = true.
Proof.
  intros Hty Hle Hlr Hup primary Hpv t2 id now rec stored written.
  pose proof (upload_new_asset_after_primary f desc tags acct tr ty labels key url
                pev pv Hty Hle Hlr Hup Hpv) as Hrun.
  cbv zeta in Hrun. fold primary t2 id now rec stored in Hrun.
  assert (Hquiet : forall err, none_of is_delete_file (upload_failure_log err) = true).
  { intros err. unfold upload_failure_log. destruct (is_HTTPException err); reflexivity. }
  assert (Hpev : none_of is_delete_file pev = true).
  { pose proof (create_preview_for_events (rewound f) acct ty (data (file f))
                  (primary :: tr)) as (_ & Hall & _).
    unfold emitted in Hall. rewrite Hpv in Hall. cbn [fst] in Hall.
    apply forallb_forall. intros ev Hin. rewrite Forall_forall in Hall.
    apply list_elem_of_In in Hin.
    destruct (Hall ev Hin) as [H|[H|H]]; destruct ev; try discriminate; reflexivity. }
  assert (Hwritten : none_of is_delete_file written = true).
  { subst written. rewrite !none_of_cons, none_of_app, Hpev. reflexivity. }
  split; [|split].
  - intros err Hst. rewrite Hst in Hrun. exact Hrun.
  - intros p err Hst Hresp. rewrite Hst, Hresp in Hrun. exact Hrun.
  - unfold emitted. rewrite Hrun. fold written.
    destruct stored as [err|p]; [|destruct (MediaResponse E p) as [err|resp]];
      cbn [fst]; rewrite ?none_of_app, ?none_of_cons, ?Hquiet, Hwritten;
      reflexivity.
Qed.

(** X18.  Every record a create hands to the store is filed under the
    caller, with the measured length of the whole upload as its size, the
    declared content type as it was sent (not lowered), the file name and
    the description as they were sent (null when absent), the key and the
    URL that the primary write returned, and one timestamp for both
    [uploadedAt] and [updatedAt]; its labels are null or an array, and
    null when no label data or an empty string was sent. *)
Theorem created_record_fields
    (f : UploadFile) (desc tags : option string) (acct : string) (tr : Trace)
    (rec : Doc) (stored : Exn + Doc) :
  In (EvCreateMedia rec stored) (emitted (upload_new_asset E f desc tags acct) tr) ->
  rec !! "userId" = Some (VStr acct)
  /\ rec !! "fileSize" = Some (VInt (Z.of_nat (length (data (file f)))))
  /\ rec !! "mimeType" = Some (of_opt (content_type f))
  /\ rec !! "originalFileName" = Some (of_opt (filename f))
  /\ rec !! "description" = Some (of_opt desc)
  /\ (exists key url,
        upload_file E tr (primary_stream f) acct (filename f) (content_type f)
        = inr (key, url)
        /\ rec !! "fileName" = Some (VStr key)
        /\ rec !! "blobUrl" = Some (VStr url))
  /\ (exists id now,
        rec !! "id" = Some (VStr id)
        /\ rec !! "uploadedAt" = Some (VStr now)
        /\ rec !! "updatedAt" = Some (VStr now))
  /\ (exists labels,
        rec !! "tags" = Some labels
        /\ (labels = VNone \/ is_list labels = true)
        /\ (tags = None \/ tags = Some "" -> labels = VNone)
        /\ (forall text, tags = Some text -> text <> "" ->
              json_loads E text = inr labels)).
Proof.
  intros Hin.
  destruct (upload_new_asset_runs E f desc tags acct tr)
    as [(err & _ & Hrun) | [(ty & labels & err & _ & _ & _ & Hup & Hrun)
       | (ty & labels & key & url & pev & pv & later & r
          & Hty & _ & Hlr & Hup & Hpv & Hrun)]].
  - unfold emitted in Hin. rewrite Hrun in Hin. cbn [fst] in Hin.
    apply upload_failure_log_quiet in Hin. discriminate.
  - unfold emitted in Hin. rewrite Hrun in Hin. cbn [fst] in Hin.
    apply in_app_or in Hin as [Hin|[Hin|[]]]; [|discriminate].
    apply upload_failure_log_quiet in Hin. discriminate.
  - cbv zeta in Hrun. destruct Hrun as (Hrun & Hlater & _ & _).
    unfold emitted in Hin. rewrite Hrun in Hin. cbn [fst] in Hin.
    destruct (create_preview_for_run E (rewound f) acct ty (data (file f))
                (EvUploadFile (primary_stream f) acct (filename f) (content_type f)
                   (inr (key, url)) :: tr)) as (pev' & pv' & Hpv' & Hquiet & _).
    rewrite Hpv in Hpv'. injection Hpv' as <- <-.
    assert (Hrec : rec = construct_asset_record
                           (uuid4 E (pev ++ EvUploadFile (primary_stream f) acct
                                        (filename f) (content_type f)
                                        (inr (key, url)) :: tr)%list)
                           acct key (rewound f) ty (stream_length f) url pv desc labels
                           (utcnow_isoformat E
                              (EvUuid4 (uuid4 E (pev ++ EvUploadFile (primary_stream f)
                                           acct (filename f) (content_type f)
                                           (inr (key, url)) :: tr)%list)
                               :: pev ++ EvUploadFile (primary_stream f) acct
                                    (filename f) (content_type f)
                                    (inr (key, url)) :: tr)%list)).
    { apply in_app_or in Hin as [Hin|Hin].
      - apply (none_of_In _ _ _ Hlater) in Hin. discriminate.
      - destruct Hin as [Heq|[Heq|[Heq|Hin]]]; try discriminate.
        + injection Heq as <- _. reflexivity.
        + apply in_app_or in Hin as [Hin|[Hin|[]]]; [|discriminate].
          apply (none_of_In _ _ _ Hquiet) in Hin. discriminate. }
    destruct (process_label_data_value tags tr labels Hlr) as (Hkind & Hnull & Hjson).
    subst rec. unfold construct_asset_record, dict, stream_length, rewound.
    cbn [filename content_type].
    do 5 (split; [reflexivity|]).
    split; [exists key, url; split; [exact Hup | split; reflexivity]|].
    split; [eexists _, _; split; [reflexivity | split; reflexivity]|].
    exists labels. split; [reflexivity|]. split; [exact Hkind|].
    split; [exact Hnull | exact Hjson].
Qed.

(** X19.  Whatever happens, a create writes at most two blobs (one for a
    video), hands at most one record to the store, and neither looks a
    record up nor updates or deletes anything. *)
Theorem create_writes_at_most_two_blobs_and_one_record
    (f : UploadFile) (desc tags : option string) (acct : string) (tr : Trace) :
  let evs := emitted (upload_new_asset E f desc tags acct) tr in
  (uploads evs <= 2)%nat
  /\ (determine_file_category E f = inr "video" -> (uploads evs <= 1)%nat)
  /\ (length (List.filter is_create_media evs) <= 1)%nat
  /\ none_of is_lookup evs = true
  /\ none_of is_update_media evs = true
  /\ none_of is_delete_media evs = true
  /\ none_of is_delete_file evs = true.
Proof.
  cbv zeta.
  assert (Hlog : forall err,
            List.filter is_upload (upload_failure_log err) = []
            /\ List.filter is_create_media (upload_failure_log err) = []
            /\ none_of is_lookup (upload_failure_log err) = true
            /\ none_of is_update_media (upload_failure_log err) = true
            /\ none_of is_delete_media (upload_failure_log err) = true
            /\ none_of is_delete_file (upload_failure_log err) = true).
  { intros err. unfold upload_failure_log.
    destruct (is_HTTPException err); repeat split. }
  destruct (upload_new_asset_runs E f desc tags acct tr)
    as [(err & _ & Hrun) | [(ty & labels & err & _ & _ & _ & Hup & Hrun)
       | (ty & labels & key & url & pev & pv & later & r
          & Hty & Hsz & Hlr & Hup & Hpv & _)]].
  - unfold emitted, uploads. rewrite Hrun. cbn [fst].
    destruct (Hlog err) as (-> & -> & ? & ? & ? & ?). cbn. repeat split; auto; lia.
  - unfold emitted, uploads. rewrite Hrun. cbn [fst].
    destruct (Hlog err) as (Hu & Hc & Hl & Hm & Hd & Hf).
    unfold none_of in *. rewrite !List.filter_app, !forallb_app, Hu, Hc, Hl, Hm, Hd, Hf.
    cbn. repeat split; auto; lia.
  - destruct (verify_file_constraints_inv E f _ Hsz) as [_ Hle].
    pose proof (upload_new_asset_after_primary f desc tags acct tr ty labels key url
                  pev pv Hty Hle Hlr Hup Hpv) as Hrun.
    cbv zeta in Hrun.
    pose proof (create_preview_for_events (rewound f) acct ty (data (file f))
                  (EvUploadFile (primary_stream f) acct (filename f) (content_type f)
                     (inr (key, url)) :: tr)) as (Hone & Hall & Hvideo).
    unfold emitted in Hone, Hall, Hvideo. rewrite Hpv in Hone, Hall, Hvideo.
    cbn [fst] in Hone, Hall, Hvideo. unfold uploads in Hone.
    assert (Hpev : List.filter is_create_media pev = []
                   /\ none_of is_lookup pev = true
                   /\ none_of is_update_media pev = true
                   /\ none_of is_delete_media pev = true
                   /\ none_of is_delete_file pev = true).
    { clear - Hall. induction Hall as [|ev l Hev _ IH]; [repeat split|].
      destruct IH as (Hc & Hl & Hm & Hd & Hf). unfold none_of in *. cbn.
      destruct Hev as [H|[H|H]]; destruct ev; try discriminate H; cbn;
        repeat split; assumption. }
    destruct Hpev as (Hc & Hl & Hm & Hd & Hf).
    assert (Hvid : determine_file_category E f = inr "video" -> pev = []).
    { intros Hv. apply Hvideo. intros ->.
      unfold validate_file_type in Hty. rewrite Hty in Hv. discriminate. }
    unfold emitted, uploads. rewrite Hrun. clear Hrun.
    match goal with
    | |- context [create_media E ?t ?d] => destruct (create_media E t d) as [err|p]
    end; [|destruct (MediaResponse E p) as [err|resp]]; cbn [fst];
      try (destruct (Hlog err) as (Hu' & Hc' & Hl' & Hm' & Hd' & Hf'));
      unfold none_of in *;
      rewrite ?List.filter_app, ?forallb_app, ?Hu', ?Hc', ?Hl', ?Hm', ?Hd', ?Hf';
      cbn [List.filter forallb is_upload is_create_media is_lookup is_update_media
           is_delete_media is_delete_file negb andb app length];
      rewrite ?List.filter_app, ?forallb_app, ?Hc, ?Hl, ?Hm, ?Hd, ?Hf;
      cbn [List.filter forallb is_upload is_create_media is_lookup is_update_media
           is_delete_media is_delete_file negb andb app length];
      rewrite ?List.length_app; cbn [length];
      (repeat split; auto; try lia;
       intros Hv; rewrite (Hvid Hv); cbn; lia).
Qed.

(** X20.  An upload that declares no content type is answered with 500,
    not with a validation error: the type check raises [AttributeError],
    which the route logs and wraps; nothing is written. *)
Theorem upload_without_content_type_is_a_server_error
    (f : UploadFile) (desc tags : option string) (acct : string) (tr : Trace) :
  content_type f = None ->
  exists msg,
    determine_file_category E f = inl (AttributeError msg)
    /\ upload_new_asset E f desc tags acct tr =
         ([EvLog ERROR ("Asset upload failed: " +:+ msg)],
          inl (HTTPException 500 ("Upload operation failed: " +:+ msg))).
Proof.
  intros Hct.
  assert (Hty : exists msg, determine_file_category E f = inl (AttributeError msg)).
  { unfold determine_file_category. rewrite Hct. eauto. }
  destruct Hty as (msg & Hty). exists msg. split; [exact Hty|].
  assert (Hv : validate_file_type E f = inl (AttributeError msg)) by exact Hty.
  exec (upload_new_asset E f desc tags acct tr).
Qed.

End CreateSteps.

(** The store refuses the record of an image whose blobs are written. *)
Lemma create_late_failure_leaves_what_was_written_witness :
  upload_new_asset Cases.create_refused (Demo.png Demo.three_bytes) None None
    "alice" [] =
    ([EvLog ERROR "Asset upload failed: store unavailable";
      EvCreateMedia Demo.new_cat (inl (OtherException "store unavailable"));
      EvUtcNow "T+3"; EvUuid4 "asset-2";
      EvUploadFile (BytesIO Demo.three_bytes) "alice" (Some "thumb_cat.png")
        (Some "image/jpeg")
        (inr ("alice/thumb_cat.png", "https://blobs.example/alice/thumb_cat.png"));
      EvUploadFile (primary_stream (Demo.png Demo.three_bytes)) "alice"
        (Some "cat.png") (Some "image/png")
        (inr ("alice/cat.png", "https://blobs.example/alice/cat.png"))],
     inl (HTTPException 500 "Upload operation failed: store unavailable")).
Proof.
  assert (Hle : (stream_length (Demo.png Demo.three_bytes)
                 <= max_file_size_bytes (settings Cases.create_refused))%Z)
    by (vm_compute; discriminate).
  pose proof (create_late_failure_leaves_what_was_written Cases.create_refused
                (Demo.png Demo.three_bytes) None None "alice" [] "image" VNone
                "alice/cat.png" "https://blobs.example/alice/cat.png"
                [EvUploadFile (BytesIO Demo.three_bytes) "alice"
                   (Some "thumb_cat.png") (Some "image/jpeg")
                   (inr ("alice/thumb_cat.png",
                         "https://blobs.example/alice/thumb_cat.png"))]
                (VStr "https://blobs.example/alice/thumb_cat.png")
                eq_refl Hle eq_refl eq_refl eq_refl) as (Hfail & _).
  apply (Hfail (OtherException "store unavailable")). reflexivity.
Defined.

(** An image upload with the label data [[1, 2]]. *)
Lemma created_record_fields_witness :
  In (EvCreateMedia Cases.labelled_cat (inr Cases.labelled_cat))
     (emitted (upload_new_asset Demo.library (Demo.png Demo.three_bytes)
                 None (Some "[1, 2]") "alice") [])
  /\ Cases.labelled_cat !! "userId" = Some (VStr "alice")
  /\ Cases.labelled_cat !! "fileSize" = Some (VInt 3)
  /\ Cases.labelled_cat !! "mimeType" = Some (VStr "image/png").
Proof.
  assert (Hin : In (EvCreateMedia Cases.labelled_cat (inr Cases.labelled_cat))
                   (emitted (upload_new_asset Demo.library (Demo.png Demo.three_bytes)
                               None (Some "[1, 2]") "alice") [])).
  { right. left. reflexivity. }
  split; [exact Hin|].
  destruct (created_record_fields Demo.library (Demo.png Demo.three_bytes)
              None (Some "[1, 2]") "alice" [] Cases.labelled_cat
              (inr Cases.labelled_cat) Hin)
    as (Howner & Hsize & Hmime & _).
  split; [exact Howner|]. split; [exact Hsize | exact Hmime].
Defined.

(** A video upload writes one blob. *)
Lemma create_writes_at_most_two_blobs_and_one_record_witness :
  (uploads (emitted (upload_new_asset Demo.library (Demo.mp4 Demo.three_bytes)
                       None None "alice") []) <= 1)%nat.
Proof.
  pose proof (create_writes_at_most_two_blobs_and_one_record Demo.library
                (Demo.mp4 Demo.three_bytes) None None "alice" [])
    as (_ & Hvideo & _).
  apply Hvideo. reflexivity.
Defined.

(** An upload without a declared content type. *)
Lemma upload_without_content_type_is_a_server_error_witness :
  exists msg,
    determine_file_category Demo.library Cases.untyped = inl (AttributeError msg)
    /\ upload_new_asset Demo.library Cases.untyped None None "alice" [] =
         ([EvLog ERROR ("Asset upload failed: " +:+ msg)],
          inl (HTTPException 500 ("Upload operation failed: " +:+ msg))).
Proof.
  apply (upload_without_content_type_is_a_server_error Demo.library Cases.untyped
           None None "alice" []).
  reflexivity.
Defined.

(** ** media_helpers.py: the preview key at delete time *)

Section PreviewKey.

Lemma append_empty_r (s : string) : s +:+ "" = s.
Proof.
  induction s as [|c s IH]; [reflexivity|].
  change (String c s +:+ "") with (String c (s +:+ "")). rewrite IH. reflexivity.
Qed.

Lemma string_length_append (s t : string) :
  String.length (s +:+ t) = (String.length s + String.length t)%nat.
Proof.
  induction s as [|c s IH]; [reflexivity|].
  change (String c s +:+ t) with (String c (s +:+ t)). cbn [String.length].
  rewrite IH. reflexivity.
Qed.

(** A replacement by something at least as long never shortens. *)
Lemma replace_go_length (old new : string) :
  (1 <= String.length old <= String.length new)%nat ->
  forall s k,
    (String.length s
     <= String.length (replace_go old new k s) + Nat.min k (String.length s))%nat.
Proof.
  intros Hlen. induction s as [|c s IH]; intros k; [cbn; lia|].
  destruct k as [|k].
  - cbn [replace_go]. destruct (String.prefix old (String c s)).
    + rewrite string_length_append. specialize (IH (String.length old - 1)%nat).
      cbn [String.length]. lia.
    + specialize (IH 0%nat). cbn [String.length]. lia.
  - cbn [replace_go]. specialize (IH k). cbn [String.length]. lia.
Qed.

(** A replacement by something longer lengthens a string in which the
    replaced text occurs. *)
Lemma replace_go_longer (old new s : string) :
  (String.length old < String.length new)%nat ->
  occurs old s = true ->
  replace_go old new 0 s = s -> old = "".
Proof.
  intros Hlen Hocc Hsame.
  assert (Hlonger : old <> "" ->
                    (String.length s < String.length (replace_go old new 0 s))%nat).
  { intros Hne. clear Hsame.
    assert (Hpos : (1 <= String.length old)%nat).
    { destruct old; [contradiction | cbn; lia]. }
    induction s as [|c s IH].
    - destruct old; [contradiction | discriminate Hocc].
    - cbn [occurs] in Hocc. cbn [replace_go].
      destruct (String.prefix old (String c s)) eqn:Hp.
      + rewrite string_length_append.
        pose proof (replace_go_length old new ltac:(lia) s (String.length old - 1))
          as Hrest.
        cbn [String.length]. lia.
      + cbn [orb] in Hocc. specialize (IH Hocc). cbn [String.length]. lia. }
  destruct old as [|a old]; [reflexivity|].
  exfalso. specialize (Hlonger ltac:(discriminate)). rewrite Hsame in Hlonger. lia.
Qed.

Lemma interleave_length (new s : string) :
  String.length (interleave new s)
  = (String.length s + (String.length s + 1) * String.length new)%nat.
Proof.
  induction s as [|c s IH]; [cbn; lia|].
  cbn [interleave]. rewrite string_length_append. cbn [String.length]. rewrite IH. lia.
Qed.

(** [split("/")] of a path with a slash in it. *)
Lemma split_slash_append (dir name : string) :
  split_slash (dir +:+ "/" +:+ name) = (split_slash dir ++ split_slash name)%list.
Proof.
  induction dir as [|c dir IH]; [reflexivity|].
  change (String c dir +:+ "/" +:+ name) with (String c (dir +:+ "/" +:+ name)).
  cbn [split_slash]. rewrite IH.
  destruct (Ascii.eqb c "/"); [reflexivity|].
  destruct (split_slash dir) as [|x xs] eqn:Hd; [|reflexivity].
  destruct dir as [|d dir']; [discriminate Hd|].
  cbn [split_slash] in Hd. destruct (Ascii.eqb d "/"); [discriminate|].
  destruct (split_slash dir'); discriminate.
Qed.

Lemma split_slash_nonempty (s : string) : split_slash s <> [].
Proof.
  destruct s as [|c s]; [discriminate|]. cbn [split_slash].
  destruct (Ascii.eqb c "/"); [discriminate|].
  destruct (split_slash s); discriminate.
Qed.

Lemma last_app_nonempty {A} (l1 l2 : list A) (d : A) :
  l2 <> [] -> List.last (l1 ++ l2) d = List.last l2 d.
Proof.
  intros Hne. induction l1 as [|x l1 IH]; [reflexivity|].
  cbn [app]. destruct (l1 ++ l2)%list as [|y l] eqn:Hl.
  - destruct l1; [cbn in Hl; contradiction | discriminate].
  - cbn [List.last]. exact IH.
Qed.

(** The run of the derivation for a record that has a preview URL, a
    string as its original file name and a string as its key. *)
Lemma parse_preview_of_strings (doc : Doc) (name key : string) (tr : Trace) :
  truthy (dict_get doc "thumbnailUrl") = true ->
  doc !! "originalFileName" = Some (VStr name) ->
  doc !! "fileName" = Some (VStr key) ->
  parse_preview_storage_identifier doc tr =
    ([], inr (Some (replace (last_segment name) ("thumb_" +:+ last_segment name) key))).
Proof.
  intros Hth Hname Hkey. unfold parse_preview_storage_identifier. rewrite Hth.
  unfold_m. unfold getitem. rewrite Hname, Hkey. reflexivity.
Qed.

(** X21.  For a record with a preview URL, the key derived at delete time
    is the primary key itself exactly when the last segment of the
    original file name does not occur in the primary key; the derivation
    reads nothing but that last segment, so directories in the original
    file name make no difference; and an original file name that is empty
    or ends in a slash yields the primary key with [thumb_] before every
    character and at its end. *)
Theorem preview_key_is_the_primary_key_exactly_when_the_name_is_absent
    (doc : Doc) (name key : string) (tr : Trace) :
  truthy (dict_get doc "thumbnailUrl") = true ->
  doc !! "originalFileName" = Some (VStr name) ->
  doc !! "fileName" = Some (VStr key) ->
  let run := result (parse_preview_storage_identifier doc) tr in
  (run = inr (Some key) <-> occurs (last_segment name) key = false)
  /\ (forall dir,
        parse_preview_storage_identifier
          (<["originalFileName" := VStr (dir +:+ "/" +:+ name)]> doc) tr
        = parse_preview_storage_identifier doc tr)
  /\ (last_segment name = "" ->
        run = inr (Some (interleave "thumb_" key))
        /\ String.length (interleave "thumb_" key)
           = (7 * String.length key + 6)%nat).
Proof.
  intros Hth Hname Hkey run. subst run.
  pose proof (parse_preview_of_strings doc name key tr Hth Hname Hkey) as Hrun.
  unfold result. rewrite Hrun. cbn [snd].
  split; [|split].
  - split.
    + intros [= Hsame]. destruct (occurs (last_segment name) key) eqn:Hocc;
        [|reflexivity].
      exfalso. destruct (last_segment name) as [|a seg] eqn:Hseg.
      * cbn [replace] in Hsame.
        change ("thumb_" +:+ "") with "thumb_" in Hsame.
        pose proof (interleave_length "thumb_" key) as Hl.
        rewrite Hsame in Hl. cbn [String.length] in Hl. lia.
      * unfold replace in Hsame.
        apply replace_go_longer in Hsame; [discriminate | | exact Hocc].
        rewrite string_length_append. cbn. lia.
    + intros Hocc. rewrite (replace_absent _ _ _ Hocc). reflexivity.
  - intros dir.
    assert (Hth' : truthy (dict_get (<["originalFileName" :=
                      VStr (dir +:+ "/" +:+ name)]> doc) "thumbnailUrl") = true).
    { unfold dict_get. rewrite lookup_insert_ne by discriminate. exact Hth. }
    rewrite (parse_preview_of_strings _ (dir +:+ "/" +:+ name) key tr Hth'
               ltac:(apply lookup_insert_eq)
               ltac:(rewrite lookup_insert_ne by discriminate; exact Hkey)).
    unfold last_segment. rewrite split_slash_append.
    rewrite (last_app_nonempty _ _ _ (split_slash_nonempty name)). reflexivity.
  - intros Hseg. rewrite Hseg. split; [reflexivity|].
    rewrite interleave_length. cbn [String.length]. lia.
Qed.

End PreviewKey.

(** ** Create, then delete *)

Section RoundTrip.
Variable E : Env.

(** X22.  What a create leaves behind, a delete finds again, when the
    blob store names a blob after its owner's prefix and the name given.
    For an upload named [name] (not empty, without a slash, and not
    occurring across the end of the prefix), a record that a create has
    handed to the store with a preview URL was written after a preview
    write that returned some key, and the key derived from that record at
    delete time is exactly this key, derived without a log entry. *)
Theorem created_preview_is_found_again_at_delete
    (f : UploadFile) (desc tags : option string) (acct pre name purl : string)
    (tr : Trace) (rec : Doc) (stored : Exn + Doc) :
  (forall t s n ct k u,
     upload_file E t s acct (Some n) ct = inr (k, u) -> k = pre +:+ n) ->
  filename f = Some name ->
  name <> "" ->
  last_segment name = name ->
  starts_after name pre name = true ->
  In (EvCreateMedia rec stored) (emitted (upload_new_asset E f desc tags acct) tr) ->
  rec !! "thumbnailUrl" = Some (VStr purl) ->
  purl <> "" ->
  exists thumb t1 pkey,
    upload_file E t1 (BytesIO thumb) acct (Some ("thumb_" +:+ name))
      (Some "image/jpeg") = inr (pkey, purl)
    /\ forall later,
         parse_preview_storage_identifier rec later = ([], inr (Some pkey)).
Proof.
  intros Hscheme Hname Hne Hseg Hstart Hin Hthumb Hpurl.
  destruct (upload_created_record E f desc tags acct tr rec stored Hin)
    as (ty & labels & key & url & pev & pv & id & now & Hty & Hup & Hpv & Hrec).
  destruct (create_preview_for_run E (rewound f) acct ty (data (file f))
              (EvUploadFile (primary_stream f) acct (filename f) (content_type f)
                 (inr (key, url)) :: tr))
    as (pev' & pv' & Hpv' & _ & Hkind).
  rewrite Hpv in Hpv'. injection Hpv' as <- <-.
  assert (Hfield : rec !! "thumbnailUrl" = Some pv).
  { subst rec. reflexivity. }
  rewrite Hthumb in Hfield. injection Hfield as <-.
  destruct Hkind as [Hnone | (thumb & pkey & purl' & _ & _ & _ & Hpup & _ & Hv)];
    [discriminate|].
  injection Hv as <-.
  cbn [rewound filename] in Hpup. rewrite Hname in Hpup, Hup. cbn [fmt_opt] in Hpup.
  pose proof (Hscheme _ _ _ _ _ _ Hup) as ->.
  pose proof (Hscheme _ _ _ _ _ _ Hpup) as ->.
  eexists thumb, _, _. split; [exact Hpup|].
  intros later.
  assert (Hth : truthy (dict_get rec "thumbnailUrl") = true).
  { unfold dict_get. rewrite Hthumb. cbn.
    destruct (String.eqb_spec purl ""); [contradiction | reflexivity]. }
  assert (Horig : rec !! "originalFileName" = Some (VStr name)).
  { subst rec. unfold construct_asset_record, dict, rewound.
    cbn [filename]. rewrite Hname. reflexivity. }
  assert (Hkey : rec !! "fileName" = Some (VStr (pre +:+ name))).
  { subst rec. reflexivity. }
  rewrite (parse_preview_of_strings rec name (pre +:+ name) later Hth Horig Hkey).
  rewrite Hseg. do 3 f_equal.
  destruct name as [|a name']; [contradiction|].
  pose proof (replace_first a name' ("thumb_" +:+ String a name') pre "") as Hfirst.
  cbn [replace replace_go] in Hfirst. rewrite !append_empty_r in Hfirst.
  exact (Hfirst Hstart).
Qed.

(** X23.  The preview of an upload that came without a file name is
    written under the name [thumb_None] and is never found again: the
    record carries a null original file name, and the derivation at delete
    time gives no key for it, with a warning. *)
Theorem nameless_upload_preview_is_not_found_at_delete
    (f : UploadFile) (desc tags : option string) (acct : string)
    (tr : Trace) (rec : Doc) (stored : Exn + Doc) (pv : Val) :
  filename f = None ->
  In (EvCreateMedia rec stored) (emitted (upload_new_asset E f desc tags acct) tr) ->
  rec !! "thumbnailUrl" = Some pv ->
  truthy pv = true ->
  (exists thumb t1 pkey purl,
     upload_file E t1 (BytesIO thumb) acct (Some "thumb_None") (Some "image/jpeg")
     = inr (pkey, purl)
     /\ pv = VStr purl)
  /\ rec !! "originalFileName" = Some VNone
  /\ forall later,
       exists msg,
         parse_preview_storage_identifier rec later = ([EvLog WARNING msg], inr None).
Proof.
  intros Hname Hin Hthumb Htruthy.
  destruct (upload_created_record E f desc tags acct tr rec stored Hin)
    as (ty & labels & key & url & pev & pv0 & id & now & Hty & Hup & Hpv & Hrec).
  destruct (create_preview_for_run E (rewound f) acct ty (data (file f))
              (EvUploadFile (primary_stream f) acct (filename f) (content_type f)
                 (inr (key, url)) :: tr))
    as (pev' & pv' & Hpv' & _ & Hkind).
  rewrite Hpv in Hpv'. injection Hpv' as <- <-.
  assert (Hfield : rec !! "thumbnailUrl" = Some pv0).
  { subst rec. reflexivity. }
  rewrite Hthumb in Hfield. injection Hfield as <-.
  assert (Horig : rec !! "originalFileName" = Some VNone).
  { subst rec. unfold construct_asset_record, dict, rewound.
    cbn [filename]. rewrite Hname. reflexivity. }
  split; [|split; [exact Horig|]].
  - destruct Hkind as [-> | (thumb & pkey & purl & _ & _ & _ & Hpup & _ & Hv)];
      [discriminate|].
    cbn [rewound filename] in Hpup. rewrite Hname in Hpup.
    exists thumb. eexists _, pkey, purl. split; [exact Hpup | exact Hv].
  - intros later. unfold parse_preview_storage_identifier, dict_get.
    rewrite Hthumb, Htruthy. unfold_m. unfold getitem. rewrite Horig.
    eexists. reflexivity.
Qed.

End RoundTrip.

(** The record of [cat] under the key [alice/0042.bin], in which
    [cat.png] does not occur. *)
Lemma preview_key_is_the_primary_key_exactly_when_the_name_is_absent_witness :
  result (parse_preview_storage_identifier Demo.renamed_cat) []
  = inr (Some "alice/0042.bin").
Proof.
  pose proof (preview_key_is_the_primary_key_exactly_when_the_name_is_absent
                Demo.renamed_cat "cat.png" "alice/0042.bin" []
                eq_refl eq_refl eq_refl) as (Hsame & _).
  apply Hsame. reflexivity.
Defined.

(** The record of an image upload in [library], whose blob store files
    the blobs of [alice] under [alice/]. *)
Lemma created_preview_is_found_again_at_delete_witness :
  parse_preview_storage_identifier Demo.new_cat [] =
    ([], inr (Some "alice/thumb_cat.png")).
Proof.
  assert (Hscheme : forall t s n ct k u,
            upload_file Demo.library t s "alice" (Some n) ct = inr (k, u) ->
            k = "alice/" +:+ n).
  { intros t s n ct k u. cbn [Demo.library Demo.world upload_file].
    case_bool_decide; [discriminate|]. intros [= <- _]. reflexivity. }
  assert (Hin : In (EvCreateMedia Demo.new_cat (inr Demo.new_cat))
                   (emitted (upload_new_asset Demo.library (Demo.png Demo.three_bytes)
                               None None "alice") [])).
  { right. left. reflexivity. }
  destruct (created_preview_is_found_again_at_delete Demo.library
              (Demo.png Demo.three_bytes) None None "alice" "alice/" "cat.png"
              "https://blobs.example/alice/thumb_cat.png" []
              Demo.new_cat (inr Demo.new_cat) Hscheme eq_refl
              ltac:(discriminate) eq_refl eq_refl Hin eq_refl ltac:(discriminate))
    as (thumb & t1 & pkey & Hup & Hfound).
  rewrite (Hfound []).
  apply Hscheme in Hup. rewrite Hup. reflexivity.
Defined.

(** The record of an image upload without a file name. *)
Lemma nameless_upload_preview_is_not_found_at_delete_witness :
  In (EvCreateMedia Cases.nameless_record (inr Cases.nameless_record))
     (emitted (upload_new_asset Demo.library Cases.nameless None None "alice") [])
  /\ Cases.nameless_record !! "originalFileName" = Some VNone
  /\ exists msg,
       parse_preview_storage_identifier Cases.nameless_record [] =
         ([EvLog WARNING msg], inr None).
Proof.
  assert (Hin : In (EvCreateMedia Cases.nameless_record (inr Cases.nameless_record))
                   (emitted (upload_new_asset Demo.library Cases.nameless
                               None None "alice") [])).
  { right. left. reflexivity. }
  split; [exact Hin|].
  destruct (nameless_upload_preview_is_not_found_at_delete Demo.library
              Cases.nameless None None "alice" [] Cases.nameless_record
              (inr Cases.nameless_record)
              (VStr "https://blobs.example/alice/thumb_None")
              eq_refl Hin eq_refl eq_refl)
    as (_ & Horig & Hlost).
  split; [exact Horig | exact (Hlost [])].
Defined.

(** ** routes_media.py: the notification *)

Section Notification.
Variable E : Env.

(** X24.  A run of the notification makes at most one request and writes
    exactly one log entry.  Without a configured URL (none, or the empty
    string) it makes no request and logs one warning.  With a URL it makes
    exactly one request, to that URL, and logs the success exactly when
    the request returned and its status check passed, an error otherwise;
    there is no second attempt. *)
Theorem notify_logic_app_posts_at_most_once (tr : Trace) :
  let evs := emitted (notify_logic_app E) tr in
  (logic_app_url (settings E) = None \/ logic_app_url (settings E) = Some "" ->
     evs = [EvLog WARNING "LOGIC_APP_URL is not configured, skipping notification"])
  /\ (forall url,
        logic_app_url (settings E) = Some url -> url <> "" ->
        let posted := http_post E tr url notification_payload in
        exists lvl msg,
          evs = [EvLog lvl msg; EvHttpPost url notification_payload posted]
          /\ (lvl = INFO \/ lvl = ERROR)
          /\ (lvl = INFO <->
                exists code, posted = inr code /\ raise_for_status E code = inr tt)).
Proof.
  cbv zeta. unfold emitted. rewrite notify_logic_app_run. cbv zeta. split.
  - intros [-> | ->]; reflexivity.
  - intros url -> Hne.
    destruct (String.eqb_spec url ""); [contradiction|].
    destruct (http_post E tr url notification_payload) as [e|code] eqn:Hpost.
    + cbn [fst]. eexists ERROR, _. split; [reflexivity|]. split; [auto|].
      split; [discriminate | intros (c & Hbad & _); discriminate].
    + destruct (raise_for_status E code) as [e|[]] eqn:Hcheck; cbn [fst].
      * eexists ERROR, _. split; [reflexivity|]. split; [auto|].
        split; [discriminate|]. intros (c & [= <-] & Hok). congruence.
      * eexists INFO, _. split; [reflexivity|]. split; [auto|].
        split; [eauto | reflexivity].
Qed.

End Notification.

(** ** utils.py: the preview of an image with transparency *)

Section Flattening.
Variable E : Env.


End Flattening.

(** No webhook is configured. *)
Lemma notify_logic_app_posts_at_most_once_witness :
  emitted (notify_logic_app
             (with_webhook Demo.library None (http_post Demo.library)
                (raise_for_status Demo.library))) []
  = [EvLog WARNING "LOGIC_APP_URL is not configured, skipping notification"].
Proof.
  pose proof (notify_logic_app_posts_at_most_once
                (with_webhook Demo.library None (http_post Demo.library)
                   (raise_for_status Demo.library)) []) as (Hquiet & _).
  apply Hquiet. left. reflexivity.
Defined.

